(** * Folder tree generator: a shallow embedding of
    [Store_Old_Files/Folder_Tree_Claude_shorter.py]

    The development follows the Python class [FolderTreeGenerator]: the
    lookup tables, the helpers on names and sizes, the entry filter, the
    recursive walk [_build_tree] and its driver [generate_tree].  The
    generator object is a record that every method takes and gives back
    (explicit state passing); the filesystem is a finite tree of paths.

    Conventions of the model.
    - A Python [str] is a [string] of bytes (UTF-8 as in the source file).
      Comparing byte strings agrees with comparing code points; [lower] and
      [upper] act on the ASCII letters.
    - A Python [int] is a [Z].  A [float] only occurs in [format_size], as an
      integer divided by a power of two, which is exact on binary64.
    - [Path.is_dir], [Path.is_file] follow links, so a path is a directory,
      a regular file or neither; links are not told apart from their target.
      A cycle of links is a tree unfolded as deep as [max_depth] reaches.
    - [is_dir] and [is_file] answer for every path listed.  (On a directory
      that can be listed but not searched, [stat] fails on the children and
      pathlib lets that [PermissionError] through; such trees are left out.)
      What can raise in the model is [iterdir], [stat] for a size, and the
      missing root. *)

From Stdlib Require Import ZArith List String Ascii Bool Lia DecimalString.
From Stdlib Require Import Sorted.
Import ListNotations.

Local Open Scope string_scope.
Local Open Scope Z_scope.
Local Open Scope list_scope.

(** ** Strings the way Python uses them *)

Infix "+++" := String.append (right associativity, at level 60).

Definition lower_ascii (c : ascii) : ascii :=
  let n := nat_of_ascii c in
  if (65 <=? n)%nat && (n <=? 90)%nat then ascii_of_nat (n + 32) else c.

Definition upper_ascii (c : ascii) : ascii :=
  let n := nat_of_ascii c in
  if (97 <=? n)%nat && (n <=? 122)%nat then ascii_of_nat (n - 32) else c.

Fixpoint map_string (f : ascii -> ascii) (s : string) : string :=
  match s with
  | EmptyString => EmptyString
  | String c s' => String (f c) (map_string f s')
  end.

(** [str.lower], [str.upper] *)
Definition lower : string -> string := map_string lower_ascii.
Definition upper : string -> string := map_string upper_ascii.

(** [len(s)] *)
Definition len (s : string) : Z := Z.of_nat (String.length s).

(** [s.startswith(p)] *)
Definition startswith (s p : string) : bool := String.prefix p s.

(** [sub in s]: [sub] occurs in [s] as a run of consecutive characters. *)
Fixpoint str_contains (sub s : string) : bool :=
  String.prefix sub s ||
  match s with
  | EmptyString => false
  | String _ s' => str_contains sub s'
  end.

(** [s.rfind(c)]: the highest index holding [c], or [-1]. *)
Fixpoint rfind_from (c : ascii) (s : string) (pos found : Z) : Z :=
  match s with
  | EmptyString => found
  | String a s' =>
      rfind_from c s' (pos + 1) (if Ascii.eqb a c then pos else found)
  end.

Definition rfind (s : string) (c : ascii) : Z := rfind_from c s 0 (-1).

(** [s[i:]] for [0 <= i] *)
Definition slice_from (s : string) (i : Z) : string :=
  String.substring (Z.to_nat i) (String.length s - Z.to_nat i) s.

(** [str(n)] for an integer *)
Definition str_of_int (n : Z) : string := NilZero.string_of_int (Z.to_int n).

(** [x in xs] for a set or list of strings *)
Definition str_in (x : string) (xs : list string) : bool :=
  existsb (String.eqb x) xs.

(** ** Dictionaries with string keys *)

Definition dict := list (string * string).

(** [d.get(k, default)] *)
Fixpoint get (d : dict) (k : string) (default : string) : string :=
  match d with
  | [] => default
  | (k', v) :: d' => if String.eqb k k' then v else get d' k default
  end.

(** ** The tables of [FileTypeIcons] and [TreeStyle] *)

(** [FileTypeIcons.ARTISANAL]. The emoji set. *)
Definition ARTISANAL : dict :=
  [
    (".txt", "📄"); (".md", "📝"); (".pdf", "📄"); (".doc", "📃"); (".docx", "📃");
    (".rtf", "📄"); (".odt", "📄"); (".pages", "📄"); (".xls", "📊");
    (".xlsx", "📊"); (".csv", "📊"); (".ods", "📊"); (".ppt", "📊");
    (".pptx", "📊"); (".odp", "📊"); (".key", "📊"); (".jpg", "🖼️");
    (".jpeg", "🖼️"); (".png", "🖼️"); (".gif", "🖼️"); (".bmp", "🖼️");
    (".svg", "🎨"); (".ico", "🖼️"); (".tiff", "🖼️"); (".webp", "🖼️");
    (".mp3", "🎵"); (".wav", "🎵"); (".flac", "🎵"); (".aac", "🎵");
    (".ogg", "🎵"); (".m4a", "🎵"); (".wma", "🎵"); (".mp4", "🎬"); (".avi", "🎬");
    (".mkv", "🎬"); (".mov", "🎬"); (".wmv", "🎬"); (".flv", "🎬");
    (".webm", "🎬"); (".m4v", "🎬"); (".py", "🐍"); (".js", "📜"); (".html", "🌐");
    (".css", "🎨"); (".php", "🐘"); (".java", "☕"); (".cpp", "⚙️");
    (".c", "⚙️"); (".cs", "🔷"); (".rb", "💎"); (".go", "🐹"); (".rs", "🦀");
    (".swift", "🐦"); (".kt", "🅺"); (".scala", "⚖️"); (".r", "📈");
    (".sql", "🗄️"); (".sh", "💻"); (".bat", "⚙️"); (".ps1", "💻");
    (".ipynb", "📓"); (".json", "🔧"); (".yml", "🔧"); (".yaml", "🔧");
    (".xml", "🔧"); (".ini", "🔧"); (".conf", "🔧"); (".config", "🔧");
    (".toml", "🔧"); (".zip", "🗜️"); (".rar", "🗜️"); (".7z", "🗜️");
    (".tar", "🗜️"); (".gz", "🗜️"); (".bz2", "🗜️"); (".xz", "🗜️");
    (".exe", "⚙️"); (".msi", "📦"); (".deb", "📦"); (".rpm", "📦");
    (".dmg", "📦"); (".app", "📱"); (".apk", "📱"); ("folder", "📁");
    ("key_folder", "📂"); ("file", "📄"); ("unknown", "❓")
  ].

(** [FileTypeIcons.SIMPLE]. The ASCII-safe set. *)
Definition SIMPLE : dict :=
  [
    (".txt", "T"); (".md", "M"); (".pdf", "P"); (".doc", "D"); (".docx", "D");
    (".jpg", "I"); (".jpeg", "I"); (".png", "I"); (".gif", "G");
    (".svg", "S"); (".mp3", "A"); (".wav", "A"); (".mp4", "V"); (".avi", "V");
    (".py", "P"); (".js", "J"); (".html", "H"); (".css", "C"); (".zip", "Z");
    (".rar", "R"); ("folder", "+"); ("file", "-"); ("unknown", "?")
  ].

(** [FileTypeIcons.PROFESSIONAL]. The bracketed set. *)
Definition PROFESSIONAL : dict :=
  [
    (".txt", "[TXT]"); (".md", "[MD]"); (".pdf", "[PDF]"); (".doc", "[DOC]");
    (".docx", "[DOC]"); (".xls", "[XLS]"); (".xlsx", "[XLS]");
    (".csv", "[CSV]"); (".jpg", "[IMG]"); (".jpeg", "[IMG]");
    (".png", "[IMG]"); (".gif", "[GIF]"); (".mp3", "[MP3]");
    (".wav", "[WAV]"); (".mp4", "[MP4]"); (".avi", "[AVI]"); (".py", "[PY]");
    (".js", "[JS]"); (".html", "[HTM]"); (".css", "[CSS]"); (".zip", "[ZIP]");
    (".rar", "[RAR]"); ("folder", "[DIR]"); ("file", "[   ]");
    ("unknown", "[?]")
  ].

(** [getattr(FileTypeIcons, attr, FileTypeIcons.SIMPLE)] *)
Definition FileTypeIcons_getattr (attr : string) : dict :=
  if String.eqb attr "ARTISANAL" then ARTISANAL
  else if String.eqb attr "SIMPLE" then SIMPLE
  else if String.eqb attr "PROFESSIONAL" then PROFESSIONAL
  else SIMPLE.

(** One entry of [TreeStyle.STYLES]: the five glyph strings of a style. *)
Record Style : Type := mkStyle {
  vertical : string;
  horizontal : string;
  junction : string;
  corner : string;
  space : string
}.

(** [TreeStyle.STYLES['simple']] *)
Definition STYLES_simple : Style := mkStyle "│ " "─ " "├─ " "└─ " "  ".

Definition STYLES : list (string * Style) :=
  [ ("simple", STYLES_simple);
    ("professional", mkStyle "│ " "─ " "├─ " "└─ " "  ");
    ("artisanal", mkStyle "│ " "─ " "├─ " "└─ " "  ");
    ("ascii", mkStyle "| " "- " "+- " "+- " "  ") ].

(** [TreeStyle.STYLES.get(style, TreeStyle.STYLES['simple'])] *)
Fixpoint STYLES_get (table : list (string * Style)) (k : string)
    (default : Style) : Style :=
  match table with
  | [] => default
  | (k', v) :: table' =>
      if String.eqb k k' then v else STYLES_get table' k default
  end.

(** ** The filesystem

    What [pathlib] shows of a path that exists: its final component, whether
    it is a regular file or a directory, the size [stat] reports ([None]
    when [stat] raises [OSError]) and what [iterdir] yields ([None] when it
    raises [OSError], as on a directory that cannot be read).  The listing
    is in the order [iterdir] gives it. *)

Unset Elimination Schemes.
Inductive Path : Type :=
| File (name : string) (st_size : option Z)
| Dir (name : string) (listing : option (list Path))
| Other (name : string).
Set Elimination Schemes.

(** [p.name] *)
Definition name (p : Path) : string :=
  match p with
  | File n _ => n
  | Dir n _ => n
  | Other n => n
  end.

Definition is_dir (p : Path) : bool :=
  match p with Dir _ _ => true | _ => false end.

Definition is_file (p : Path) : bool :=
  match p with File _ _ => true | _ => false end.

(** [list(p.iterdir())]; [None] stands for [OSError], which is also what a
    path that is no directory raises. *)
Definition iterdir (p : Path) : option (list Path) :=
  match p with
  | Dir _ l => l
  | _ => None
  end.

(** [p.suffix]: the last dot and what follows it, unless that dot opens or
    closes the name. *)
Definition suffix (p : Path) : string :=
  let n := name p in
  let i := rfind n "." in
  if (0 <? i) && (i <? len n - 1) then slice_from n i else "".

(** A filesystem answers [Path(root_path).resolve()] followed by
    [exists()]: [None] when nothing is there. *)
Definition filesystem := string -> option Path.

(** ** The generator object *)

Record Stats : Type := mkStats {
  folders : Z;
  files : Z;
  total_size : Z;
  truncated_folders : Z
}.

Record FolderTreeGenerator : Type := mkGen {
  style : Style;
  icon_set : dict;
  max_depth : Z;
  max_files_per_folder : option Z;
  tree_lines : list string;
  stats : Stats
}.

(** [{'folders': 0, 'files': 0, 'total_size': 0, 'truncated_folders': 0}] *)
Definition stats0 : Stats := mkStats 0 0 0 0.

(** [self.file_categories] *)
Definition file_categories : list (string * list string) :=
  [ ("documents", [".txt"; ".md"; ".pdf"; ".doc"; ".docx"; ".rtf"; ".odt"]);
    ("images", [".jpg"; ".jpeg"; ".png"; ".gif"; ".bmp"; ".svg"; ".ico";
                ".tiff"; ".webp"]);
    ("audio", [".mp3"; ".wav"; ".flac"; ".aac"; ".ogg"; ".m4a"; ".wma"]);
    ("video", [".mp4"; ".avi"; ".mkv"; ".mov"; ".wmv"; ".flv"; ".webm";
               ".m4v"]);
    ("code", [".py"; ".js"; ".html"; ".css"; ".php"; ".java"; ".cpp"; ".c";
              ".cs"; ".rb"]);
    ("archives", [".zip"; ".rar"; ".7z"; ".tar"; ".gz"; ".bz2"; ".xz"]) ].

(** [self.file_categories.get(category, set())] *)
Fixpoint file_categories_get (table : list (string * list string))
    (category : string) : list string :=
  match table with
  | [] => []
  | (k, v) :: table' =>
      if String.eqb category k then v else file_categories_get table' category
  end.

Definition __init__ (style_name icon_set_name : string) (max_depth : Z)
    (max_files_per_folder : option Z) : FolderTreeGenerator :=
  mkGen (STYLES_get STYLES style_name STYLES_simple)
        (FileTypeIcons_getattr (upper icon_set_name))
        max_depth max_files_per_folder [] stats0.

(** The updates of [self] that the walk performs. *)
Definition append_line (self : FolderTreeGenerator) (line : string)
    : FolderTreeGenerator :=
  mkGen (style self) (icon_set self) (max_depth self)
        (max_files_per_folder self) (tree_lines self ++ [line]) (stats self).

Definition set_stats (self : FolderTreeGenerator) (s : Stats)
    : FolderTreeGenerator :=
  mkGen (style self) (icon_set self) (max_depth self)
        (max_files_per_folder self) (tree_lines self) s.

Definition add_folder (s : Stats) : Stats :=
  mkStats (folders s + 1) (files s) (total_size s) (truncated_folders s).

Definition add_file (s : Stats) (file_size : Z) : Stats :=
  mkStats (folders s) (files s + 1) (total_size s + file_size)
          (truncated_folders s).

Definition add_truncated (s : Stats) : Stats :=
  mkStats (folders s) (files s) (total_size s) (truncated_folders s + 1).

(** ** Icons, key directories, sizes *)

Definition get_file_icon (self : FolderTreeGenerator) (file_path : Path)
    (is_key_folder : bool) : string :=
  if is_dir file_path then
    if is_key_folder then get (icon_set self) "key_folder" "📂"
    else get (icon_set self) "folder" "📁"
  else
    let ext := lower (suffix file_path) in
    get (icon_set self) ext (get (icon_set self) "file" "📄").

Definition key_dirs : list string :=
  [
    "src"; "source"; "lib"; "libs"; "app"; "apps"; "components"; "pages";
    "views"; "models"; "controllers"; "services"; "utils"; "helpers";
    "config"; "configs"; "settings"; "static"; "assets"; "resources";
    "public"; "private"; "data"; "database"; "db"; "migrations"; "schemas";
    "api"; "apis"; "routes"; "middleware"; "templates"; "views"; "layouts";
    "partials"; "includes"; "tests"; "test"; "spec"; "specs"; "docs";
    "documentation"; "examples"; "samples"; "demos"; "tutorials"; "guides";
    "scripts"; "tools"; "bin"; "build"; "dist"; "output"; "notebooks";
    "helpfiles"
  ].

Definition is_key_directory (dir_name : string) : bool :=
  str_in (lower dir_name) key_dirs.

(** [file_path.stat().st_size if file_path.is_file() else 0], and [0] when
    [stat] raises. *)
Definition get_file_size (file_path : Path) : Z :=
  match file_path with
  | File _ (Some size) => size
  | _ => 0
  end.

(** A number in [format_size]: the [int] it is given, or a [float] once it
    was divided.  The float [PyFloat m e] is [m / 2^e]; dividing it by
    [1024.0] is exact on binary64. *)
Inductive number : Type :=
| PyInt (n : Z)
| PyFloat (m e : Z).

(** [to_double n] is [float(n)]: the integer rounded to 53 significant bits,
    ties to the even significand.  (An integer beyond the largest double makes
    Python raise [OverflowError]; sizes come from [stat] and are far below.) *)
Definition to_double (n : Z) : Z :=
  let a := Z.abs n in
  let e := Z.log2 a - 52 in
  if e <=? 0 then n
  else
    let q := Z.shiftr a e in
    let r := Z.land a (Z.ones e) in
    let half := Z.shiftl 1 (e - 1) in
    let q' := if (half <? r) || ((r =? half) && Z.odd q) then q + 1 else q in
    Z.sgn n * Z.shiftl q' e.

(** [x >= 1024] *)
Definition ge_1024 (x : number) : bool :=
  match x with
  | PyInt n => 1024 <=? n
  | PyFloat m e => 1024 * 2 ^ e <=? m
  end.

(** [x / 1024.0] *)
Definition div_1024 (x : number) : number :=
  match x with
  | PyInt n => PyFloat (to_double n) 10
  | PyFloat m e => PyFloat m (e + 10)
  end.

(** The decimal with one fractional digit nearest to [m / 2^e], ties to the
    even digit. *)
Definition format_1f (m e : Z) : string :=
  let a := Z.abs m in
  let d := 2 ^ e in
  let q := (10 * a) / d in
  let r := (10 * a) mod d in
  let t := if (d <? 2 * r) || ((2 * r =? d) && Z.odd q) then q + 1 else q in
  (if m <? 0 then "-" else "") +++
  str_of_int (t / 10) +++ "." +++ str_of_int (t mod 10).

(** [f"{x:.1f}"] *)
Definition format_number_1f (x : number) : string :=
  match x with
  | PyInt n => format_1f (to_double n) 0
  | PyFloat m e => format_1f m e
  end.

Definition size_names : list string := ["B"; "KB"; "MB"; "GB"; "TB"].

(** The [while] loop of [format_size]: [steps] is
    [len(size_names) - 1 - i], the number of rounds that the test
    [i < len(size_names) - 1] still allows. *)
Fixpoint format_size_loop (steps : nat) (size_bytes : number) (i : nat)
    : number * nat :=
  match steps with
  | O => (size_bytes, i)
  | S steps' =>
      if ge_1024 size_bytes
      then format_size_loop steps' (div_1024 size_bytes) (S i)
      else (size_bytes, i)
  end.

Definition format_size (size_bytes : Z) : string :=
  if size_bytes =? 0 then "0 B"
  else
    let '(x, i) :=
      format_size_loop (List.length size_names - 1) (PyInt size_bytes) 0 in
    format_number_1f x +++ " " +++ nth i size_names "".

(** ** The entry filter *)

Definition should_include_file (file_path : Path)
    (include_categories exclude_patterns : option (list string)) : bool :=
  let hit :=
    match exclude_patterns with
    | Some patterns =>
        existsb (fun pattern => str_contains pattern (name file_path)) patterns
    | None => false
    end in
  if hit then false
  else
    match include_categories with
    | Some ((_ :: _) as categories) =>
        if negb (is_dir file_path) then
          let ext := lower (suffix file_path) in
          existsb (fun category =>
                     str_in ext (file_categories_get file_categories category))
                  categories
        else true
    | _ => true
    end.

(** ** Sorting and slicing lists as Python does *)

Section ListOps.
Variable A : Type.

(** [list.sort] is stable and only asks [<] of the keys: an element moves
    left past those strictly greater.  Insertion from the right does the
    same. *)
Variable lt : A -> A -> bool.

Fixpoint insert_by (x : A) (l : list A) : list A :=
  match l with
  | [] => [x]
  | y :: l' => if lt y x then y :: insert_by x l' else x :: y :: l'
  end.

Definition sort_by (l : list A) : list A := fold_right insert_by [] l.

(** [l[:n]] *)
Definition slice_to (l : list A) (n : Z) : list A :=
  if n <? 0 then firstn (Z.to_nat (Z.of_nat (List.length l) + n)) l
  else firstn (Z.to_nat n) l.

(** [enumerate(l)], counting from [i] *)
Fixpoint enumerate_from (i : Z) (l : list A) : list (Z * A) :=
  match l with
  | [] => []
  | x :: l' => (i, x) :: enumerate_from (i + 1) l'
  end.

Definition enumerate (l : list A) : list (Z * A) := enumerate_from 0 l.
End ListOps.

Arguments insert_by {A} lt x l.
Arguments sort_by {A} lt l.
Arguments slice_to {A} l n.
Arguments enumerate_from {A} i l.
Arguments enumerate {A} l.

(** [(False, _) < (True, _)], then the second components decide. *)
Definition tuple_lt (a : bool * string) (b : bool * string) : bool :=
  (negb (fst a) && fst b) ||
  (Bool.eqb (fst a) (fst b) && String.ltb (snd a) (snd b)).

(** ** How a call ends *)

Inductive exn : Type :=
| FileNotFoundError (msg : string).

Inductive outcome (A : Type) : Type :=
| Returned (a : A)
| Raised (e : exn).

Arguments Returned {A} a.
Arguments Raised {A} e.

(** ** The walk *)

Section Walk.
Variables show_size show_hidden sort_dirs_first : bool.
Variables include_categories exclude_patterns : option (list string).

(** The order that [entries.sort(key=...)] sorts by. *)
Definition sort_key_lt (x y : Path) : bool :=
  if sort_dirs_first
  then tuple_lt (is_file x, lower (name x)) (is_file y, lower (name y))
  else String.ltb (lower (name x)) (lower (name y)).

(** The local variables of [_build_tree], as functions of the listing. *)
Definition bt_entries (listing : list Path) : list Path :=
  let entries :=
    if negb show_hidden
    then filter (fun e => negb (startswith (name e) ".")) listing
    else listing in
  let entries :=
    filter (fun e => should_include_file e include_categories
                                         exclude_patterns) entries in
  sort_by sort_key_lt entries.

Definition bt_directories (listing : list Path) : list Path :=
  filter is_dir (bt_entries listing).

Definition bt_files (listing : list Path) : list Path :=
  filter is_file (bt_entries listing).

(** [self.max_files_per_folder and len(files) > self.max_files_per_folder]:
    [None] and [0] are both false. *)
Definition bt_files_truncated (self : FolderTreeGenerator)
    (listing : list Path) : bool :=
  match max_files_per_folder self with
  | Some n => negb (n =? 0) && (n <? Z.of_nat (List.length (bt_files listing)))
  | None => false
  end.

Definition bt_displayed_files (self : FolderTreeGenerator)
    (listing : list Path) : list Path :=
  match max_files_per_folder self with
  | Some n =>
      if bt_files_truncated self listing
      then slice_to (bt_files listing) n
      else bt_files listing
  | None => bt_files listing
  end.

Definition bt_hidden_count (self : FolderTreeGenerator)
    (listing : list Path) : Z :=
  match max_files_per_folder self with
  | Some n =>
      if bt_files_truncated self listing
      then Z.of_nat (List.length (bt_files listing)) - n
      else 0
  | None => 0
  end.

Definition bt_entries_to_show (self : FolderTreeGenerator)
    (listing : list Path) : list Path :=
  bt_directories listing ++ bt_displayed_files self listing.

(** The prefixes of the [i]-th of [n] entries. *)
Definition is_last_entry (i n : Z) (files_truncated : bool) : bool :=
  (i =? n - 1) && negb files_truncated.

Definition current_prefix (self : FolderTreeGenerator) (prefix : string)
    (last : bool) : string :=
  if last then prefix +++ corner (style self)
  else prefix +++ junction (style self).

Definition next_prefix (self : FolderTreeGenerator) (prefix : string)
    (last : bool) : string :=
  if last then prefix +++ space (style self)
  else prefix +++ vertical (style self).

(** The line of an entry, as appended to [self.tree_lines]. *)
Definition entry_line (self : FolderTreeGenerator) (prefix : string)
    (last : bool) (entry : Path) : string :=
  let is_key :=
    if is_dir entry then is_key_directory (name entry) else false in
  let icon := get_file_icon self entry is_key in
  let line := current_prefix self prefix last +++ icon +++ " " +++ name entry in
  if is_dir entry then line +++ "/"
  else if show_size
       then line +++ " (" +++ format_size (get_file_size entry) +++ ")"
       else line.

(** One round of the [for] loop; [recurse] is the call of [_build_tree]
    one level down. *)
Definition loop_body
    (recurse : FolderTreeGenerator -> Path -> string -> FolderTreeGenerator)
    (prefix : string) (n : Z) (files_truncated : bool)
    (self : FolderTreeGenerator) (ie : Z * Path) : FolderTreeGenerator :=
  let '(i, entry) := ie in
  let last := is_last_entry i n files_truncated in
  let line := entry_line self prefix last entry in
  let self :=
    if is_dir entry then set_stats self (add_folder (stats self))
    else set_stats self (add_file (stats self) (get_file_size entry)) in
  let self := append_line self line in
  if is_dir entry then recurse self entry (next_prefix self prefix last)
  else self.

(** The line that closes a truncated folder. *)
Definition truncation_line (self : FolderTreeGenerator) (prefix : string)
    (shown : Z) (hidden_count : Z) : string :=
  let truncation_prefix :=
    if 0 <? shown then prefix +++ corner (style self)
    else prefix +++ junction (style self) in
  truncation_prefix +++ "... (" +++ str_of_int hidden_count +++ " more files)".

(** The body of [_build_tree] below the depth test. *)
Definition build_tree_body
    (recurse : FolderTreeGenerator -> Path -> string -> FolderTreeGenerator)
    (self : FolderTreeGenerator) (directory : Path) (prefix : string)
    : FolderTreeGenerator :=
  match iterdir directory with
  | None => self
  | Some listing =>
      let files_truncated := bt_files_truncated self listing in
      let hidden_count := bt_hidden_count self listing in
      let entries_to_show := bt_entries_to_show self listing in
      let n := Z.of_nat (List.length entries_to_show) in
      let self :=
        if files_truncated
        then set_stats self (add_truncated (stats self))
        else self in
      let self :=
        fold_left (loop_body recurse prefix n files_truncated)
                  (enumerate entries_to_show) self in
      if files_truncated
      then append_line self (truncation_line self prefix n hidden_count)
      else self
  end.

(** [_build_tree] calls itself with [depth + 1] and returns at once when
    [depth >= self.max_depth]: the recursion is on the levels left,
    [max_depth - depth], and none left is the depth test itself. *)
Fixpoint build_tree_levels (levels : nat) (self : FolderTreeGenerator)
    (directory : Path) (prefix : string) (depth : Z)
    : FolderTreeGenerator :=
  match levels with
  | O => self
  | S levels' =>
      if depth >=? max_depth self then self
      else
        build_tree_body
          (fun self' entry prefix' =>
             build_tree_levels levels' self' entry prefix' (depth + 1))
          self directory prefix
  end.

Definition _build_tree (self : FolderTreeGenerator) (directory : Path)
    (prefix : string) (depth : Z) : FolderTreeGenerator :=
  build_tree_levels (Z.to_nat (max_depth self - depth))
                    self directory prefix depth.

(** ** The driver *)

(** The sizes [stat] reports for the regular files that
    [root.rglob('*')] reaches; a directory that cannot be read yields
    nothing. *)
Fixpoint rglob_file_sizes (p : Path) : list (option Z) :=
  match p with
  | File _ size => [size]
  | Dir _ (Some listing) => flat_map rglob_file_sizes listing
  | _ => []
  end.

(** [sum(...)] of these sizes; [None] when some [stat] raises. *)
Fixpoint sum_sizes (sizes : list (option Z)) : option Z :=
  match sizes with
  | [] => Some 0
  | Some size :: sizes' =>
      match sum_sizes sizes' with
      | Some total => Some (size + total)
      | None => None
      end
  | None :: _ => None
  end.

Definition root_line (self : FolderTreeGenerator) (root : Path) : string :=
  let root_icon := get_file_icon self root true in
  let line := root_icon +++ " " +++ name root +++ "/" in
  if show_size && is_dir root then
    match sum_sizes (rglob_file_sizes root) with
    | Some total_size => line +++ " (" +++ format_size total_size +++ ")"
    | None => line
    end
  else line.

Definition generate_tree (fs : filesystem) (self : FolderTreeGenerator)
    (root_path : string) : outcome (list string) * FolderTreeGenerator :=
  let self := mkGen (style self) (icon_set self) (max_depth self)
                    (max_files_per_folder self) [] stats0 in
  match fs root_path with
  | None =>
      (Raised (FileNotFoundError ("Path does not exist: " +++ root_path)),
       self)
  | Some root =>
      let self := append_line self (root_line self root) in
      let self := set_stats self (add_folder (stats self)) in
      let self := _build_tree self root "" 0 in
      (Returned (tree_lines self), self)
  end.
End Walk.

(** ** What a call adds to the generator *)

Definition stats_add (a b : Stats) : Stats :=
  mkStats (folders a + folders b) (files a + files b)
          (total_size a + total_size b)
          (truncated_folders a + truncated_folders b).

(** The sum of the counts of a list of outputs. *)
Definition stats_sum (l : list Stats) : Stats := fold_right stats_add stats0 l.

(** The generator as [generate_tree] resets it. *)
Definition fresh (self : FolderTreeGenerator) : FolderTreeGenerator :=
  mkGen (style self) (icon_set self) (max_depth self)
        (max_files_per_folder self) [] stats0.

(** [self] after the lines and counts of [out] were added to it. *)
Definition extend (self out : FolderTreeGenerator) : FolderTreeGenerator :=
  mkGen (style self) (icon_set self) (max_depth self)
        (max_files_per_folder self)
        (tree_lines self ++ tree_lines out)
        (stats_add (stats self) (stats out)).

(** A step that only adds to the generator, the same way from any state. *)
Definition framed {T : Type} (step : FolderTreeGenerator -> T -> FolderTreeGenerator)
  : Prop :=
  forall self x, step self x = extend self (step (fresh self) x).

(** A recursive call that only adds to the generator. *)
Definition framed_call
    (recurse : FolderTreeGenerator -> Path -> string -> FolderTreeGenerator)
  : Prop :=
  forall self entry prefix,
    recurse self entry prefix = extend self (recurse (fresh self) entry prefix).

(** The number of lines that a count accounts for. *)
Definition counted (s : Stats) : Z :=
  folders s + files s + truncated_folders s.

(** The sum of a list of integers. *)
Definition sum_Z (l : list Z) : Z := fold_right Z.add 0 l.

Section Blocks.
Variables show_size show_hidden sort_dirs_first : bool.
Variables include_categories exclude_patterns : option (list string).

(** What one round of the loop adds: the line of the entry, then, under a
    directory, all that the walk of it adds. *)
Definition entry_block (self : FolderTreeGenerator) (prefix : string)
    (depth n : Z) (tr : bool) (ie : Z * Path) : list string :=
  let last := is_last_entry (fst ie) n tr in
  entry_line show_size self prefix last (snd ie) ::
  (if is_dir (snd ie)
   then tree_lines (_build_tree show_size show_hidden sort_dirs_first
                     include_categories exclude_patterns (fresh self) (snd ie)
                         (next_prefix self prefix last) (depth + 1))
   else []).

Definition entry_stats (self : FolderTreeGenerator) (prefix : string)
    (depth n : Z) (tr : bool) (ie : Z * Path) : Stats :=
  let last := is_last_entry (fst ie) n tr in
  if is_dir (snd ie)
  then add_folder (stats (_build_tree show_size show_hidden sort_dirs_first
                     include_categories exclude_patterns (fresh self) (snd ie)
                               (next_prefix self prefix last) (depth + 1)))
  else add_file stats0 (get_file_size (snd ie)).

(** The lines of entries, numbered from [from]. *)
Definition entry_lines (self : FolderTreeGenerator) (prefix : string)
    (n : Z) (tr : bool) (from : Z) (shown_files : list Path) : list string :=
  map (fun ie => entry_line show_size self prefix
                   (is_last_entry (fst ie) n tr) (snd ie))
      (enumerate_from from shown_files).
End Blocks.

(** ** Notions that the properties are stated with *)

(** [sub] occurs in [s] as a literal substring. *)
Definition occurs_in (sub s : string) : Prop :=
  exists pre post, s = pre +++ sub +++ post.

(** The digits of a size: the tenths [t] written with one decimal place. *)
Definition one_decimal (t : Z) : string :=
  str_of_int (t / 10) +++ "." +++ str_of_int (t mod 10).

(** The tree in which every directory that [iterdir] raises on is an empty
    directory instead. *)
Fixpoint seal (p : Path) : Path :=
  match p with
  | Dir n (Some listing) => Dir n (Some (map seal listing))
  | Dir n None => Dir n (Some [])
  | _ => p
  end.

(** A limit on the files shown that is not negative. *)
Definition limit_ok (limit : option Z) : Prop :=
  match limit with
  | Some n => 0 <= n
  | None => True
  end.

Section PathInduction.
Variable P : Path -> Prop.
Hypothesis HFile : forall n s, P (File n s).
Hypothesis HOther : forall n, P (Other n).
Hypothesis HDirNone : forall n, P (Dir n None).
Hypothesis HDirSome : forall n l, Forall P l -> P (Dir n (Some l)).

Fixpoint Path_induction (p : Path) : P p :=
  match p with
  | File n s => HFile n s
  | Other n => HOther n
  | Dir n None => HDirNone n
  | Dir n (Some l) =>
      HDirSome n l
        ((fix all (l : list Path) : Forall P l :=
            match l with
            | [] => Forall_nil P
            | x :: l' => Forall_cons x (Path_induction x) (all l')
            end) l)
  end.
End PathInduction.

(** ** The scenario of the specification

    A root that holds the folder [src/] with the files [a.py], [b.py],
    [c.py], and the file [notes.md]; [iterdir] lists them in no particular
    order.  The generator is the default one with [max_depth = 3] and
    [max_files_per_folder = 2]. *)

Definition a_py : Path := File "a.py" (Some 1).
Definition b_py : Path := File "b.py" (Some 2).
Definition c_py : Path := File "c.py" (Some 4).
Definition notes_md : Path := File "notes.md" (Some 8).

(** The orders in which [iterdir] may list [src/] and the root. *)
Definition scenario_src_orders : list (list Path) :=
  [ [a_py; b_py; c_py]; [a_py; c_py; b_py]; [b_py; a_py; c_py];
    [b_py; c_py; a_py]; [c_py; a_py; b_py]; [c_py; b_py; a_py] ].

Definition scenario_root_orders (src : Path) : list (list Path) :=
  [ [src; notes_md]; [notes_md; src] ].

Definition scenario_fs_of (root_listing : list Path) : filesystem :=
  fun root_path =>
    if String.eqb root_path "project"
    then Some (Dir "project" (Some root_listing))
    else None.

(** One of these orders, to run things on. *)
Definition scenario_src_listing : list Path := [c_py; a_py; b_py].

Definition scenario_src : Path := Dir "src" (Some scenario_src_listing).

Definition scenario_root : Path :=
  Dir "project" (Some [notes_md; scenario_src]).

Definition scenario_fs : filesystem := scenario_fs_of [notes_md; scenario_src].

Definition scenario_generator : FolderTreeGenerator :=
  __init__ "simple" "simple" 3 (Some 2).

(** A root with a directory that cannot be listed between two others. *)
Definition locked_root : Path :=
  Dir "r" (Some [File "b.txt" (Some 6); File "a.txt" (Some 5);
                 Dir "locked" None; Dir "z" (Some [File "k" None])]).

(** ** The renderers

    [save_text] and [save_png] read the lines and the statistics that
    [generate_tree] left in the generator.  What they hand to the outside is
    modelled as a value: the text written to the file (as on a system whose
    line separator is the newline), and the canvas with the texts drawn on
    it.  The time stamp, [Path(root_path).name] and whether Pillow was
    imported come from outside and are parameters. *)

Definition newline : string := String (ascii_of_nat 10) EmptyString.

(** ["-" * n] *)
Fixpoint dashes (n : nat) : string :=
  match n with
  | O => EmptyString
  | S n' => String "-" (dashes n')
  end.

(** [f.write(line + "\n")] for every line. *)
Fixpoint write_lines (lines : list string) : string :=
  match lines with
  | [] => EmptyString
  | line :: lines' => (line +++ newline) +++ write_lines lines'
  end.

Section Renderers.
(** [datetime.now().strftime('%Y-%m-%d %H:%M:%S')] *)
Variable now : string.
(** [Path(root_path).name] *)
Variable path_name : string -> string.
(** [PIL_AVAILABLE] *)
Variable PIL_AVAILABLE : bool.

Definition text_header (root_path : string) : string :=
  let project_name :=
    if String.eqb root_path "" then "Project" else path_name root_path in
  (upper project_name +++ " Project Tree Generated on " +++ now +++ newline)
  +++ ("Root: " +++ root_path +++ newline)
  +++ ("(c) 2024 Hans Hendrickx - MIT License" +++ newline)
  +++ ("Professional Folder Tree Generator" +++ newline +++ newline)
  +++ ("Project Structure Legend:" +++ newline)
  +++ ("📂 - Key Project Directory" +++ newline)
  +++ ("📁 - Regular Directory" +++ newline)
  +++ ("🐍 - Python Source File" +++ newline)
  +++ ("📓 - Jupyter Notebook" +++ newline)
  +++ ("📝 - Markdown File" +++ newline)
  +++ ("📊 - Excel or CSV File" +++ newline)
  +++ ("📄 - PDF File" +++ newline)
  +++ ("📃 - Word Document" +++ newline)
  +++ ("⚙️ - Batch/Script File" +++ newline)
  +++ ("🔧 - JSON or Config File" +++ newline)
  +++ ("🖼️ - Image File" +++ newline)
  +++ ("🎵 - Audio File" +++ newline)
  +++ ("🎬 - Video File" +++ newline)
  +++ (dashes 80 +++ newline +++ newline).

Definition text_footer (self : FolderTreeGenerator) : string :=
  (newline +++ dashes 80 +++ newline)
  +++ ("Total Folders: " +++ str_of_int (folders (stats self)) +++ newline)
  +++ ("Total Files: " +++ str_of_int (files (stats self)) +++ newline)
  +++ ("Total Size: " +++ format_size (total_size (stats self)) +++ newline).

(** The text that [save_text] writes. *)
Definition save_text (self : FolderTreeGenerator) (header : bool)
    (root_path : string) : string :=
  (if header then text_header root_path else "")
  +++ write_lines (tree_lines self)
  +++ (if header then text_footer self else "").

(** [len(line)]: the code points of a line, which are the bytes of its UTF-8
    form that do not continue a character. *)
Fixpoint len_chars (s : string) : Z :=
  match s with
  | EmptyString => 0
  | String c s' =>
      let b := Z.of_nat (nat_of_ascii c) in
      (if (128 <=? b) && (b <? 192) then 0 else 1) + len_chars s'
  end.

(** [max(len(line) for line in lines)] of a list that is not empty. *)
Fixpoint max_len (lines : list string) : Z :=
  match lines with
  | [] => 0
  | [line] => len_chars line
  | line :: lines' => Z.max (len_chars line) (max_len lines')
  end.

(** The image that [save_png] hands to [img.save]: its size and the calls of
    [draw.text], each with its position and its text, in the order made.
    The font that is loaded changes neither, and the calls of Pillow are
    taken to return. *)
Record canvas : Type := mkCanvas {
  img_width : Z;
  img_height : Z;
  texts : list (Z * Z * string)
}.

Inductive png_outcome : Type :=
| Saved (img : canvas)
| ImportError (msg : string).

(** The loops of [save_png] that draw one text per line, from [y_offset]
    down, [line_height] apart. *)
Fixpoint draw_lines (line_height : Z) (y_offset : Z) (lines : list string)
    : list (Z * Z * string) * Z :=
  match lines with
  | [] => ([], y_offset)
  | line :: lines' =>
      let '(drawn, y_end) :=
        draw_lines line_height (y_offset + line_height) lines' in
      ((20, y_offset, line) :: drawn, y_end)
  end.

Definition save_png (self : FolderTreeGenerator) (font_size : Z)
    : png_outcome :=
  if negb PIL_AVAILABLE then
    ImportError
      "PIL (Pillow) is required for PNG output. Install with: pip install Pillow"
  else
    let max_line_length :=
      match tree_lines self with
      | [] => 50
      | _ => max_len (tree_lines self)
      end in
    let line_height := font_size + 4 in
    let img_width := Z.max 800 (max_line_length * (font_size / 2)) in
    let img_height :=
      Z.max 600 (Z.of_nat (List.length (tree_lines self)) * line_height + 100) in
    let y_offset := 20 in
    let header_text :=
      [ "Folder Tree - Generated " +++ now;
        "Folders: " +++ str_of_int (folders (stats self))
        +++ " | Files: " +++ str_of_int (files (stats self))
        +++ " | Size: " +++ format_size (total_size (stats self)) ] in
    let '(drawn_header, y_offset) :=
      draw_lines line_height y_offset header_text in
    let y_offset := y_offset + 10 in
    let '(drawn_lines, _) :=
      draw_lines line_height y_offset (tree_lines self) in
    Saved (mkCanvas img_width img_height (drawn_header ++ drawn_lines)).
End Renderers.

(** The lines of a text in which every line ends with a newline. *)
Fixpoint read_lines_from (current : string) (text : string) : list string :=
  match text with
  | EmptyString => []
  | String c text' =>
      if Ascii.eqb c (ascii_of_nat 10)
      then current :: read_lines_from EmptyString text'
      else read_lines_from (current +++ String c EmptyString) text'
  end.

Definition read_lines (text : string) : list string :=
  read_lines_from EmptyString text.

(** No newline in a line. *)
Fixpoint one_line (s : string) : bool :=
  match s with
  | EmptyString => true
  | String c s' => negb (Ascii.eqb c (ascii_of_nat 10)) && one_line s'
  end.

(** The order of names without regard to case. *)
Definition name_le (x y : Path) : Prop :=
  String.leb (lower (name x)) (lower (name y)) = true.

(** A root that holds hidden files only, and a generator with fourteen lines
    to draw. *)
Definition hidden_only_root : Path :=
  Dir "r" (Some [File ".git" None; File ".env" (Some 3)]).

Definition fourteen_lines : FolderTreeGenerator :=
  mkGen STYLES_simple SIMPLE 3 None (repeat "x" 13 ++ ["last"]) stats0.

(** * Properties *)

(** ** Adding to the generator *)

Lemma stats_add_0_r s : stats_add s stats0 = s.
Proof. destruct s; unfold stats_add; simpl; f_equal; lia. Qed.

Lemma stats_add_0_l s : stats_add stats0 s = s.
Proof. destruct s; unfold stats_add; simpl; f_equal; lia. Qed.

Lemma stats_add_assoc a b c :
  stats_add (stats_add a b) c = stats_add a (stats_add b c).
Proof. unfold stats_add; simpl; f_equal; lia. Qed.

Lemma extend_fresh self : extend self (fresh self) = self.
Proof.
  destruct self; unfold extend, fresh; simpl.
  now rewrite app_nil_r, stats_add_0_r.
Qed.

Lemma extend_assoc a b c : extend (extend a b) c = extend a (extend b c).
Proof.
  unfold extend; simpl. now rewrite app_assoc, stats_add_assoc.
Qed.

Lemma fresh_extend a b : fresh (extend a b) = fresh a.
Proof. reflexivity. Qed.

Lemma fresh_fresh a : fresh (fresh a) = fresh a.
Proof. reflexivity. Qed.

Lemma fold_left_framed {T : Type} step (l : list T) :
  framed step ->
  forall self, fold_left step l self = extend self (fold_left step l (fresh self)).
Proof.
  intros Hstep. induction l as [|x l IH]; intros self; simpl.
  - symmetry; apply extend_fresh.
  - assert (E1 : fresh (step self x) = fresh self)
      by (rewrite Hstep; reflexivity).
    assert (E2 : fresh (step (fresh self) x) = fresh self)
      by (rewrite Hstep; reflexivity).
    rewrite IH, E1, (IH (step (fresh self) x)), E2, (Hstep self x).
    apply extend_assoc.
Qed.

Lemma framed_fresh {T : Type} step (self : FolderTreeGenerator) (x : T) :
  framed step -> fresh (step (fresh self) x) = fresh self.
Proof. intros Hstep. rewrite Hstep. reflexivity. Qed.

Lemma fold_left_framed_lines {T : Type} step (l : list T) self :
  framed step ->
  tree_lines (fold_left step l (fresh self))
  = flat_map (fun x => tree_lines (step (fresh self) x)) l.
Proof.
  intros Hstep. induction l as [|x l IH]; simpl; [reflexivity|].
  rewrite fold_left_framed by assumption.
  rewrite framed_fresh by assumption. simpl.
  now rewrite IH.
Qed.

Lemma fold_left_framed_stats {T : Type} step (l : list T) self :
  framed step ->
  stats (fold_left step l (fresh self))
  = stats_sum (map (fun x => stats (step (fresh self) x)) l).
Proof.
  intros Hstep. induction l as [|x l IH]; simpl; [reflexivity|].
  rewrite fold_left_framed by assumption.
  rewrite framed_fresh by assumption. simpl.
  now rewrite IH.
Qed.

Section WalkFacts.
Variables show_size show_hidden sort_dirs_first : bool.
Variables include_categories exclude_patterns : option (list string).

Local Abbreviation walk := (_build_tree show_size show_hidden sort_dirs_first
                              include_categories exclude_patterns).
Local Abbreviation walk_levels := (build_tree_levels show_size show_hidden
                           sort_dirs_first include_categories
                           exclude_patterns).
Local Abbreviation body := (build_tree_body show_size show_hidden sort_dirs_first
                                  include_categories exclude_patterns).
Local Abbreviation visible := (bt_entries show_hidden sort_dirs_first
                                include_categories exclude_patterns).
Local Abbreviation directories := (bt_directories show_hidden sort_dirs_first
                           include_categories exclude_patterns).
Local Abbreviation files_of := (bt_files show_hidden sort_dirs_first
                               include_categories exclude_patterns).
Local Abbreviation files_truncated := (bt_files_truncated show_hidden sort_dirs_first
                               include_categories exclude_patterns).
Local Abbreviation displayed_files := (bt_displayed_files show_hidden sort_dirs_first
                               include_categories exclude_patterns).
Local Abbreviation hidden_count := (bt_hidden_count show_hidden sort_dirs_first
                            include_categories exclude_patterns).
Local Abbreviation entries_to_show := (bt_entries_to_show show_hidden sort_dirs_first
                               include_categories exclude_patterns).
Local Abbreviation entry_block := (entry_block show_size show_hidden
                                     sort_dirs_first include_categories
                                     exclude_patterns).
Local Abbreviation entry_stats := (entry_stats show_size show_hidden
                                     sort_dirs_first include_categories
                                     exclude_patterns).

Ltac stats_eq :=
  unfold stats_add, add_folder, add_file, add_truncated, stats0;
  cbn [folders files total_size truncated_folders]; f_equal; lia.

(** Prefixes and lines read the style and the icons only. *)
Lemma fresh_append_line s l : fresh (append_line s l) = fresh s.
Proof. reflexivity. Qed.

Lemma fresh_set_stats s x : fresh (set_stats s x) = fresh s.
Proof. reflexivity. Qed.

Lemma next_prefix_append_line s l p b :
  next_prefix (append_line s l) p b = next_prefix s p b.
Proof. reflexivity. Qed.

Lemma next_prefix_set_stats s x p b :
  next_prefix (set_stats s x) p b = next_prefix s p b.
Proof. reflexivity. Qed.

Lemma next_prefix_fresh s p b : next_prefix (fresh s) p b = next_prefix s p b.
Proof. reflexivity. Qed.

Lemma entry_line_fresh s p b e :
  entry_line show_size (fresh s) p b e = entry_line show_size s p b e.
Proof. reflexivity. Qed.

Lemma truncation_line_fresh s p n h :
  truncation_line (fresh s) p n h = truncation_line s p n h.
Proof. reflexivity. Qed.

Create Rewrite HintDb gen_cfg.
Hint Rewrite fresh_append_line fresh_set_stats next_prefix_append_line
  next_prefix_set_stats next_prefix_fresh entry_line_fresh
  truncation_line_fresh fresh_fresh fresh_extend : gen_cfg.

Lemma loop_body_framed recurse prefix n tr :
  framed_call recurse ->
  framed (loop_body show_size recurse prefix n tr).
Proof.
  intros Hrec self [i entry]. unfold loop_body.
  destruct (is_dir entry) eqn:Hdir.
  - rewrite Hrec. symmetry. rewrite Hrec. symmetry.
    autorewrite with gen_cfg.
    generalize (recurse (fresh self) entry
                  (next_prefix self prefix (is_last_entry i n tr))).
    generalize (entry_line show_size self prefix (is_last_entry i n tr) entry).
    intros line out.
    unfold extend, append_line, set_stats, fresh; simpl.
    f_equal; [now rewrite <- !app_assoc | stats_eq].
  - autorewrite with gen_cfg.
    generalize (entry_line show_size self prefix (is_last_entry i n tr) entry).
    intros line.
    unfold extend, append_line, set_stats, fresh; simpl.
    f_equal. stats_eq.
Qed.

Lemma body_framed recurse directory prefix :
  framed_call recurse ->
  forall self,
    body recurse self directory prefix
    = extend self (body recurse (fresh self) directory prefix).
Proof.
  intros Hrec self. unfold build_tree_body.
  destruct (iterdir directory) as [listing|];
    [|symmetry; apply extend_fresh].
  pose proof (loop_body_framed recurse prefix
                (Z.of_nat (List.length (entries_to_show self listing)))
                (files_truncated self listing) Hrec) as Hstep.
  change (files_truncated (fresh self) listing)
    with (files_truncated self listing).
  change (entries_to_show (fresh self) listing)
    with (entries_to_show self listing).
  change (hidden_count (fresh self) listing)
    with (hidden_count self listing).
  generalize (truncation_line_fresh self prefix
                (Z.of_nat (List.length (entries_to_show self listing)))
                (hidden_count self listing)).
  generalize (truncation_line self prefix
                (Z.of_nat (List.length (entries_to_show self listing)))
                (hidden_count self listing)).
  intros tl Htl.
  destruct (files_truncated self listing).
  - rewrite fold_left_framed by exact Hstep.
    symmetry. rewrite fold_left_framed by exact Hstep. symmetry.
    autorewrite with gen_cfg.
    match goal with
    | |- context [fold_left ?f ?l (fresh self)] =>
        generalize (fold_left f l (fresh self))
    end.
    intros out.
    unfold truncation_line in *.
    unfold extend, append_line, set_stats, fresh; simpl.
    f_equal; [now rewrite <- !app_assoc | stats_eq].
  - rewrite fold_left_framed by exact Hstep.
    reflexivity.
Qed.

Lemma walk_levels_framed levels :
  forall depth self directory prefix,
    walk_levels levels self directory prefix depth
    = extend self (walk_levels levels (fresh self) directory prefix depth).
Proof.
  induction levels as [|levels IH]; intros depth self directory prefix; simpl.
  - symmetry; apply extend_fresh.
  - destruct (depth >=? max_depth self); [symmetry; apply extend_fresh|].
    apply body_framed. intros s e p. apply IH.
Qed.

(** [_build_tree] only adds lines and counts, the same from any state of
    the generator. *)
Lemma walk_framed self directory prefix depth :
  walk self directory prefix depth
  = extend self (walk (fresh self) directory prefix depth).
Proof. unfold _build_tree. apply walk_levels_framed. Qed.
Lemma fold_left_agree {T : Type} (I : FolderTreeGenerator -> Prop)
    (f g : FolderTreeGenerator -> T -> FolderTreeGenerator) (l : list T) :
  (forall s x, I s -> f s x = g s x) ->
  (forall s x, I s -> I (f s x)) ->
  forall s, I s -> fold_left f l s = fold_left g l s.
Proof.
  intros Hfg Hinv. induction l as [|x l IH]; intros s Hs; simpl.
  - reflexivity.
  - rewrite <- (Hfg s x Hs). apply IH. now apply Hinv.
Qed.

(** The equation the Python function is written by: the depth test, then the
    body with the recursive call one level down. *)
Lemma walk_unfold self directory prefix depth :
  walk self directory prefix depth
  = if depth >=? max_depth self then self
    else body (fun self' entry prefix' => walk self' entry prefix' (depth + 1))
              self directory prefix.
Proof.
  unfold _build_tree.
  destruct (depth >=? max_depth self) eqn:E.
  - rewrite Z.geb_leb in E. apply Z.leb_le in E.
    replace (Z.to_nat (max_depth self - depth)) with O by lia.
    reflexivity.
  - pose proof E as E'. rewrite Z.geb_leb in E'. apply Z.leb_gt in E'.
    replace (Z.to_nat (max_depth self - depth))
      with (S (Z.to_nat (max_depth self - (depth + 1)))) by lia.
    cbn [build_tree_levels]. rewrite E.
    unfold build_tree_body.
    destruct (iterdir directory) as [listing|]; [|reflexivity].
    set (tr := files_truncated self listing).
    set (n := Z.of_nat (List.length (entries_to_show self listing))).
    set (s0 := if tr then set_stats self (add_truncated (stats self)) else self).
    assert (Hfold :
      fold_left
        (loop_body show_size
           (fun self' entry prefix' =>
              walk_levels (Z.to_nat (max_depth self - (depth + 1)))
                          self' entry prefix' (depth + 1)) prefix n tr)
        (enumerate (entries_to_show self listing)) s0
      = fold_left
        (loop_body show_size
           (fun self' entry prefix' =>
              walk_levels (Z.to_nat (max_depth self' - (depth + 1)))
                          self' entry prefix' (depth + 1)) prefix n tr)
        (enumerate (entries_to_show self listing)) s0).
    { apply fold_left_agree with (I := fun s => max_depth s = max_depth self).
      - intros s [i e] Hs. unfold loop_body.
        destruct (is_dir e); [|reflexivity].
        cbn [max_depth append_line set_stats]. now rewrite Hs.
      - intros s x Hs.
        rewrite loop_body_framed; [exact Hs|].
        intros s' e p. apply walk_levels_framed.
      - unfold s0. now destruct tr. }
    rewrite Hfold. reflexivity.
Qed.

Lemma walk_framed_call depth :
  framed_call (fun self' entry prefix' => walk self' entry prefix' depth).
Proof. intros s e p. apply walk_framed. Qed.

Lemma loop_body_fresh self prefix depth n tr ie :
  loop_body show_size
    (fun self' entry prefix' => walk self' entry prefix' (depth + 1))
    prefix n tr (fresh self) ie
  = mkGen (style self) (icon_set self) (max_depth self)
          (max_files_per_folder self)
          (entry_block self prefix depth n tr ie)
          (entry_stats self prefix depth n tr ie).
Proof.
  destruct ie as [i e]. unfold loop_body, entry_block, entry_stats.
  cbn [fst snd]. destruct (is_dir e).
  - rewrite walk_framed. autorewrite with gen_cfg.
    unfold extend, append_line, set_stats, fresh.
    cbn [style icon_set max_depth max_files_per_folder tree_lines stats app].
    f_equal. stats_eq.
  - reflexivity.
Qed.

(** The lines and counts that the walk of a readable directory above the
    depth bound adds: the blocks of the entries shown, in their order, then
    the truncation line if files were cut. *)
Lemma walk_level self directory listing prefix depth :
  depth < max_depth self ->
  iterdir directory = Some listing ->
  walk (fresh self) directory prefix depth
  = mkGen (style self) (icon_set self) (max_depth self)
          (max_files_per_folder self)
          (flat_map (entry_block self prefix depth
                       (Z.of_nat (List.length (entries_to_show self listing)))
                       (files_truncated self listing))
                    (enumerate (entries_to_show self listing))
           ++ (if files_truncated self listing
               then [truncation_line self prefix
                       (Z.of_nat (List.length (entries_to_show self listing)))
                       (hidden_count self listing)]
               else []))
          (stats_add
             (if files_truncated self listing
              then add_truncated stats0 else stats0)
             (stats_sum
                (map (entry_stats self prefix depth
                        (Z.of_nat (List.length (entries_to_show self listing)))
                        (files_truncated self listing))
                     (enumerate (entries_to_show self listing))))).
Proof.
  intros Hdepth Hls.
  set (tr := files_truncated self listing).
  set (shown := entries_to_show self listing).
  set (n := Z.of_nat (List.length shown)).
  rewrite walk_unfold.
  replace (depth >=? max_depth (fresh self)) with false
    by (symmetry; rewrite Z.geb_leb; apply Z.leb_gt; exact Hdepth).
  unfold build_tree_body. rewrite Hls.
  change (files_truncated (fresh self) listing) with tr.
  change (entries_to_show (fresh self) listing) with shown.
  change (hidden_count (fresh self) listing) with (hidden_count self listing).
  fold n.
  set (step := loop_body show_size
                 (fun self' entry prefix' => walk self' entry prefix' (depth + 1))
                 prefix n tr).
  assert (Hstep : framed step)
    by (apply loop_body_framed, walk_framed_call).
  assert (Hlines :
    tree_lines (fold_left step (enumerate shown) (fresh self))
    = flat_map (entry_block self prefix depth n tr) (enumerate shown)).
  { rewrite fold_left_framed_lines by exact Hstep.
    apply flat_map_ext. intros ie. unfold step.
    now rewrite loop_body_fresh. }
  assert (Hstats :
    stats (fold_left step (enumerate shown) (fresh self))
    = stats_sum (map (entry_stats self prefix depth n tr) (enumerate shown))).
  { rewrite fold_left_framed_stats by exact Hstep.
    f_equal. apply map_ext. intros ie. unfold step.
    now rewrite loop_body_fresh. }
  destruct tr.
  - rewrite fold_left_framed by exact Hstep.
    autorewrite with gen_cfg.
    unfold extend, append_line, set_stats.
    cbn [style icon_set max_depth max_files_per_folder tree_lines stats
         fresh app].
    rewrite Hlines, Hstats. f_equal.
  - rewrite fold_left_framed by exact Hstep.
    autorewrite with gen_cfg.
    unfold extend.
    cbn [style icon_set max_depth max_files_per_folder tree_lines stats
         fresh app].
    rewrite Hlines, Hstats, app_nil_r. reflexivity.
Qed.

(** At the depth bound and below it the walk does nothing. *)
Lemma walk_at_bound self directory prefix depth :
  max_depth self <= depth ->
  walk self directory prefix depth = self.
Proof.
  intros H. rewrite walk_unfold.
  replace (depth >=? max_depth self) with true; [reflexivity|].
  symmetry. rewrite Z.geb_leb. now apply Z.leb_le.
Qed.

(** So it does on a path that [iterdir] raises on. *)
Lemma walk_unreadable self directory prefix depth :
  iterdir directory = None ->
  walk self directory prefix depth = self.
Proof.
  intros H. rewrite walk_unfold.
  destruct (depth >=? max_depth self); [reflexivity|].
  unfold build_tree_body. now rewrite H.
Qed.
End WalkFacts.

(** ** The model on samples

    Values that Python gives for the same inputs. *)

Example format_size_samples :
  map format_size [1; 1023; 1024; 1280; 1408; 1048575; 1048576;
                   9007199254740993; -5]
  = ["1.0 B"; "1023.0 B"; "1.0 KB"; "1.2 KB"; "1.4 KB"; "1024.0 KB";
     "1.0 MB"; "8192.0 TB"; "-5.0 B"].
Proof. reflexivity. Qed.

Example suffix_samples :
  map (fun n => suffix (File n None))
      ["a.py"; ".bashrc"; "a."; "a.tar.gz"; "noext"; "a..b"; ".a.b"]
  = [".py"; ""; ""; ".gz"; ""; ".b"; ".b"].
Proof. reflexivity. Qed.

Example sort_samples :
  map name (sort_by (sort_key_lt false)
              [File "b" None; File "B" None; File "a" None; File "A" None])
  = ["a"; "A"; "b"; "B"]
  /\ map name (sort_by (sort_key_lt true)
                 [File "b" None; Dir "z" None; File "B" None; File "a" None;
                  Dir "Y" None])
     = ["Y"; "z"; "a"; "b"; "B"].
Proof. split; reflexivity. Qed.

Example slice_samples :
  slice_to [1; 2; 3] 2 = [1; 2] /\ slice_to [1; 2; 3] 5 = [1; 2; 3]
  /\ slice_to [1; 2; 3] (-1) = [1; 2] /\ slice_to [1; 2; 3] (-7) = [].
Proof. repeat split; reflexivity. Qed.

(** ** The entry filter: exclusion before inclusion *)

Lemma prefix_app (p s : string) :
  String.prefix p s = true <-> exists post, s = p +++ post.
Proof.
  revert s. induction p as [|c p IH]; intros s.
  - split; [intros _; now exists s | intros _; now destruct s].
  - destruct s as [|d s]; simpl.
    + split; [discriminate | intros [post H]; discriminate].
    + destruct (ascii_dec c d) as [->|Hcd].
      * rewrite IH. split; intros [post H]; exists post.
        -- now rewrite H.
        -- now injection H.
      * split; [discriminate|].
        intros [post H]. injection H as H1 H2. congruence.
Qed.

Lemma str_contains_occurs (sub s : string) :
  str_contains sub s = true <-> occurs_in sub s.
Proof.
  unfold occurs_in. induction s as [|c s IH]; cbn [str_contains].
  - rewrite orb_false_r, prefix_app. split.
    + intros [post H]. now exists "", post.
    + intros [pre [post H]]. destruct pre; simpl in H.
      * now exists post.
      * discriminate.
  - rewrite orb_true_iff, prefix_app, IH. split.
    + intros [[post H]|[pre [post H]]].
      * now exists "", post.
      * exists (String c pre), post. simpl. now rewrite H.
    + intros [pre [post H]]. destruct pre as [|d pre]; simpl in H.
      * left. now exists post.
      * right. injection H as _ H. now exists pre, post.
Qed.

(** C5.  An entry whose name contains one of the configured exclude patterns
    as a literal substring is rejected by [should_include_file], whatever the
    inclusion categories are: also when the extension of the entry belongs
    to one of them. *)
Theorem should_include_file_exclusion_wins :
  forall (file_path : Path) (include_categories : option (list string))
         (patterns : list string) (pattern : string),
    In pattern patterns ->
    occurs_in pattern (name file_path) ->
    should_include_file file_path include_categories (Some patterns) = false.
Proof.
  intros file_path cats patterns pattern Hin Hocc.
  unfold should_include_file.
  assert (Hhit : existsb (fun pattern0 => str_contains pattern0 (name file_path))
                         patterns = true).
  { apply existsb_exists. exists pattern. split; [exact Hin|].
    now apply str_contains_occurs. }
  now rewrite Hhit.
Qed.

(** ** A root that is not there *)

(** C6.  When nothing exists at the root path, [generate_tree] raises
    [FileNotFoundError] at once: no line was written and the statistics are
    the reset ones, all zero. *)
Theorem generate_tree_missing_root :
  forall (show_size show_hidden sort_dirs_first : bool)
         (include_categories exclude_patterns : option (list string))
         (fs : filesystem) (self : FolderTreeGenerator) (root_path : string),
    fs root_path = None ->
    let '(result, self') :=
      generate_tree show_size show_hidden sort_dirs_first include_categories
                    exclude_patterns fs self root_path in
    result = Raised (FileNotFoundError ("Path does not exist: " +++ root_path))
    /\ tree_lines self' = []
    /\ stats self' = mkStats 0 0 0 0.
Proof.
  intros show_size show_hidden sort_dirs_first cats pats fs self root_path H.
  unfold generate_tree. rewrite H. repeat split.
Qed.

(** ** Sizes *)

Lemma to_double_small n : 0 <= n < 2 ^ 53 -> to_double n = n.
Proof.
  intros [H0 H1]. unfold to_double.
  rewrite Z.abs_eq by exact H0.
  assert (Z.log2 n <= 52).
  { destruct (Z.eq_dec n 0) as [->|Hn]; [cbn; lia|].
    assert (Z.log2 n < 53) by (apply Z.log2_lt_pow2; lia). lia. }
  replace (Z.log2 n - 52 <=? 0) with true; [reflexivity|].
  symmetry. apply Z.leb_le. lia.
Qed.

Lemma to_double_lower n : 2 ^ 50 <= n -> 2 ^ 50 <= to_double n.
Proof.
  intros H. unfold to_double.
  assert (Hpos : 0 < n) by (assert (0 < 2 ^ 50) by reflexivity; lia).
  rewrite Z.abs_eq by lia.
  destruct (Z.log2 n - 52 <=? 0) eqn:E; [exact H|].
  apply Z.leb_gt in E.
  set (e := Z.log2 n - 52) in *.
  rewrite Z.sgn_pos, Z.mul_1_l by exact Hpos.
  rewrite Z.shiftl_mul_pow2 by lia.
  rewrite Z.shiftr_div_pow2 by lia.
  assert (Hq : 2 ^ 52 <= n / 2 ^ e).
  { apply Z.div_le_lower_bound; [apply Z.pow_pos_nonneg; lia|].
    rewrite <- Z.pow_add_r by lia.
    replace (e + 52) with (Z.log2 n) by (unfold e; lia).
    apply Z.log2_spec. exact Hpos. }
  assert (He : 1 <= 2 ^ e) by (assert (0 < 2 ^ e) by (apply Z.pow_pos_nonneg; lia); lia).
  assert (H52 : 2 ^ 50 <= 2 ^ 52) by (vm_compute; discriminate).
  match goal with
  | |- _ <= (if ?c then _ else _) * _ => destruct c
  end; nia.
Qed.

(** The rounds of the loop, written out. *)
Lemma format_size_loop_int n :
  format_size_loop 4 (PyInt n) 0
  = if n <? 1024 then (PyInt n, 0%nat)
    else if to_double n <? 1024 * 2 ^ 10 then (PyFloat (to_double n) 10, 1%nat)
    else if to_double n <? 1024 * 2 ^ 20 then (PyFloat (to_double n) 20, 2%nat)
    else if to_double n <? 1024 * 2 ^ 30 then (PyFloat (to_double n) 30, 3%nat)
    else (PyFloat (to_double n) 40, 4%nat).
Proof.
  cbn [format_size_loop ge_1024 div_1024].
  rewrite (Z.leb_antisym n 1024).
  destruct (n <? 1024); cbn [negb]; [reflexivity|].
  rewrite (Z.leb_antisym (to_double n)).
  destruct (to_double n <? 1024 * 2 ^ 10); cbn [negb]; [reflexivity|].
  change (10 + 10) with 20.
  rewrite (Z.leb_antisym (to_double n)).
  destruct (to_double n <? 1024 * 2 ^ 20); cbn [negb]; [reflexivity|].
  change (20 + 10) with 30.
  rewrite (Z.leb_antisym (to_double n)).
  destruct (to_double n <? 1024 * 2 ^ 30); cbn [negb]; reflexivity.
Qed.

(** The digits that [format_1f] writes are the tenths nearest to the
    number. *)
Lemma format_1f_tenths m e :
  0 <= m -> 0 <= e ->
  exists t,
    format_1f m e = str_of_int (t / 10) +++ "." +++ str_of_int (t mod 10)
    /\ 0 <= t
    /\ 2 * Z.abs (10 * m - t * 2 ^ e) <= 2 ^ e.
Proof.
  intros Hm He. unfold format_1f.
  rewrite Z.abs_eq by exact Hm.
  replace (m <? 0) with false by (symmetry; apply Z.ltb_ge; exact Hm).
  assert (Hd : 0 < 2 ^ e) by (apply Z.pow_pos_nonneg; lia).
  set (d := 2 ^ e) in *.
  pose proof (Z.div_mod (10 * m) d ltac:(lia)) as Hdm.
  pose proof (Z.mod_pos_bound (10 * m) d Hd) as Hr.
  assert (Hq : 0 <= 10 * m / d) by (apply Z.div_pos; lia).
  set (q := 10 * m / d) in *. set (r := (10 * m) mod d) in *.
  destruct ((d <? 2 * r) || ((2 * r =? d) && Z.odd q)) eqn:E.
  - exists (q + 1). repeat split; [lia|].
    assert (d <= 2 * r).
    { apply orb_true_iff in E. destruct E as [E|E].
      - apply Z.ltb_lt in E. lia.
      - apply andb_true_iff in E. destruct E as [E _].
        apply Z.eqb_eq in E. lia. }
    replace (10 * m - (q + 1) * d) with (r - d) by lia. lia.
  - exists q. repeat split; [lia|].
    apply orb_false_iff in E. destruct E as [E _]. apply Z.ltb_ge in E.
    replace (10 * m - q * d) with r by lia. lia.
Qed.

Lemma format_size_nonzero n :
  n <> 0 ->
  format_size n
  = format_number_1f (fst (format_size_loop 4 (PyInt n) 0)) +++ " " +++
    nth (snd (format_size_loop 4 (PyInt n) 0)) size_names "".
Proof.
  intros Hn. unfold format_size.
  replace (n =? 0) with false by (symmetry; apply Z.eqb_neq; exact Hn).
  change (List.length size_names - 1)%nat with 4%nat.
  now destruct (format_size_loop 4 (PyInt n) 0).
Qed.

(** C7, as the code has it.  [format_size 0] is ["0 B"]; a positive count
    below [1024^5] is scaled to the first unit of B, KB, MB, GB, TB at which
    it is below 1024 and written with the one decimal nearest to the scaled
    value; from [1024^5] on the unit stays TB, the scaled value being 1024
    or more.  The three sizes of the specification come out as it says. *)
Theorem format_size_units :
  format_size 0 = "0 B"
  /\ format_size 1536 = "1.5 KB"
  /\ format_size 1073741824 = "1.0 GB"
  /\ forall n : Z,
       0 < n ->
       (n < 1024 ^ 5 ->
        exists (i : nat) (t : Z),
          (i <= 4)%nat
          /\ 0 <= t
          /\ n < 1024 * 1024 ^ Z.of_nat i
          /\ (i = 0%nat \/ 1024 ^ Z.of_nat i <= n)
          /\ 2 * Z.abs (10 * n - t * 1024 ^ Z.of_nat i) <= 1024 ^ Z.of_nat i
          /\ format_size n = one_decimal t +++ " " +++ nth i size_names "")
       /\ (1024 ^ 5 <= n ->
           exists t : Z,
             0 <= t
             /\ 1024 * 1024 ^ 4 <= to_double n
             /\ 2 * Z.abs (10 * to_double n - t * 1024 ^ 4) <= 1024 ^ 4
             /\ format_size n = one_decimal t +++ " TB").
Proof.
  split; [reflexivity|]. split; [reflexivity|]. split; [reflexivity|].
  intros n Hn. split.
  - intros Hlt.
    assert (Hsmall : to_double n = n).
    { apply to_double_small. split; [lia|].
      eapply Z.lt_trans; [exact Hlt|]. reflexivity. }
    rewrite format_size_nonzero by lia.
    rewrite format_size_loop_int, Hsmall.
    destruct (n <? 1024) eqn:E0.
    { apply Z.ltb_lt in E0. cbn [fst snd format_number_1f].
      rewrite Hsmall.
      destruct (@format_1f_tenths n 0) as (t & Ht & Ht0 & Hnear); [lia|lia|].
      exists 0%nat, t. change (1024 ^ Z.of_nat 0) with 1.
      change (2 ^ 0) with 1 in Hnear.
      repeat split; [lia|exact Ht0|lia|now left|exact Hnear|].
      rewrite Ht. reflexivity. }
    apply Z.ltb_ge in E0.
    destruct (n <? 1024 * 2 ^ 10) eqn:E1.
    { apply Z.ltb_lt in E1. cbn [fst snd format_number_1f].
      destruct (@format_1f_tenths n 10) as (t & Ht & Ht0 & Hnear); [lia|lia|].
      exists 1%nat, t. change (1024 ^ Z.of_nat 1) with (2 ^ 10).
      repeat split; [lia|exact Ht0|exact E1|right; exact E0|exact Hnear|].
      rewrite Ht. reflexivity. }
    apply Z.ltb_ge in E1.
    destruct (n <? 1024 * 2 ^ 20) eqn:E2.
    { apply Z.ltb_lt in E2. cbn [fst snd format_number_1f].
      destruct (@format_1f_tenths n 20) as (t & Ht & Ht0 & Hnear); [lia|lia|].
      exists 2%nat, t. change (1024 ^ Z.of_nat 2) with (2 ^ 20).
      repeat split; [lia|exact Ht0|exact E2|right; exact E1|exact Hnear|].
      rewrite Ht. reflexivity. }
    apply Z.ltb_ge in E2.
    destruct (n <? 1024 * 2 ^ 30) eqn:E3.
    { apply Z.ltb_lt in E3. cbn [fst snd format_number_1f].
      destruct (@format_1f_tenths n 30) as (t & Ht & Ht0 & Hnear); [lia|lia|].
      exists 3%nat, t. change (1024 ^ Z.of_nat 3) with (2 ^ 30).
      repeat split; [lia|exact Ht0|exact E3|right; exact E2|exact Hnear|].
      rewrite Ht. reflexivity. }
    apply Z.ltb_ge in E3.
    cbn [fst snd format_number_1f].
    destruct (@format_1f_tenths n 40) as (t & Ht & Ht0 & Hnear); [lia|lia|].
    exists 4%nat, t. change (1024 ^ Z.of_nat 4) with (2 ^ 40).
    repeat split; [lia|exact Ht0|exact Hlt|right; exact E3|exact Hnear|].
    rewrite Ht. reflexivity.
  - intros Hge.
    assert (Hlow : 2 ^ 50 <= to_double n) by (apply to_double_lower; exact Hge).
    rewrite format_size_nonzero by lia.
    rewrite format_size_loop_int.
    replace (n <? 1024) with false
      by (symmetry; apply Z.ltb_ge; assert (1024 <= 1024 ^ 5) by (vm_compute; discriminate); lia).
    replace (to_double n <? 1024 * 2 ^ 10) with false
      by (symmetry; apply Z.ltb_ge; assert (1024 * 2 ^ 10 <= 2 ^ 50) by (vm_compute; discriminate); lia).
    replace (to_double n <? 1024 * 2 ^ 20) with false
      by (symmetry; apply Z.ltb_ge; assert (1024 * 2 ^ 20 <= 2 ^ 50) by (vm_compute; discriminate); lia).
    replace (to_double n <? 1024 * 2 ^ 30) with false
      by (symmetry; apply Z.ltb_ge; assert (1024 * 2 ^ 30 <= 2 ^ 50) by (vm_compute; discriminate); lia).
    cbn [fst snd format_number_1f].
    assert (H0 : 0 <= to_double n) by (assert (0 < 2 ^ 50) by reflexivity; lia).
    destruct (@format_1f_tenths (to_double n) 40) as (t & Ht & Ht0 & Hnear);
      [exact H0|lia|].
    exists t. change (1024 ^ 4) with (2 ^ 40). change (1024 * 2 ^ 40) with (2 ^ 50).
    repeat split; [exact Ht0|exact Hlow|exact Hnear|].
    rewrite Ht. reflexivity.
Qed.

(** C7 as the specification words it: a count of [1024^5] bytes is written
    in TB with the value 1024, and no unit of the five scales it below
    1024. *)
Lemma format_size_pebibyte_not_below_1024 :
  format_size (1024 ^ 5) = "1024.0 TB"
  /\ forall i : nat, (i <= 4)%nat -> ~ (1024 ^ 5 < 1024 * 1024 ^ Z.of_nat i).
Proof.
  split; [reflexivity|].
  intros i Hi.
  assert (Hc : i = 0%nat \/ i = 1%nat \/ i = 2%nat \/ i = 3%nat \/ i = 4%nat)
    by lia.
  destruct Hc as [->|[->|[->|[->| ->]]]]; vm_compute; discriminate.
Qed.

(** The law at 1536 bytes. *)
Lemma format_size_units_witness :
  exists (i : nat) (t : Z),
    (i <= 4)%nat
    /\ 0 <= t
    /\ 1536 < 1024 * 1024 ^ Z.of_nat i
    /\ (i = 0%nat \/ 1024 ^ Z.of_nat i <= 1536)
    /\ 2 * Z.abs (10 * 1536 - t * 1024 ^ Z.of_nat i) <= 1024 ^ Z.of_nat i
    /\ format_size 1536 = one_decimal t +++ " " +++ nth i size_names "".
Proof.
  destruct format_size_units as (_ & _ & _ & H).
  destruct (H 1536 ltac:(lia)) as [Hlow _].
  apply Hlow. vm_compute. reflexivity.
Defined.

(** ** The whole run *)

Section RunFacts.
Variables show_size show_hidden sort_dirs_first : bool.
Variables include_categories exclude_patterns : option (list string).

Local Abbreviation walk := (_build_tree show_size show_hidden sort_dirs_first
                              include_categories exclude_patterns).
Local Abbreviation run := (generate_tree show_size show_hidden sort_dirs_first
                             include_categories exclude_patterns).
Local Abbreviation directories := (bt_directories show_hidden sort_dirs_first
                                     include_categories exclude_patterns).
Local Abbreviation files_of := (bt_files show_hidden sort_dirs_first
                                  include_categories exclude_patterns).
Local Abbreviation files_truncated :=
  (bt_files_truncated show_hidden sort_dirs_first include_categories
                      exclude_patterns).
Local Abbreviation displayed_files :=
  (bt_displayed_files show_hidden sort_dirs_first include_categories
                      exclude_patterns).
Local Abbreviation hidden_count :=
  (bt_hidden_count show_hidden sort_dirs_first include_categories
                   exclude_patterns).
Local Abbreviation entries_to_show :=
  (bt_entries_to_show show_hidden sort_dirs_first include_categories
                      exclude_patterns).
Local Abbreviation block := (entry_block show_size show_hidden sort_dirs_first
                               include_categories exclude_patterns).
Local Abbreviation counts := (entry_stats show_size show_hidden sort_dirs_first
                                include_categories exclude_patterns).

(** A run on a root that exists: the root line, then what the walk of the
    root adds; the root is the first folder counted. *)
Lemma generate_tree_found fs self root_path root :
  fs root_path = Some root ->
  let out := walk (fresh self) root "" 0 in
  run fs self root_path
  = (Returned (root_line show_size self root :: tree_lines out),
     mkGen (style self) (icon_set self) (max_depth self)
           (max_files_per_folder self)
           (root_line show_size self root :: tree_lines out)
           (add_folder (stats out))).
Proof.
  intros Hroot out. unfold generate_tree. rewrite Hroot.
  match goal with
  | |- context [walk ?s1 root "" 0] =>
      rewrite (walk_framed show_size show_hidden sort_dirs_first
                 include_categories exclude_patterns s1 root "" 0);
      change (fresh s1) with (fresh self)
  end.
  fold out.
  unfold extend, append_line, set_stats.
  cbn [style icon_set max_depth max_files_per_folder tree_lines stats app].
  change (root_line show_size _ root) with (root_line show_size self root).
  replace (stats_add (add_folder stats0) (stats out))
    with (add_folder (stats out))
    by (unfold stats_add, add_folder, stats0;
        cbn [folders files total_size truncated_folders]; f_equal; lia).
  reflexivity.
Qed.

Lemma counted_add a b : counted (stats_add a b) = counted a + counted b.
Proof. unfold counted, stats_add; cbn [folders files truncated_folders]; lia. Qed.

Lemma flat_map_length_counted (T : Type) (f : T -> list string)
    (g : T -> Stats) (l : list T) :
  (forall x, In x l -> Z.of_nat (List.length (f x)) = counted (g x)) ->
  Z.of_nat (List.length (flat_map f l)) = counted (stats_sum (map g l)).
Proof.
  induction l as [|x l IH]; intros H; cbn [flat_map map stats_sum fold_right].
  - reflexivity.
  - rewrite length_app, Nat2Z.inj_add, counted_add.
    rewrite (H x (or_introl eq_refl)).
    fold (stats_sum (map g l)). rewrite IH; [reflexivity|].
    intros y Hy. apply H. now right.
Qed.

(** Every line the walk adds is counted once. *)
Lemma walk_counted (k : nat) :
  forall self directory prefix depth,
    Z.to_nat (max_depth self - depth) = k ->
    let out := walk (fresh self) directory prefix depth in
    Z.of_nat (List.length (tree_lines out)) = counted (stats out).
Proof.
  induction k as [|k IH]; intros self directory prefix depth Hk out; subst out.
  - rewrite walk_at_bound by (cbn [max_depth fresh]; lia). reflexivity.
  - destruct (iterdir directory) as [listing|] eqn:Hls.
    + rewrite (walk_level show_size show_hidden sort_dirs_first
                 include_categories exclude_patterns self directory listing
                 prefix depth) by (first [exact Hls | lia]).
      cbn [tree_lines stats].
      rewrite length_app, Nat2Z.inj_add, counted_add.
      rewrite (flat_map_length_counted _ _ (counts self prefix depth
                 (Z.of_nat (List.length (entries_to_show self listing)))
                 (files_truncated self listing))).
      * destruct (files_truncated self listing);
          cbn [List.length]; unfold counted, add_truncated, stats0;
          cbn [folders files truncated_folders]; lia.
      * intros [i e] _. unfold entry_block, entry_stats. cbn [fst snd].
        destruct (is_dir e).
        -- cbn [List.length]. rewrite Nat2Z.inj_succ.
           rewrite IH by lia.
           unfold counted, add_folder; cbn [folders files truncated_folders].
           lia.
        -- reflexivity.
    + rewrite walk_unreadable by exact Hls. reflexivity.
Qed.

(** C9.  When [generate_tree] returns, it returns the lines of the
    generator, and their number is the sum of the folders, the files and the
    truncated folders counted: the root line and each directory line count
    as a folder, each file line as a file, each truncation line as a
    truncated folder. *)
Theorem generate_tree_lines_counted :
  forall (fs : filesystem) (self : FolderTreeGenerator) (root_path : string)
         (lines : list string) (self' : FolderTreeGenerator),
    run fs self root_path = (Returned lines, self') ->
    lines = tree_lines self'
    /\ Z.of_nat (List.length lines)
       = folders (stats self') + files (stats self')
         + truncated_folders (stats self').
Proof.
  intros fs self root_path lines self' Hrun.
  destruct (fs root_path) as [root|] eqn:Hroot.
  - rewrite (generate_tree_found fs self root_path root Hroot) in Hrun.
    injection Hrun as <- <-. split; [reflexivity|].
    cbn [tree_lines stats List.length]. rewrite Nat2Z.inj_succ.
    rewrite (walk_counted (Z.to_nat (max_depth self - 0)) self root "" 0
               eq_refl).
    unfold counted, add_folder; cbn [folders files truncated_folders]. lia.
  - unfold generate_tree in Hrun. rewrite Hroot in Hrun. discriminate.
Qed.

(** A run returns whenever the root exists. *)
Lemma generate_tree_returns fs self root_path root :
  fs root_path = Some root ->
  exists lines self', run fs self root_path = (Returned lines, self').
Proof.
  intros Hroot. rewrite (generate_tree_found fs self root_path root Hroot).
  eauto.
Qed.
End RunFacts.

(** ** Lists: sorting, slicing, numbering *)

Section ListFacts.
Context {A : Type}.

Lemma insert_by_In (lt : A -> A -> bool) (x y : A) (l : list A) :
  In y (insert_by lt x l) <-> y = x \/ In y l.
Proof.
  induction l as [|z l IH]; cbn [insert_by].
  - cbn. intuition.
  - destruct (lt z x); cbn [In]; [rewrite IH|]; intuition.
Qed.

Lemma sort_by_In (lt : A -> A -> bool) (y : A) (l : list A) :
  In y (sort_by lt l) <-> In y l.
Proof.
  induction l as [|x l IH]; cbn [sort_by fold_right In]; [tauto|].
  fold (sort_by lt l). rewrite insert_by_In, IH. intuition.
Qed.

Lemma firstn_In (n : nat) (l : list A) (x : A) :
  In x (firstn n l) -> In x l.
Proof.
  revert l. induction n as [|n IH]; intros [|y l]; cbn; try tauto.
  intros [H|H]; [now left | right; now apply IH].
Qed.

Lemma slice_to_In (l : list A) (n : Z) (x : A) :
  In x (slice_to l n) -> In x l.
Proof. unfold slice_to. destruct (n <? 0); apply firstn_In. Qed.

Lemma enumerate_from_app (i : Z) (a b : list A) :
  enumerate_from i (a ++ b)
  = enumerate_from i a ++ enumerate_from (i + Z.of_nat (List.length a)) b.
Proof.
  revert i. induction a as [|x a IH]; intros i; cbn [enumerate_from app].
  - cbn [List.length]. now rewrite Z.add_0_r.
  - rewrite IH. do 3 f_equal. cbn [List.length]. lia.
Qed.

Lemma enumerate_from_In (i k : Z) (x : A) (l : list A) :
  In (k, x) (enumerate_from i l) -> In x l.
Proof.
  revert i. induction l as [|y l IH]; intros i; cbn; [tauto|].
  intros [H|H]; [left; congruence | right; now apply (IH (i + 1))].
Qed.

Lemma flat_map_ext_In {B : Type} (f g : A -> list B) (l : list A) :
  (forall x, In x l -> f x = g x) -> flat_map f l = flat_map g l.
Proof.
  induction l as [|x l IH]; intros H; cbn [flat_map]; [reflexivity|].
  rewrite (H x (or_introl eq_refl)), IH; [reflexivity|].
  intros y Hy. apply H. now right.
Qed.

Lemma flat_map_singleton {B : Type} (f : A -> B) (l : list A) :
  flat_map (fun x => [f x]) l = map f l.
Proof. induction l as [|x l IH]; cbn; [reflexivity | now rewrite IH]. Qed.
End ListFacts.

(** ** The laws of one level *)

Section Laws.
Variables show_size show_hidden sort_dirs_first : bool.
Variables include_categories exclude_patterns : option (list string).

Local Abbreviation walk := (_build_tree show_size show_hidden sort_dirs_first
                              include_categories exclude_patterns).
Local Abbreviation run := (generate_tree show_size show_hidden sort_dirs_first
                             include_categories exclude_patterns).
Local Abbreviation visible := (bt_entries show_hidden sort_dirs_first
                                 include_categories exclude_patterns).
Local Abbreviation directories := (bt_directories show_hidden sort_dirs_first
                                     include_categories exclude_patterns).
Local Abbreviation files_of := (bt_files show_hidden sort_dirs_first
                                  include_categories exclude_patterns).
Local Abbreviation files_truncated :=
  (bt_files_truncated show_hidden sort_dirs_first include_categories
                      exclude_patterns).
Local Abbreviation displayed_files :=
  (bt_displayed_files show_hidden sort_dirs_first include_categories
                      exclude_patterns).
Local Abbreviation hidden_count :=
  (bt_hidden_count show_hidden sort_dirs_first include_categories
                   exclude_patterns).
Local Abbreviation entries_to_show :=
  (bt_entries_to_show show_hidden sort_dirs_first include_categories
                      exclude_patterns).
Local Abbreviation block := (entry_block show_size show_hidden sort_dirs_first
                               include_categories exclude_patterns).
Local Abbreviation counts := (entry_stats show_size show_hidden sort_dirs_first
                                include_categories exclude_patterns).
Local Abbreviation level := (walk_level show_size show_hidden sort_dirs_first
                               include_categories exclude_patterns).
Local Abbreviation entry_lines := (entry_lines show_size).

Lemma visible_In listing e : In e (visible listing) -> In e listing.
Proof.
  unfold bt_entries. rewrite sort_by_In, filter_In. intros [H _].
  destruct (negb show_hidden); [|exact H].
  now apply filter_In in H.
Qed.

Lemma directories_are_dirs listing :
  Forall (fun e => is_dir e = true) (directories listing).
Proof.
  apply Forall_forall. intros e H. unfold bt_directories in H.
  now apply filter_In in H.
Qed.

Lemma files_are_files listing :
  Forall (fun e => is_file e = true) (files_of listing).
Proof.
  apply Forall_forall. intros e H. unfold bt_files in H.
  now apply filter_In in H.
Qed.

Lemma displayed_files_In self listing e :
  In e (displayed_files self listing) -> In e (files_of listing).
Proof.
  unfold bt_displayed_files.
  destruct (max_files_per_folder self) as [n|]; [|tauto].
  destruct (files_truncated self listing); [apply slice_to_In | tauto].
Qed.

Lemma displayed_files_are_files self listing :
  Forall (fun e => is_file e = true) (displayed_files self listing).
Proof.
  apply Forall_forall. intros e H. apply displayed_files_In in H.
  revert e H. apply Forall_forall, files_are_files.
Qed.

Lemma entries_to_show_In self listing e :
  In e (entries_to_show self listing) -> In e listing.
Proof.
  unfold bt_entries_to_show. rewrite in_app_iff. intros [H|H].
  - unfold bt_directories in H. apply filter_In in H.
    now apply visible_In.
  - apply displayed_files_In in H. unfold bt_files in H.
    apply filter_In in H. now apply visible_In.
Qed.

Lemma is_file_not_dir e : is_file e = true -> is_dir e = false.
Proof. now destruct e. Qed.

Lemma file_blocks self prefix depth n tr from shown_files :
  Forall (fun e => is_file e = true) shown_files ->
  flat_map (block self prefix depth n tr) (enumerate_from from shown_files)
  = entry_lines self prefix n tr from shown_files.
Proof.
  intros Hf. unfold entry_lines. rewrite <- flat_map_singleton.
  apply flat_map_ext_In. intros [i e] Hin.
  apply enumerate_from_In in Hin.
  rewrite Forall_forall in Hf. specialize (Hf e Hin).
  unfold entry_block. cbn [fst snd].
  now rewrite (is_file_not_dir e Hf).
Qed.

(** C3.  At every level that [_build_tree] renders, and for either value
    of [sort_dirs_first], the entries shown are the directories followed by
    the files shown, and the lines added are, in this order: for each
    directory its line and the lines of its walk, then one line for each
    file shown, then the truncation line if there is one.  So every line of
    a subdirectory of the level comes before every line of a file of the
    level. *)
Theorem directories_precede_files :
  forall (self : FolderTreeGenerator) (directory : Path)
         (listing : list Path) (prefix : string) (depth : Z),
    depth < max_depth self ->
    iterdir directory = Some listing ->
    entries_to_show self listing
    = directories listing ++ displayed_files self listing
    /\ Forall (fun e => is_dir e = true) (directories listing)
    /\ Forall (fun e => is_file e = true /\ is_dir e = false)
              (displayed_files self listing)
    /\ (forall i j ei ej,
          nth_error (entries_to_show self listing) i = Some ei ->
          nth_error (entries_to_show self listing) j = Some ej ->
          is_dir ei = true -> is_file ej = true -> (i < j)%nat)
    /\ tree_lines (walk (fresh self) directory prefix depth)
       = flat_map (block self prefix depth
                     (Z.of_nat (List.length (entries_to_show self listing)))
                     (files_truncated self listing))
                  (enumerate (directories listing))
         ++ entry_lines self prefix
              (Z.of_nat (List.length (entries_to_show self listing)))
              (files_truncated self listing)
              (Z.of_nat (List.length (directories listing)))
              (displayed_files self listing)
         ++ (if files_truncated self listing
             then [truncation_line self prefix
                     (Z.of_nat (List.length (entries_to_show self listing)))
                     (hidden_count self listing)]
             else []).
Proof.
  intros self directory listing prefix depth Hdepth Hls.
  pose proof (directories_are_dirs listing) as Hd.
  pose proof (displayed_files_are_files self listing) as Hf.
  split; [reflexivity|]. split; [exact Hd|]. split.
  { apply Forall_forall. intros e He. rewrite Forall_forall in Hf.
    split; [now apply Hf | apply is_file_not_dir; now apply Hf]. }
  split.
  { intros i j ei ej Hi Hj Hdi Hfj.
    unfold bt_entries_to_show in Hi, Hj.
    destruct (Nat.lt_ge_cases i (List.length (directories listing)))
      as [Hil|Hil].
    - destruct (Nat.lt_ge_cases j (List.length (directories listing)))
        as [Hjl|Hjl]; [|lia].
      rewrite nth_error_app1 in Hj by exact Hjl.
      apply nth_error_In in Hj. rewrite Forall_forall in Hd.
      specialize (Hd ej Hj). destruct ej; discriminate.
    - rewrite nth_error_app2 in Hi by exact Hil.
      apply nth_error_In in Hi. rewrite Forall_forall in Hf.
      specialize (Hf ei Hi). destruct ei; discriminate. }
  rewrite (level self directory listing prefix depth Hdepth Hls).
  cbn [tree_lines]. rewrite app_assoc. f_equal.
  unfold enumerate. unfold bt_entries_to_show at 2.
  rewrite enumerate_from_app, flat_map_app. f_equal.
  rewrite Z.add_0_l. now apply file_blocks.
Qed.
Lemma is_last_entry_truncated i n : is_last_entry i n true = false.
Proof. unfold is_last_entry. apply andb_false_r. Qed.

Lemma flat_map_enumerate_from {B : Type} (f : Z * Path -> list B)
    (g : Path -> list B) (k : Z) (l : list Path) :
  (forall i x, In x l -> f (i, x) = g x) ->
  flat_map f (enumerate_from k l) = flat_map g l.
Proof.
  revert k. induction l as [|x l IH]; intros k H;
    cbn [enumerate_from flat_map]; [reflexivity|].
  rewrite (H k x (or_introl eq_refl)), IH; [reflexivity|].
  intros i y Hy. apply H. now right.
Qed.

Lemma map_enumerate_from {B : Type} (f : Z * Path -> B) (g : Path -> B)
    (k : Z) (l : list Path) :
  (forall i x, In x l -> f (i, x) = g x) ->
  map f (enumerate_from k l) = map g l.
Proof.
  revert k. induction l as [|x l IH]; intros k H;
    cbn [enumerate_from map]; [reflexivity|].
  rewrite (H k x (or_introl eq_refl)), IH; [reflexivity|].
  intros i y Hy. apply H. now right.
Qed.

Lemma sum_Z_app a b : sum_Z (a ++ b) = sum_Z a + sum_Z b.
Proof.
  induction a as [|x a IH]; cbn [sum_Z fold_right app]; [reflexivity|].
  fold (sum_Z (a ++ b)). fold (sum_Z a). lia.
Qed.

Lemma truncated_stats_sum (l : list Stats) :
  truncated_folders (stats_sum l) = sum_Z (map truncated_folders l).
Proof.
  induction l as [|x l IH]; cbn [stats_sum fold_right map sum_Z];
    [reflexivity|].
  fold (stats_sum l). fold (sum_Z (map truncated_folders l)).
  unfold stats_add; cbn [truncated_folders]. now rewrite IH.
Qed.

Lemma sum_Z_zero (l : list Z) : Forall (fun z => z = 0) l -> sum_Z l = 0.
Proof.
  induction 1 as [|x l Hx _ IH]; cbn [sum_Z fold_right]; [reflexivity|].
  fold (sum_Z l). lia.
Qed.

(** C2, as the code has it.  A directory walked below the depth bound holds
    [K] visible files and [max_files_per_folder] is [N] with [0 < N < K].
    Then the walk adds, after the blocks of the subdirectories, the lines
    of the first [N] files, [N] lines, and one truncation line that states
    [K - N]; and [truncated_folders] grows by one for this directory, next
    to what the walks of its subdirectories add for themselves. *)
Theorem truncation_law :
  forall (self : FolderTreeGenerator) (directory : Path)
         (listing : list Path) (prefix : string) (depth N : Z),
    depth < max_depth self ->
    iterdir directory = Some listing ->
    max_files_per_folder self = Some N ->
    0 < N < Z.of_nat (List.length (files_of listing)) ->
    tree_lines (walk self directory prefix depth)
    = tree_lines self
      ++ flat_map
           (fun e =>
              entry_line show_size self prefix false e
              :: tree_lines (walk (fresh self) e
                               (prefix +++ vertical (style self)) (depth + 1)))
           (directories listing)
      ++ map (entry_line show_size self prefix false)
             (firstn (Z.to_nat N) (files_of listing))
      ++ [(prefix +++ corner (style self)) +++ "... ("
          +++ str_of_int (Z.of_nat (List.length (files_of listing)) - N)
          +++ " more files)"]
    /\ Z.of_nat (List.length (firstn (Z.to_nat N) (files_of listing))) = N
    /\ truncated_folders (stats (walk self directory prefix depth))
       = truncated_folders (stats self) + 1
         + sum_Z (map (fun e =>
                         truncated_folders
                           (stats (walk (fresh self) e
                                     (prefix +++ vertical (style self))
                                     (depth + 1))))
                      (directories listing)).
Proof.
  intros self directory listing prefix depth N Hdepth Hls HN [HN0 HNK].
  assert (Htr : files_truncated self listing = true).
  { unfold bt_files_truncated. rewrite HN.
    apply andb_true_iff. split.
    - apply negb_true_iff, Z.eqb_neq. lia.
    - now apply Z.ltb_lt. }
  assert (Hshown : displayed_files self listing
                   = firstn (Z.to_nat N) (files_of listing)).
  { unfold bt_displayed_files. rewrite HN, Htr. unfold slice_to.
    now replace (N <? 0) with false by (symmetry; apply Z.ltb_ge; lia). }
  assert (Hhidden : hidden_count self listing
                    = Z.of_nat (List.length (files_of listing)) - N).
  { unfold bt_hidden_count. now rewrite HN, Htr. }
  assert (Hlen : Z.of_nat (List.length (firstn (Z.to_nat N) (files_of listing)))
                 = N).
  { rewrite length_firstn. lia. }
  assert (Hfiles : Forall (fun e => is_file e = true)
                          (firstn (Z.to_nat N) (files_of listing))).
  { rewrite <- Hshown. apply displayed_files_are_files. }
  rewrite (walk_framed show_size show_hidden sort_dirs_first include_categories
             exclude_patterns self directory prefix depth).
  rewrite (level self directory listing prefix depth Hdepth Hls).
  unfold extend. cbn [tree_lines stats]. rewrite Htr, Hhidden.
  unfold bt_entries_to_show. rewrite Hshown.
  split; [|split; [exact Hlen|]].
  - f_equal. unfold enumerate.
    rewrite enumerate_from_app, flat_map_app, <- app_assoc. f_equal.
    + apply flat_map_enumerate_from. intros i e He.
      unfold entry_block. cbn [fst snd]. rewrite is_last_entry_truncated.
      pose proof (directories_are_dirs listing) as Hd.
      rewrite Forall_forall in Hd. now rewrite (Hd e He).
    + f_equal.
      * rewrite file_blocks by exact Hfiles. unfold entry_lines.
        apply map_enumerate_from. intros i e _. cbn [fst snd].
        now rewrite is_last_entry_truncated.
      * unfold truncation_line.
        replace (0 <? Z.of_nat (List.length (directories listing
                      ++ firstn (Z.to_nat N) (files_of listing))))
          with true; [reflexivity|].
        symmetry. apply Z.ltb_lt. rewrite length_app. lia.
  - unfold stats_add, add_truncated, stats0. cbn [truncated_folders].
    rewrite truncated_stats_sum, map_map. unfold enumerate.
    rewrite enumerate_from_app, map_app, sum_Z_app.
    rewrite (map_enumerate_from _
               (fun e => truncated_folders
                           (stats (walk (fresh self) e
                                     (prefix +++ vertical (style self))
                                     (depth + 1))))).
    + rewrite (sum_Z_zero (map _ (enumerate_from _ (firstn _ _)))); [lia|].
      apply Forall_forall. intros z Hz. apply in_map_iff in Hz.
      destruct Hz as [[i e] [<- Hin]]. apply enumerate_from_In in Hin.
      rewrite Forall_forall in Hfiles. specialize (Hfiles e Hin).
      unfold entry_stats. cbn [fst snd].
      now rewrite (is_file_not_dir e Hfiles).
    + intros i e He. unfold entry_stats. cbn [fst snd].
      rewrite is_last_entry_truncated.
      pose proof (directories_are_dirs listing) as Hd.
      rewrite Forall_forall in Hd. now rewrite (Hd e He).
Qed.
(** C4, as the code has it.  The walk returns the generator as it got it
    once the depth has reached [max_depth].  So with [max_depth = 1] a run
    returns the root line, then one line for each entry shown of the root's
    own listing, each of them a child of the root, then the truncation line
    of the root's file list if it was cut: nothing below a child of the root
    has a line. *)
Theorem depth_bound_one :
  (forall (self : FolderTreeGenerator) (directory : Path) (prefix : string)
          (depth : Z),
      max_depth self <= depth -> walk self directory prefix depth = self)
  /\ forall (fs : filesystem) (self : FolderTreeGenerator)
            (root_path : string) (root : Path),
       max_depth self = 1 ->
       fs root_path = Some root ->
       fst (run fs self root_path)
       = Returned
           (root_line show_size self root ::
            match iterdir root with
            | None => []
            | Some listing =>
                entry_lines self ""
                  (Z.of_nat (List.length (entries_to_show self listing)))
                  (files_truncated self listing) 0
                  (entries_to_show self listing)
                ++ (if files_truncated self listing
                    then [truncation_line self ""
                            (Z.of_nat (List.length
                                         (entries_to_show self listing)))
                            (hidden_count self listing)]
                    else [])
            end)
       /\ (forall listing e,
             iterdir root = Some listing ->
             In e (entries_to_show self listing) -> In e listing).
Proof.
  split.
  - intros self directory prefix depth H.
    now apply walk_at_bound.
  - intros fs self root_path root Hmax Hroot. split.
    + rewrite (generate_tree_found show_size show_hidden sort_dirs_first
                 include_categories exclude_patterns fs self root_path root
                 Hroot).
      cbn [fst]. do 2 f_equal.
      destruct (iterdir root) as [listing|] eqn:Hls.
      * rewrite (level self root listing "" 0) by (first [exact Hls | lia]).
        cbn [tree_lines]. f_equal.
        unfold entry_lines, enumerate. rewrite <- flat_map_singleton.
        apply flat_map_ext. intros [i e]. unfold entry_block. cbn [fst snd].
        f_equal. destruct (is_dir e); [|reflexivity].
        rewrite walk_at_bound by (cbn [max_depth fresh]; lia).
        reflexivity.
      * now rewrite walk_unreadable by exact Hls.
    + intros listing e _. apply entries_to_show_In.
Qed.

Lemma zero_limit_level self listing :
  max_files_per_folder self = Some 0 ->
  files_truncated self listing = false
  /\ displayed_files self listing = files_of listing
  /\ hidden_count self listing = 0.
Proof.
  intros H.
  assert (Htr : files_truncated self listing = false)
    by (unfold bt_files_truncated; now rewrite H).
  unfold bt_displayed_files, bt_hidden_count. rewrite H, Htr. auto.
Qed.

Lemma zero_limit_walk (k : nat) :
  forall self directory prefix depth,
    max_files_per_folder self = Some 0 ->
    Z.to_nat (max_depth self - depth) = k ->
    truncated_folders (stats (walk (fresh self) directory prefix depth)) = 0.
Proof.
  induction k as [|k IH]; intros self directory prefix depth H0 Hk.
  - rewrite walk_at_bound by (cbn [max_depth fresh]; lia). reflexivity.
  - destruct (iterdir directory) as [listing|] eqn:Hls.
    + rewrite (level self directory listing prefix depth)
        by (first [exact Hls | lia]).
      destruct (zero_limit_level self listing H0) as (Htr & _ & _).
      cbn [stats]. rewrite Htr.
      unfold stats_add, stats0. cbn [truncated_folders].
      rewrite truncated_stats_sum, map_map. apply sum_Z_zero.
      apply Forall_forall. intros z Hz. apply in_map_iff in Hz.
      destruct Hz as [[i e] [<- _]]. unfold entry_stats. cbn [fst snd].
      destruct (is_dir e); [|reflexivity].
      unfold add_folder. cbn [truncated_folders].
      apply IH; [exact H0 | lia].
    + now rewrite walk_unreadable by exact Hls.
Qed.

(** C10.  With [max_files_per_folder] set to 0 no directory is truncated:
    every visible file is shown and none is hidden; the lines of a level are
    the blocks of its directories and of all its files, with no truncation
    line after them; and [truncated_folders] is 0 after the walk of any
    directory and at the end of a run. *)
Theorem zero_limit_never_truncates :
  forall self : FolderTreeGenerator,
    max_files_per_folder self = Some 0 ->
    (forall listing,
        files_truncated self listing = false
        /\ displayed_files self listing = files_of listing
        /\ hidden_count self listing = 0)
    /\ (forall directory listing prefix depth,
          depth < max_depth self ->
          iterdir directory = Some listing ->
          tree_lines (walk (fresh self) directory prefix depth)
          = flat_map
              (block self prefix depth
                 (Z.of_nat (List.length (directories listing
                                         ++ files_of listing)))
                 false)
              (enumerate (directories listing ++ files_of listing)))
    /\ (forall directory prefix depth,
          truncated_folders (stats (walk (fresh self) directory prefix depth))
          = 0)
    /\ (forall fs root_path,
          truncated_folders (stats (snd (run fs self root_path))) = 0).
Proof.
  intros self H0. split; [|split; [|split]].
  - intros listing. now apply zero_limit_level.
  - intros directory listing prefix depth Hdepth Hls.
    rewrite (level self directory listing prefix depth Hdepth Hls).
    destruct (zero_limit_level self listing H0) as (Htr & Hshown & _).
    cbn [tree_lines]. unfold bt_entries_to_show.
    rewrite Htr, Hshown. apply app_nil_r.
  - intros directory prefix depth.
    now apply (zero_limit_walk (Z.to_nat (max_depth self - depth))).
  - intros fs root_path.
    destruct (fs root_path) as [root|] eqn:Hroot.
    + rewrite (generate_tree_found show_size show_hidden sort_dirs_first
                 include_categories exclude_patterns fs self root_path root
                 Hroot).
      cbn [snd stats]. unfold add_folder. cbn [truncated_folders].
      now apply (zero_limit_walk (Z.to_nat (max_depth self - 0))).
    + unfold generate_tree. rewrite Hroot. reflexivity.
Qed.
End Laws.

(** ** Directories that cannot be listed *)

Section MapFacts.
Context {A B : Type} (f : A -> B).

Lemma filter_map_commute (p : B -> bool) (q : A -> bool) (l : list A) :
  (forall x, p (f x) = q x) ->
  filter p (map f l) = map f (filter q l).
Proof.
  intros H. induction l as [|x l IH]; cbn [map filter]; [reflexivity|].
  rewrite H. destruct (q x); cbn [map]; now rewrite IH.
Qed.

Lemma insert_by_map (ltB : B -> B -> bool) (ltA : A -> A -> bool) x l :
  (forall x y, ltB (f x) (f y) = ltA x y) ->
  insert_by ltB (f x) (map f l) = map f (insert_by ltA x l).
Proof.
  intros H. induction l as [|y l IH]; cbn [map insert_by]; [reflexivity|].
  rewrite H. destruct (ltA y x); cbn [map]; [now rewrite IH | reflexivity].
Qed.

Lemma sort_by_map (ltB : B -> B -> bool) (ltA : A -> A -> bool) l :
  (forall x y, ltB (f x) (f y) = ltA x y) ->
  sort_by ltB (map f l) = map f (sort_by ltA l).
Proof.
  intros H. induction l as [|x l IH]; cbn [map sort_by fold_right];
    [reflexivity|].
  fold (sort_by ltB (map f l)). fold (sort_by ltA l).
  rewrite IH. now apply insert_by_map.
Qed.

Lemma slice_to_map (l : list A) (n : Z) :
  slice_to (map f l) n = map f (slice_to l n).
Proof.
  unfold slice_to. rewrite length_map.
  destruct (n <? 0); apply firstn_map.
Qed.

Lemma enumerate_from_map (i : Z) (l : list A) :
  enumerate_from i (map f l)
  = map (fun ie => (fst ie, f (snd ie))) (enumerate_from i l).
Proof.
  revert i. induction l as [|x l IH]; intros i; cbn [map enumerate_from];
    [reflexivity|].
  now rewrite IH.
Qed.

Lemma fold_left_map_l {S : Type} (g : S -> B -> S) (l : list A) (s : S) :
  fold_left g (map f l) s = fold_left (fun s x => g s (f x)) l s.
Proof.
  revert s. induction l as [|x l IH]; intros s; cbn [map fold_left];
    [reflexivity|].
  apply IH.
Qed.
End MapFacts.

Lemma seal_name p : name (seal p) = name p.
Proof. destruct p as [n s|n [l|]|n]; reflexivity. Qed.

Lemma seal_is_dir p : is_dir (seal p) = is_dir p.
Proof. destruct p as [n s|n [l|]|n]; reflexivity. Qed.

Lemma seal_is_file p : is_file (seal p) = is_file p.
Proof. destruct p as [n s|n [l|]|n]; reflexivity. Qed.

Lemma seal_suffix p : suffix (seal p) = suffix p.
Proof. unfold suffix. now rewrite seal_name. Qed.

Lemma seal_get_file_size p : get_file_size (seal p) = get_file_size p.
Proof. destruct p as [n s|n [l|]|n]; reflexivity. Qed.

Lemma seal_get_file_icon self p b :
  get_file_icon self (seal p) b = get_file_icon self p b.
Proof. unfold get_file_icon. now rewrite seal_is_dir, seal_suffix. Qed.

Lemma seal_should_include_file p cats pats :
  should_include_file (seal p) cats pats = should_include_file p cats pats.
Proof.
  unfold should_include_file. now rewrite seal_name, seal_is_dir, seal_suffix.
Qed.

Lemma seal_rglob_file_sizes p :
  rglob_file_sizes (seal p) = rglob_file_sizes p.
Proof.
  induction p as [n s|n|n|n l IH] using Path_induction; try reflexivity.
  cbn [seal rglob_file_sizes].
  induction IH as [|x l Hx _ IHl]; cbn [map flat_map]; [reflexivity|].
  now rewrite Hx, IHl.
Qed.

Section Sealed.
Variables show_size show_hidden sort_dirs_first : bool.
Variables include_categories exclude_patterns : option (list string).

Local Abbreviation walk := (_build_tree show_size show_hidden sort_dirs_first
                              include_categories exclude_patterns).
Local Abbreviation walk_levels := (build_tree_levels show_size show_hidden
                                     sort_dirs_first include_categories
                                     exclude_patterns).
Local Abbreviation run := (generate_tree show_size show_hidden sort_dirs_first
                             include_categories exclude_patterns).
Local Abbreviation visible := (bt_entries show_hidden sort_dirs_first
                                 include_categories exclude_patterns).
Local Abbreviation directories := (bt_directories show_hidden sort_dirs_first
                                     include_categories exclude_patterns).
Local Abbreviation files_of := (bt_files show_hidden sort_dirs_first
                                  include_categories exclude_patterns).
Local Abbreviation files_truncated :=
  (bt_files_truncated show_hidden sort_dirs_first include_categories
                      exclude_patterns).
Local Abbreviation displayed_files :=
  (bt_displayed_files show_hidden sort_dirs_first include_categories
                      exclude_patterns).
Local Abbreviation hidden_count :=
  (bt_hidden_count show_hidden sort_dirs_first include_categories
                   exclude_patterns).
Local Abbreviation entries_to_show :=
  (bt_entries_to_show show_hidden sort_dirs_first include_categories
                      exclude_patterns).
Local Abbreviation block := (entry_block show_size show_hidden sort_dirs_first
                               include_categories exclude_patterns).

Lemma seal_sort_key_lt x y :
  sort_key_lt sort_dirs_first (seal x) (seal y)
  = sort_key_lt sort_dirs_first x y.
Proof. unfold sort_key_lt. now rewrite !seal_name, !seal_is_file. Qed.

Lemma seal_visible listing :
  visible (map seal listing) = map seal (visible listing).
Proof.
  unfold bt_entries.
  set (hid := fun e => negb (startswith (name e) ".")).
  set (inc := fun e => should_include_file e include_categories
                                           exclude_patterns).
  assert (Hhid : (if negb show_hidden then filter hid (map seal listing)
                  else map seal listing)
                 = map seal (if negb show_hidden then filter hid listing
                             else listing)).
  { destruct (negb show_hidden); [|reflexivity].
    apply (filter_map_commute seal hid hid).
    intros x. unfold hid. now rewrite seal_name. }
  rewrite Hhid.
  rewrite (filter_map_commute seal inc inc)
    by (intros x; apply seal_should_include_file).
  apply sort_by_map, seal_sort_key_lt.
Qed.

Lemma seal_directories listing :
  directories (map seal listing) = map seal (directories listing).
Proof.
  unfold bt_directories. rewrite seal_visible.
  apply (filter_map_commute seal is_dir is_dir), seal_is_dir.
Qed.

Lemma seal_files listing :
  files_of (map seal listing) = map seal (files_of listing).
Proof.
  unfold bt_files. rewrite seal_visible.
  apply (filter_map_commute seal is_file is_file), seal_is_file.
Qed.

Lemma seal_files_truncated self listing :
  files_truncated self (map seal listing) = files_truncated self listing.
Proof. unfold bt_files_truncated. now rewrite seal_files, length_map. Qed.

Lemma seal_hidden_count self listing :
  hidden_count self (map seal listing) = hidden_count self listing.
Proof.
  unfold bt_hidden_count.
  now rewrite seal_files_truncated, seal_files, length_map.
Qed.

Lemma seal_displayed_files self listing :
  displayed_files self (map seal listing)
  = map seal (displayed_files self listing).
Proof.
  unfold bt_displayed_files. rewrite seal_files_truncated, seal_files.
  destruct (max_files_per_folder self) as [n|]; [|reflexivity].
  destruct (files_truncated self listing); [apply slice_to_map | reflexivity].
Qed.

Lemma seal_entries_to_show self listing :
  entries_to_show self (map seal listing)
  = map seal (entries_to_show self listing).
Proof.
  unfold bt_entries_to_show.
  now rewrite seal_directories, seal_displayed_files, map_app.
Qed.

Lemma seal_entry_line self prefix last e :
  entry_line show_size self prefix last (seal e)
  = entry_line show_size self prefix last e.
Proof.
  unfold entry_line.
  now rewrite seal_is_dir, seal_name, seal_get_file_icon, seal_get_file_size.
Qed.

Lemma empty_listing_not_truncated self :
  limit_ok (max_files_per_folder self) ->
  files_truncated self [] = false.
Proof.
  unfold limit_ok, bt_files_truncated.
  destruct (max_files_per_folder self) as [n|]; [|reflexivity].
  intros Hn.
  assert (Hnil : files_of [] = [])
    by (unfold bt_files, bt_entries; destruct (negb show_hidden); reflexivity).
  rewrite Hnil. apply andb_false_iff. right. apply Z.ltb_ge.
  cbn [List.length]. lia.
Qed.

Lemma entries_to_show_nil self : entries_to_show self [] = [].
Proof.
  assert (Hvis : visible [] = [])
    by (unfold bt_entries; destruct (negb show_hidden); reflexivity).
  unfold bt_entries_to_show, bt_directories, bt_displayed_files, bt_files.
  rewrite Hvis. cbn [filter app].
  destruct (max_files_per_folder self) as [n|]; [|reflexivity].
  destruct (files_truncated self []); [|reflexivity].
  unfold slice_to. destruct (n <? 0); apply firstn_nil.
Qed.

(** The walk does on the sealed tree what it does on the tree. *)
Lemma seal_walk_levels (k : nat) :
  forall self directory prefix depth,
    limit_ok (max_files_per_folder self) ->
    walk_levels k self (seal directory) prefix depth
    = walk_levels k self directory prefix depth.
Proof.
  induction k as [|k IH]; intros self directory prefix depth Hok;
    cbn [build_tree_levels]; [reflexivity|].
  destruct (depth >=? max_depth self); [reflexivity|].
  unfold build_tree_body.
  destruct directory as [n s|n [listing|]|n]; cbn [seal iterdir];
    try reflexivity.
  - rewrite seal_files_truncated, seal_hidden_count, seal_entries_to_show,
      length_map.
    set (tr := files_truncated self listing).
    set (shown := entries_to_show self listing).
    set (s0 := if tr then set_stats self (add_truncated (stats self)) else self).
    unfold enumerate. rewrite enumerate_from_map, fold_left_map_l.
    assert (Hfold :
      fold_left
        (fun s x =>
           loop_body show_size
             (fun self' entry prefix' =>
                walk_levels k self' entry prefix' (depth + 1))
             prefix (Z.of_nat (List.length shown)) tr s
             (fst x, seal (snd x)))
        (enumerate_from 0 shown) s0
      = fold_left
          (loop_body show_size
             (fun self' entry prefix' =>
                walk_levels k self' entry prefix' (depth + 1))
             prefix (Z.of_nat (List.length shown)) tr)
          (enumerate_from 0 shown) s0).
    { apply fold_left_agree
        with (I := fun s => max_files_per_folder s = max_files_per_folder self).
      - intros s [i e] Hs. unfold loop_body. cbn [fst snd].
        rewrite seal_is_dir, seal_entry_line, seal_get_file_size.
        destruct (is_dir e); [|reflexivity].
        apply IH. cbn [max_files_per_folder append_line set_stats].
        now rewrite Hs.
      - intros s [i e] Hs. cbn [fst snd].
        rewrite loop_body_framed; [exact Hs|].
        intros s' e' p'. apply walk_levels_framed.
      - unfold s0. now destruct tr. }
    rewrite Hfold. reflexivity.
  - rewrite (empty_listing_not_truncated self Hok), entries_to_show_nil.
    reflexivity.
Qed.

Lemma seal_walk self directory prefix depth :
  limit_ok (max_files_per_folder self) ->
  walk self (seal directory) prefix depth = walk self directory prefix depth.
Proof. intros H. unfold _build_tree. now apply seal_walk_levels. Qed.

Lemma seal_root_line self root :
  root_line show_size self (seal root) = root_line show_size self root.
Proof.
  unfold root_line.
  now rewrite seal_get_file_icon, seal_name, seal_is_dir,
    seal_rglob_file_sizes.
Qed.
(** C8.  On a directory whose listing raises, [_build_tree] returns the
    generator as it got it: no line, no count, no exception.  The level
    above goes on: its lines are the blocks of all its entries shown, and
    the block of such a directory is its own line alone.  A run on a root
    that exists always returns; and, the limit on files not being negative,
    it returns what it returns on the tree in which those directories are
    empty. *)
Theorem unreadable_directory_is_skipped :
  (forall (self : FolderTreeGenerator) (directory : Path) (prefix : string)
          (depth : Z),
      iterdir directory = None ->
      walk self directory prefix depth = self)
  /\ (forall (self : FolderTreeGenerator) (directory : Path)
             (listing : list Path) (prefix : string) (depth : Z),
         depth < max_depth self ->
         iterdir directory = Some listing ->
         tree_lines (walk (fresh self) directory prefix depth)
         = flat_map (block self prefix depth
                       (Z.of_nat (List.length (entries_to_show self listing)))
                       (files_truncated self listing))
                    (enumerate (entries_to_show self listing))
           ++ (if files_truncated self listing
               then [truncation_line self prefix
                       (Z.of_nat (List.length (entries_to_show self listing)))
                       (hidden_count self listing)]
               else [])
         /\ forall ie,
              In ie (enumerate (entries_to_show self listing)) ->
              iterdir (snd ie) = None ->
              block self prefix depth
                    (Z.of_nat (List.length (entries_to_show self listing)))
                    (files_truncated self listing) ie
              = [entry_line show_size self prefix
                   (is_last_entry (fst ie)
                      (Z.of_nat (List.length (entries_to_show self listing)))
                      (files_truncated self listing))
                   (snd ie)])
  /\ (forall (fs : filesystem) (self : FolderTreeGenerator)
             (root_path : string) (root : Path),
         fs root_path = Some root ->
         (exists lines self',
             run fs self root_path = (Returned lines, self'))
         /\ (limit_ok (max_files_per_folder self) ->
             run (fun p => option_map seal (fs p)) self root_path
             = run fs self root_path)).
Proof.
  split; [|split].
  - intros self directory prefix depth H. now apply walk_unreadable.
  - intros self directory listing prefix depth Hdepth Hls. split.
    + now rewrite (walk_level show_size show_hidden sort_dirs_first
                     include_categories exclude_patterns self directory
                     listing prefix depth Hdepth Hls).
    + intros [i e] _ Hnone. unfold entry_block. cbn [fst snd] in *.
      f_equal. destruct (is_dir e); [|reflexivity].
      now rewrite walk_unreadable by exact Hnone.
  - intros fs self root_path root Hroot. split.
    + now apply (generate_tree_returns show_size show_hidden sort_dirs_first
                   include_categories exclude_patterns fs self root_path root).
    + intros Hok.
      rewrite (generate_tree_found show_size show_hidden sort_dirs_first
                 include_categories exclude_patterns fs self root_path root
                 Hroot).
      rewrite (generate_tree_found show_size show_hidden sort_dirs_first
                 include_categories exclude_patterns
                 (fun p => option_map seal (fs p)) self root_path (seal root))
        by (now rewrite Hroot).
      rewrite seal_root_line, seal_walk by exact Hok.
      reflexivity.
Qed.
End Sealed.

(** C1, as the code has it.  In the scenario, with directories sorted
    first and whatever the order in which the two folders are listed, a run
    ends with [folders = 2], [files = 3] and [truncated_folders = 1].  The
    three files counted are the two shown under [src/] and [notes.md]:
    [total_size] is the sum of their sizes, and the lines returned are the
    root, [src/], [a.py], [b.py], the truncation line and [notes.md]. *)
Theorem scenario_statistics :
  forall (show_size show_hidden : bool) (src_listing root_listing : list Path),
    In src_listing scenario_src_orders ->
    In root_listing (scenario_root_orders (Dir "src" (Some src_listing))) ->
    let '(result, self') :=
      generate_tree show_size show_hidden true None None
                    (scenario_fs_of root_listing) scenario_generator
                    "project" in
    folders (stats self') = 2
    /\ files (stats self') = 3
    /\ truncated_folders (stats self') = 1
    /\ total_size (stats self') = 1 + 2 + 8
    /\ result
       = Returned
           (if show_size
            then ["📂 project/ (15.0 B)"; "├─ 📂 src/"; "│ ├─ P a.py (1.0 B)";
                  "│ ├─ P b.py (2.0 B)"; "│ └─ ... (1 more files)";
                  "└─ M notes.md (8.0 B)"]
            else ["📂 project/"; "├─ 📂 src/"; "│ ├─ P a.py"; "│ ├─ P b.py";
                  "│ └─ ... (1 more files)"; "└─ M notes.md"]).
Proof.
  intros show_size show_hidden src_listing root_listing Hsrc Hroot.
  unfold scenario_src_orders in Hsrc. cbn [In] in Hsrc.
  destruct Hsrc as [<-|[<-|[<-|[<-|[<-|[<-|[]]]]]]];
    unfold scenario_root_orders in Hroot; cbn [In] in Hroot;
    destruct Hroot as [<-|[<-|[]]];
    destruct show_size, show_hidden;
    vm_compute; repeat split; reflexivity.
Qed.

(** The scenario as [scenario_fs] lists it. *)
Lemma scenario_statistics_witness :
  let '(result, self') :=
    generate_tree false false true None None scenario_fs scenario_generator
                  "project" in
  folders (stats self') = 2
  /\ files (stats self') = 3
  /\ truncated_folders (stats self') = 1
  /\ total_size (stats self') = 1 + 2 + 8
  /\ result
     = Returned ["📂 project/"; "├─ 📂 src/"; "│ ├─ P a.py"; "│ ├─ P b.py";
                 "│ └─ ... (1 more files)"; "└─ M notes.md"].
Proof.
  apply (scenario_statistics false false scenario_src_listing
           [notes_md; scenario_src]).
  - unfold scenario_src_orders, scenario_src_listing. simpl.
    do 4 right. left. reflexivity.
  - unfold scenario_root_orders, scenario_src, scenario_src_listing. simpl.
    right. left. reflexivity.
Defined.

(** C1 as the specification words it: of the three files of [src/] the walk
    counts the two it shows; [c.py], cut from the display, is left out of
    [files] and of [total_size]. *)
Lemma scenario_hidden_file_not_counted :
  let src_walk :=
    _build_tree false false true None None (fresh scenario_generator)
                scenario_src "│ " 1 in
  List.length (bt_files false true None None scenario_src_listing) = 3%nat
  /\ files (stats src_walk) = 2
  /\ total_size (stats src_walk) = 1 + 2
  /\ files (stats src_walk)
     <> Z.of_nat (List.length (bt_files false true None None
                                        scenario_src_listing)).
Proof.
  vm_compute. repeat split; try reflexivity. discriminate.
Qed.

(** C2 as the specification words it: with the limit [N = 0] and two
    visible files the walk adds both file lines and no truncation line, and
    [truncated_folders] stays as it was. *)
Lemma truncation_law_fails_at_zero :
  let self := __init__ "simple" "simple" 3 (Some 0) in
  let listing := [File "a.txt" (Some 5); File "b.txt" (Some 6)] in
  let self' :=
    _build_tree false false true None None self (Dir "d" (Some listing))
                "" 0 in
  0 < Z.of_nat (List.length (bt_files false true None None listing))
  /\ tree_lines self' = ["├─ T a.txt"; "└─ T b.txt"]
  /\ truncated_folders (stats self') = truncated_folders (stats self).
Proof.
  vm_compute. repeat split; reflexivity.
Qed.

(** The truncation law on [src/] of the scenario. *)
Lemma truncation_law_witness :
  tree_lines (_build_tree false false true None None scenario_generator
                          scenario_src "│ " 1)
  = ["│ ├─ P a.py"; "│ ├─ P b.py"; "│ └─ ... (1 more files)"]
  /\ truncated_folders
       (stats (_build_tree false false true None None scenario_generator
                           scenario_src "│ " 1))
     = 1.
Proof.
  assert (H1 : 1 < max_depth scenario_generator) by (vm_compute; reflexivity).
  assert (H2 : iterdir scenario_src = Some scenario_src_listing)
    by reflexivity.
  assert (H3 : max_files_per_folder scenario_generator = Some 2)
    by reflexivity.
  assert (H4 : 0 < 2 < Z.of_nat (List.length
                                   (bt_files false true None None
                                             scenario_src_listing)))
    by (vm_compute; split; reflexivity).
  destruct (truncation_law false false true None None scenario_generator
              scenario_src scenario_src_listing "│ " 1 2 H1 H2 H3 H4)
    as (Hlines & _ & Hcount).
  split; [rewrite Hlines | rewrite Hcount]; reflexivity.
Defined.

(** Directories before files at the root of the scenario, sorted by name
    alone. *)
Lemma directories_precede_files_witness :
  tree_lines (_build_tree false false false None None
                          (fresh scenario_generator) scenario_root "" 0)
  = ["├─ 📂 src/"; "│ ├─ P a.py"; "│ ├─ P b.py"; "│ └─ ... (1 more files)";
     "└─ M notes.md"].
Proof.
  assert (H1 : 0 < max_depth scenario_generator) by (vm_compute; reflexivity).
  destruct (directories_precede_files false false false None None
              scenario_generator scenario_root
              [File "notes.md" (Some 8); scenario_src] "" 0 H1 eq_refl)
    as (_ & _ & _ & _ & Hlines).
  rewrite Hlines. reflexivity.
Defined.

(** C4 as the specification words it: with [max_depth = 1] and one file
    shown of two, the run returns a third line that is neither the root line
    nor the line of a child of the root, the truncation line. *)
Lemma depth_one_truncation_line :
  let self := __init__ "simple" "simple" 1 (Some 1) in
  let listing := [File "a.txt" (Some 5); File "b.txt" (Some 6)] in
  let root := Dir "r" (Some listing) in
  fst (generate_tree false false true None None (fun _ => Some root) self "r")
  = Returned ["📂 r/"; "├─ T a.txt"; "└─ ... (1 more files)"]
  /\ "└─ ... (1 more files)" <> root_line false self root
  /\ forall e last,
       In e listing ->
       "└─ ... (1 more files)" <> entry_line false self "" last e.
Proof.
  split; [reflexivity|]. split; [vm_compute; discriminate|].
  intros e last [<-|[<-|[]]]; destruct last; vm_compute; discriminate.
Qed.

(** A run of depth one on the scenario. *)
Lemma depth_bound_one_witness :
  fst (generate_tree false false true None None scenario_fs
                     (__init__ "simple" "simple" 1 (Some 2)) "project")
  = Returned ["📂 project/"; "├─ 📂 src/"; "└─ M notes.md"].
Proof.
  destruct (depth_bound_one false false true None None) as [_ H].
  destruct (H scenario_fs (__init__ "simple" "simple" 1 (Some 2)) "project"
              scenario_root eq_refl eq_refl) as [Hlines _].
  rewrite Hlines. reflexivity.
Defined.

(** A Python file whose name holds an excluded pattern, with code files
    included. *)
Lemma should_include_file_exclusion_wins_witness :
  should_include_file (File "report_old.py" (Some 10)) (Some ["code"])
                      (Some ["_old"; "tmp"]) = false
  /\ should_include_file (File "report_old.py" (Some 10)) (Some ["code"]) None
     = true.
Proof.
  split; [|reflexivity].
  apply (should_include_file_exclusion_wins
           (File "report_old.py" (Some 10)) (Some ["code"]) ["_old"; "tmp"]
           "_old").
  - simpl. now left.
  - exists "report", ".py". reflexivity.
Defined.

(** A run on a path that the scenario does not hold. *)
Lemma generate_tree_missing_root_witness :
  let '(result, self') :=
    generate_tree false false true None None scenario_fs scenario_generator
                  "elsewhere" in
  result = Raised (FileNotFoundError "Path does not exist: elsewhere")
  /\ tree_lines self' = []
  /\ stats self' = mkStats 0 0 0 0.
Proof.
  exact (generate_tree_missing_root false false true None None scenario_fs
           scenario_generator "elsewhere" eq_refl).
Defined.

Lemma unreadable_directory_is_skipped_witness :
  generate_tree false false true None None (fun _ => Some locked_root)
                scenario_generator "r"
  = generate_tree false false true None None
                  (fun _ => Some (seal locked_root)) scenario_generator "r"
  /\ fst (generate_tree false false true None None (fun _ => Some locked_root)
                        scenario_generator "r")
     = Returned ["📂 r/"; "├─ + locked/"; "├─ + z/"; "│ └─ - k"; "├─ T a.txt";
                 "└─ T b.txt"].
Proof.
  destruct (unreadable_directory_is_skipped false false true None None)
    as (_ & _ & H).
  destruct (H (fun _ => Some locked_root) scenario_generator "r" locked_root
              eq_refl) as [_ Hseal].
  split; [|reflexivity].
  symmetry. apply Hseal. vm_compute. discriminate.
Defined.

(** The lines of the scenario, counted. *)
Lemma generate_tree_lines_counted_witness :
  let run :=
    generate_tree false false true None None scenario_fs scenario_generator
                  "project" in
  Z.of_nat (List.length (tree_lines (snd run)))
  = folders (stats (snd run)) + files (stats (snd run))
    + truncated_folders (stats (snd run)).
Proof.
  destruct (generate_tree_lines_counted false false true None None
              scenario_fs scenario_generator "project"
              (tree_lines (snd (generate_tree false false true None None
                                  scenario_fs scenario_generator "project")))
              (snd (generate_tree false false true None None scenario_fs
                                  scenario_generator "project"))
              eq_refl) as [_ H].
  exact H.
Defined.

(** The scenario with the limit 0: no folder is truncated. *)
Lemma zero_limit_never_truncates_witness :
  truncated_folders
    (stats (snd (generate_tree false false true None None scenario_fs
                   (__init__ "simple" "simple" 3 (Some 0)) "project")))
  = 0.
Proof.
  destruct (zero_limit_never_truncates false false true None None
              (__init__ "simple" "simple" 3 (Some 0)) eq_refl)
    as (_ & _ & _ & H).
  apply H.
Defined.

(** * Further properties *)

(** ** The order of strings *)

Lemma ascii_compare_refl a : Ascii.compare a a = Eq.
Proof. unfold Ascii.compare. apply N.compare_refl. Qed.

Lemma ascii_compare_lt_trans a b c :
  Ascii.compare a b = Lt -> Ascii.compare b c = Lt -> Ascii.compare a c = Lt.
Proof.
  unfold Ascii.compare. rewrite !N.compare_lt_iff. apply N.lt_trans.
Qed.

Lemma string_compare_lt_trans a :
  forall b c,
    String.compare a b = Lt -> String.compare b c = Lt ->
    String.compare a c = Lt.
Proof.
  induction a as [|x a IH]; intros [|y b] [|z c]; cbn [String.compare];
    try discriminate; try reflexivity.
  destruct (Ascii.compare x y) eqn:Hxy; try discriminate.
  - apply Ascii.compare_eq_iff in Hxy. subst y.
    destruct (Ascii.compare x z); try discriminate; [apply IH | reflexivity].
  - intros _. destruct (Ascii.compare y z) eqn:Hyz; try discriminate.
    + apply Ascii.compare_eq_iff in Hyz. subst z. now rewrite Hxy.
    + intros _. now rewrite (ascii_compare_lt_trans x y z Hxy Hyz).
Qed.

Lemma string_ltb_lt a b : String.ltb a b = true <-> String.compare a b = Lt.
Proof.
  unfold String.ltb. destruct (String.compare a b); split; congruence.
Qed.

Lemma string_ltb_asym a b : String.ltb a b = true -> String.ltb b a = false.
Proof.
  rewrite string_ltb_lt. intros H. unfold String.ltb.
  rewrite String.compare_antisym, H. reflexivity.
Qed.

Lemma string_ltb_irrefl a : String.ltb a a = false.
Proof.
  destruct (String.ltb a a) eqn:H; [|reflexivity].
  now rewrite (string_ltb_asym a a H) in H.
Qed.

Lemma string_ltb_trans a b c :
  String.ltb a b = true -> String.ltb b c = true -> String.ltb a c = true.
Proof. rewrite !string_ltb_lt. apply string_compare_lt_trans. Qed.

(** Not below, then not below, is not below. *)
Lemma string_ltb_weak a b c :
  String.ltb b a = false -> String.ltb c b = false -> String.ltb c a = false.
Proof.
  intros Hba Hcb. destruct (String.ltb c a) eqn:Hca; [|reflexivity].
  destruct (String.compare c b) eqn:Hc.
  - apply String.compare_eq_iff in Hc. subst c. congruence.
  - apply string_ltb_lt in Hc. congruence.
  - assert (Hbc : String.ltb b c = true).
    { apply string_ltb_lt. rewrite String.compare_antisym, Hc. reflexivity. }
    rewrite (string_ltb_trans b c a Hbc Hca) in Hba. discriminate.
Qed.

Lemma string_ltb_leb a b : String.ltb b a = false <-> String.leb a b = true.
Proof.
  unfold String.ltb, String.leb. rewrite (String.compare_antisym b a).
  destruct (String.compare a b); cbn; split; congruence.
Qed.

Lemma tuple_lt_asym a b : tuple_lt a b = true -> tuple_lt b a = false.
Proof.
  destruct a as [[|] s], b as [[|] t]; unfold tuple_lt; cbn;
    try discriminate; try reflexivity; apply string_ltb_asym.
Qed.

Lemma tuple_lt_weak a b c :
  tuple_lt b a = false -> tuple_lt c b = false -> tuple_lt c a = false.
Proof.
  destruct a as [[|] s], b as [[|] t], c as [[|] u]; unfold tuple_lt; cbn;
    try discriminate; try reflexivity; apply string_ltb_weak.
Qed.

Lemma sort_key_lt_asym flag x y :
  sort_key_lt flag x y = true -> sort_key_lt flag y x = false.
Proof.
  unfold sort_key_lt. destruct flag;
    [apply tuple_lt_asym | apply string_ltb_asym].
Qed.

Lemma sort_key_lt_weak flag x y z :
  sort_key_lt flag y x = false -> sort_key_lt flag z y = false ->
  sort_key_lt flag z x = false.
Proof.
  unfold sort_key_lt. destruct flag;
    [apply tuple_lt_weak | apply string_ltb_weak].
Qed.

(** ** The stable sort *)

Section StableSort.
Context {A : Type} (lt : A -> A -> bool).
Hypothesis lt_asym : forall x y, lt x y = true -> lt y x = false.
Hypothesis lt_weak :
  forall x y z, lt y x = false -> lt z y = false -> lt z x = false.

Local Abbreviation le := (fun x y => lt y x = false).

Lemma insert_by_sorted x l :
  StronglySorted le l -> StronglySorted le (insert_by lt x l).
Proof.
  induction 1 as [|y l Hsorted IH Hall]; cbn [insert_by].
  - constructor; constructor.
  - destruct (lt y x) eqn:Hyx.
    + constructor; [exact IH|].
      apply Forall_forall. intros z Hz. apply insert_by_In in Hz.
      destruct Hz as [->|Hz]; [now apply lt_asym|].
      rewrite Forall_forall in Hall. now apply Hall.
    + constructor; [now constructor|].
      constructor; [exact Hyx|].
      apply Forall_forall. intros z Hz. rewrite Forall_forall in Hall.
      apply (lt_weak x y z Hyx). now apply Hall.
Qed.

Lemma sort_by_sorted l : StronglySorted le (sort_by lt l).
Proof.
  induction l as [|x l IH]; cbn [sort_by fold_right]; [constructor|].
  now apply insert_by_sorted.
Qed.

Lemma filter_insert_by (p : A -> bool) x l :
  StronglySorted le l ->
  filter p (insert_by lt x l)
  = if p x then insert_by lt x (filter p l) else filter p l.
Proof.
  induction 1 as [|y l Hsorted IH Hall]; cbn [insert_by filter].
  - now destruct (p x).
  - destruct (lt y x) eqn:Hyx; cbn [filter].
    + rewrite IH. destruct (p y), (p x); cbn [insert_by]; try reflexivity.
      now rewrite Hyx.
    + destruct (p x); [|reflexivity].
      destruct (p y); cbn [insert_by]; [now rewrite Hyx|].
      destruct (filter p l) as [|z l'] eqn:Hf; [reflexivity|].
      cbn [insert_by].
      assert (Hz : In z l).
      { assert (Hin : In z (filter p l)) by (rewrite Hf; now left).
        now apply filter_In in Hin. }
      rewrite Forall_forall in Hall.
      now rewrite (lt_weak x y z Hyx (Hall z Hz)).
Qed.

(** Sorting, then keeping the entries that pass a test, is keeping them,
    then sorting. *)
Lemma filter_sort_by (p : A -> bool) l :
  filter p (sort_by lt l) = sort_by lt (filter p l).
Proof.
  induction l as [|x l IH]; cbn [sort_by fold_right filter]; [reflexivity|].
  fold (sort_by lt l). rewrite filter_insert_by by apply sort_by_sorted.
  rewrite IH. now destruct (p x).
Qed.
End StableSort.

Lemma insert_by_ext_In {A : Type} (lt1 lt2 : A -> A -> bool) x l :
  (forall y, In y l -> lt1 y x = lt2 y x) ->
  insert_by lt1 x l = insert_by lt2 x l.
Proof.
  induction l as [|y l IH]; intros H; cbn [insert_by]; [reflexivity|].
  rewrite (H y (or_introl eq_refl)), IH; [reflexivity|].
  intros z Hz. apply H. now right.
Qed.

Lemma sort_by_ext_In {A : Type} (lt1 lt2 : A -> A -> bool) l :
  (forall x y, In x l -> In y l -> lt1 x y = lt2 x y) ->
  sort_by lt1 l = sort_by lt2 l.
Proof.
  induction l as [|x l IH]; intros H; cbn [sort_by fold_right]; [reflexivity|].
  fold (sort_by lt1 l). fold (sort_by lt2 l).
  rewrite IH by (intros y z Hy Hz; apply H; now right).
  apply insert_by_ext_In. intros y Hy. apply sort_by_In in Hy.
  apply H; [now right | now left].
Qed.

(** ** The sort flag *)

Lemma StronglySorted_impl {A : Type} (R S : A -> A -> Prop) (l : list A) :
  (forall x y, R x y -> S x y) -> StronglySorted R l -> StronglySorted S l.
Proof.
  intros H. induction 1 as [|x l Hs IH Hall]; constructor; [exact IH|].
  revert Hall. apply Forall_impl. apply H.
Qed.

Lemma StronglySorted_firstn {A : Type} (R : A -> A -> Prop) (n : nat)
    (l : list A) :
  StronglySorted R l -> StronglySorted R (firstn n l).
Proof.
  intros H. revert n. induction H as [|x l Hs IH Hall]; intros [|n];
    cbn [firstn]; try constructor; [apply IH|].
  apply Forall_forall. intros y Hy. apply firstn_In in Hy.
  rewrite Forall_forall in Hall. now apply Hall.
Qed.

Section SortFlag.
Variables show_size show_hidden : bool.
Variables include_categories exclude_patterns : option (list string).

(** The entries that pass the filters, before they are sorted. *)
Local Abbreviation kept listing :=
  (filter (fun e => should_include_file e include_categories exclude_patterns)
     (if negb show_hidden
      then filter (fun e => negb (startswith (name e) ".")) listing
      else listing)).

Lemma bt_directories_sorted flag listing :
  bt_directories show_hidden flag include_categories exclude_patterns listing
  = sort_by (fun x y => String.ltb (lower (name x)) (lower (name y)))
            (filter is_dir (kept listing)).
Proof.
  unfold bt_directories, bt_entries.
  rewrite (filter_sort_by (sort_key_lt flag) (sort_key_lt_asym flag)
             (sort_key_lt_weak flag)).
  apply sort_by_ext_In. intros x y Hx Hy.
  apply filter_In in Hx. apply filter_In in Hy.
  destruct Hx as [_ Hx], Hy as [_ Hy].
  unfold sort_key_lt, tuple_lt. destruct flag; [|reflexivity].
  destruct x, y; try discriminate. reflexivity.
Qed.

Lemma bt_files_sorted flag listing :
  bt_files show_hidden flag include_categories exclude_patterns listing
  = sort_by (fun x y => String.ltb (lower (name x)) (lower (name y)))
            (filter is_file (kept listing)).
Proof.
  unfold bt_files, bt_entries.
  rewrite (filter_sort_by (sort_key_lt flag) (sort_key_lt_asym flag)
             (sort_key_lt_weak flag)).
  apply sort_by_ext_In. intros x y Hx Hy.
  apply filter_In in Hx. apply filter_In in Hy.
  destruct Hx as [_ Hx], Hy as [_ Hy].
  unfold sort_key_lt, tuple_lt. destruct flag; [|reflexivity].
  destruct x, y; try discriminate. reflexivity.
Qed.

Lemma bt_entries_to_show_flag self listing :
  bt_files_truncated show_hidden true include_categories exclude_patterns
                     self listing
  = bt_files_truncated show_hidden false include_categories exclude_patterns
                       self listing
  /\ bt_hidden_count show_hidden true include_categories exclude_patterns
                     self listing
     = bt_hidden_count show_hidden false include_categories exclude_patterns
                       self listing
  /\ bt_entries_to_show show_hidden true include_categories exclude_patterns
                        self listing
     = bt_entries_to_show show_hidden false include_categories
                          exclude_patterns self listing.
Proof.
  unfold bt_entries_to_show, bt_hidden_count, bt_displayed_files,
    bt_files_truncated.
  now rewrite (bt_files_sorted true), (bt_files_sorted false),
    (bt_directories_sorted true), (bt_directories_sorted false).
Qed.

Lemma build_tree_levels_flag (k : nat) :
  forall self directory prefix depth,
    build_tree_levels show_size show_hidden true include_categories
                      exclude_patterns k self directory prefix depth
    = build_tree_levels show_size show_hidden false include_categories
                        exclude_patterns k self directory prefix depth.
Proof.
  induction k as [|k IH]; intros self directory prefix depth;
    cbn [build_tree_levels]; [reflexivity|].
  destruct (depth >=? max_depth self); [reflexivity|].
  unfold build_tree_body.
  destruct (iterdir directory) as [listing|]; [|reflexivity].
  destruct (bt_entries_to_show_flag self listing) as (-> & -> & ->).
  assert (Hfold : forall l s n tr,
    fold_left
      (loop_body show_size
         (fun self' entry prefix' =>
            build_tree_levels show_size show_hidden true include_categories
              exclude_patterns k self' entry prefix' (depth + 1))
         prefix n tr) l s
    = fold_left
        (loop_body show_size
           (fun self' entry prefix' =>
              build_tree_levels show_size show_hidden false include_categories
                exclude_patterns k self' entry prefix' (depth + 1))
           prefix n tr) l s).
  { intros l s n tr.
    apply fold_left_agree with (I := fun _ => True); [|trivial|trivial].
    intros s' [i e] _. unfold loop_body.
    destruct (is_dir e); [apply IH | reflexivity]. }
  now rewrite Hfold.
Qed.

(** X1.  [sort_dirs_first] changes nothing: directories are split from the
    files and put in front after the sort, and each group is in the order of
    its names under either key.  A run returns the same lines and leaves the
    same generator for both values of the flag. *)
Theorem sort_flag_without_effect :
  forall (fs : filesystem) (self : FolderTreeGenerator) (root_path : string),
    generate_tree show_size show_hidden true include_categories
                  exclude_patterns fs self root_path
    = generate_tree show_size show_hidden false include_categories
                    exclude_patterns fs self root_path.
Proof.
  intros fs self root_path. unfold generate_tree.
  destruct (fs root_path) as [root|]; [|reflexivity].
  unfold _build_tree. now rewrite build_tree_levels_flag.
Qed.

(** X2.  At every level the directories come in the order of their names
    without regard to case, and so do the files and the files shown,
    whatever [sort_dirs_first] is. *)
Theorem level_in_name_order :
  forall (flag : bool) (self : FolderTreeGenerator) (listing : list Path),
    StronglySorted name_le
      (bt_directories show_hidden flag include_categories exclude_patterns
                      listing)
    /\ StronglySorted name_le
         (bt_files show_hidden flag include_categories exclude_patterns
                   listing)
    /\ StronglySorted name_le
         (bt_displayed_files show_hidden flag include_categories
                             exclude_patterns self listing).
Proof.
  intros flag self listing.
  assert (Hsorted : forall l,
    StronglySorted name_le
      (sort_by (fun x y => String.ltb (lower (name x)) (lower (name y))) l)).
  { intros l.
    apply StronglySorted_impl
      with (R := fun x y => String.ltb (lower (name y)) (lower (name x))
                            = false).
    - intros x y H. now apply string_ltb_leb.
    - apply (sort_by_sorted
               (fun x y => String.ltb (lower (name x)) (lower (name y)))).
      + intros x y. apply string_ltb_asym.
      + intros x y z. apply string_ltb_weak. }
  assert (Hfiles : StronglySorted name_le
            (bt_files show_hidden flag include_categories exclude_patterns
                      listing))
    by (rewrite bt_files_sorted; apply Hsorted).
  split; [rewrite bt_directories_sorted; apply Hsorted|].
  split; [exact Hfiles|].
  unfold bt_displayed_files.
  destruct (max_files_per_folder self) as [n|]; [|exact Hfiles].
  destruct (bt_files_truncated _ _ _ _ self listing); [|exact Hfiles].
  unfold slice_to. destruct (n <? 0); now apply StronglySorted_firstn.
Qed.
End SortFlag.

(** ** What the statistics are bound by *)

Lemma stats_sum_linear (m : Stats -> Z) (l : list Stats) :
  (forall a b, m (stats_add a b) = m a + m b) ->
  m stats0 = 0 ->
  m (stats_sum l) = sum_Z (map m l).
Proof.
  intros Hadd H0. induction l as [|x l IH];
    cbn [stats_sum fold_right map sum_Z]; [exact H0|].
  fold (stats_sum l). fold (sum_Z (map m l)). now rewrite Hadd, IH.
Qed.

Lemma sum_Z_ge (c : Z) (l : list Z) :
  Forall (fun z => c <= z) l -> c * Z.of_nat (List.length l) <= sum_Z l.
Proof.
  induction 1 as [|x l Hx _ IH]; cbn [sum_Z fold_right List.length]; [lia|].
  fold (sum_Z l). lia.
Qed.

Lemma enumerate_from_length {A : Type} (i : Z) (l : list A) :
  List.length (enumerate_from i l) = List.length l.
Proof.
  revert i. induction l as [|x l IH]; intros i; cbn; [reflexivity|].
  now rewrite IH.
Qed.

Section Bounds.
Variables show_size show_hidden sort_dirs_first : bool.
Variables include_categories exclude_patterns : option (list string).

Local Abbreviation walk := (_build_tree show_size show_hidden sort_dirs_first
                              include_categories exclude_patterns).
Local Abbreviation run := (generate_tree show_size show_hidden sort_dirs_first
                             include_categories exclude_patterns).
Local Abbreviation visible := (bt_entries show_hidden sort_dirs_first
                                 include_categories exclude_patterns).
Local Abbreviation directories := (bt_directories show_hidden sort_dirs_first
                                     include_categories exclude_patterns).
Local Abbreviation files_of := (bt_files show_hidden sort_dirs_first
                                  include_categories exclude_patterns).
Local Abbreviation files_truncated :=
  (bt_files_truncated show_hidden sort_dirs_first include_categories
                      exclude_patterns).
Local Abbreviation displayed_files :=
  (bt_displayed_files show_hidden sort_dirs_first include_categories
                      exclude_patterns).
Local Abbreviation hidden_count :=
  (bt_hidden_count show_hidden sort_dirs_first include_categories
                   exclude_patterns).
Local Abbreviation entries_to_show :=
  (bt_entries_to_show show_hidden sort_dirs_first include_categories
                      exclude_patterns).
Local Abbreviation block := (entry_block show_size show_hidden sort_dirs_first
                               include_categories exclude_patterns).
Local Abbreviation counts := (entry_stats show_size show_hidden sort_dirs_first
                                include_categories exclude_patterns).
Local Abbreviation level := (walk_level show_size show_hidden sort_dirs_first
                               include_categories exclude_patterns).

(** A measure of the counts that adds up over the entries of a level. *)
Lemma level_measure (m : Stats -> Z) self directory listing prefix depth :
  (forall a b, m (stats_add a b) = m a + m b) ->
  m stats0 = 0 ->
  depth < max_depth self ->
  iterdir directory = Some listing ->
  m (stats (walk (fresh self) directory prefix depth))
  = m (if files_truncated self listing then add_truncated stats0 else stats0)
    + sum_Z (map (fun ie =>
                    m (counts self prefix depth
                         (Z.of_nat (List.length (entries_to_show self listing)))
                         (files_truncated self listing) ie))
                 (enumerate (entries_to_show self listing))).
Proof.
  intros Hadd H0 Hdepth Hls.
  rewrite (level self directory listing prefix depth Hdepth Hls).
  cbn [stats]. rewrite Hadd, (stats_sum_linear m _ Hadd H0), map_map.
  reflexivity.
Qed.

Lemma displayed_files_length self listing (N : Z) :
  max_files_per_folder self = Some N ->
  0 < N ->
  Z.of_nat (List.length (displayed_files self listing)) <= N.
Proof.
  intros HN Hpos. unfold bt_displayed_files, bt_files_truncated.
  rewrite HN.
  destruct (N =? 0) eqn:E0; [apply Z.eqb_eq in E0; lia|]. cbn [negb andb].
  destruct (N <? Z.of_nat (List.length (files_of listing))) eqn:E.
  - unfold slice_to.
    replace (N <? 0) with false by (symmetry; apply Z.ltb_ge; lia).
    rewrite length_firstn. lia.
  - apply Z.ltb_ge in E. exact E.
Qed.

Lemma sum_Z_nonneg (l : list Z) : Forall (fun z => 0 <= z) l -> 0 <= sum_Z l.
Proof. intros H. apply sum_Z_ge in H. lia. Qed.

(** A measure that no entry lowers is not lowered by the level. *)
Lemma level_measure_nonneg (m : Stats -> Z) self directory listing prefix
    depth :
  (forall a b, m (stats_add a b) = m a + m b) ->
  m stats0 = 0 ->
  depth < max_depth self ->
  iterdir directory = Some listing ->
  (forall i e,
      0 <= m (counts self prefix depth
                (Z.of_nat (List.length (entries_to_show self listing)))
                (files_truncated self listing) (i, e))) ->
  m (if files_truncated self listing then add_truncated stats0 else stats0)
  <= m (stats (walk (fresh self) directory prefix depth)).
Proof.
  intros Hadd H0 Hdepth Hls Hentry.
  rewrite (level_measure m self directory listing prefix depth Hadd H0 Hdepth
             Hls).
  match goal with
  | |- _ <= _ + sum_Z ?l => assert (H : 0 <= sum_Z l); [|lia]
  end.
  apply sum_Z_nonneg, Forall_forall. intros z Hz. apply in_map_iff in Hz.
  destruct Hz as [[i e] [<- _]]. apply Hentry.
Qed.

(** A measure that directories do not lower and files lower by one at most
    is lowered by the level by the number of files shown at most. *)
Lemma level_measure_files (m : Stats -> Z) self directory listing prefix
    depth :
  (forall a b, m (stats_add a b) = m a + m b) ->
  m stats0 = 0 ->
  depth < max_depth self ->
  iterdir directory = Some listing ->
  (forall i e,
      is_dir e = true ->
      0 <= m (counts self prefix depth
                (Z.of_nat (List.length (entries_to_show self listing)))
                (files_truncated self listing) (i, e))) ->
  (forall i e,
      is_dir e = false ->
      -1 <= m (counts self prefix depth
                 (Z.of_nat (List.length (entries_to_show self listing)))
                 (files_truncated self listing) (i, e))) ->
  m (if files_truncated self listing then add_truncated stats0 else stats0)
  - Z.of_nat (List.length (displayed_files self listing))
  <= m (stats (walk (fresh self) directory prefix depth)).
Proof.
  intros Hadd H0 Hdepth Hls Hdirs Hfiles.
  rewrite (level_measure m self directory listing prefix depth Hadd H0 Hdepth
             Hls).
  assert (E : enumerate (entries_to_show self listing)
              = enumerate_from 0 (directories listing)
                ++ enumerate_from
                     (0 + Z.of_nat (List.length (directories listing)))
                     (displayed_files self listing))
    by (unfold enumerate, bt_entries_to_show; apply enumerate_from_app).
  rewrite E, map_app, sum_Z_app.
  match goal with
  | |- _ <= _ + (sum_Z ?a + sum_Z ?b) =>
      assert (Ha : 0 <= sum_Z a);
      [|assert (Hb : -1 * Z.of_nat (List.length b) <= sum_Z b);
        [|assert (Hlen : List.length b
                         = List.length (displayed_files self listing))]]
  end.
  - apply sum_Z_nonneg, Forall_forall. intros z Hz. apply in_map_iff in Hz.
    destruct Hz as [[i e] [<- Hin]]. apply enumerate_from_In in Hin.
    apply Hdirs.
    pose proof (directories_are_dirs show_hidden sort_dirs_first
                  include_categories exclude_patterns listing) as Hd.
    rewrite Forall_forall in Hd. now apply Hd.
  - apply sum_Z_ge, Forall_forall. intros z Hz. apply in_map_iff in Hz.
    destruct Hz as [[i e] [<- Hin]]. apply enumerate_from_In in Hin.
    apply Hfiles. apply is_file_not_dir.
    pose proof (displayed_files_are_files show_hidden sort_dirs_first
                  include_categories exclude_patterns self listing) as Hf.
    rewrite Forall_forall in Hf. now apply Hf.
  - now rewrite length_map, enumerate_from_length.
  - lia.
Qed.

(** The counts that a walk adds: none is negative, a folder is counted for
    every truncation below the directory walked, and with a limit of [N]
    there are at most [N] files for the directory and for each folder
    counted. *)
Lemma walk_bounds (k : nat) :
  forall self directory prefix depth,
    Z.to_nat (max_depth self - depth) = k ->
    0 <= folders (stats (walk (fresh self) directory prefix depth))
    /\ 0 <= files (stats (walk (fresh self) directory prefix depth))
    /\ 0 <= truncated_folders (stats (walk (fresh self) directory prefix depth))
    /\ truncated_folders (stats (walk (fresh self) directory prefix depth))
       <= folders (stats (walk (fresh self) directory prefix depth)) + 1
    /\ forall N, max_files_per_folder self = Some N -> 0 < N ->
                 files (stats (walk (fresh self) directory prefix depth))
                 <= N * (folders (stats (walk (fresh self) directory prefix
                                           depth)) + 1).
Proof.
  induction k as [|k IH]; intros self directory prefix depth Hk.
  - rewrite walk_at_bound by (cbn [max_depth fresh]; lia).
    cbn [stats fresh folders files truncated_folders stats0].
    repeat split; intros; lia.
  - destruct (iterdir directory) as [listing|] eqn:Hls.
    2:{ rewrite walk_unreadable by exact Hls.
        cbn [stats fresh folders files truncated_folders stats0].
        repeat split; intros; lia. }
    assert (Hdepth : depth < max_depth self) by lia.
    assert (Hsub : forall e p,
      0 <= folders (stats (walk (fresh self) e p (depth + 1)))
      /\ 0 <= files (stats (walk (fresh self) e p (depth + 1)))
      /\ 0 <= truncated_folders (stats (walk (fresh self) e p (depth + 1)))
      /\ truncated_folders (stats (walk (fresh self) e p (depth + 1)))
         <= folders (stats (walk (fresh self) e p (depth + 1))) + 1
      /\ forall N, max_files_per_folder self = Some N -> 0 < N ->
                   files (stats (walk (fresh self) e p (depth + 1)))
                   <= N * (folders (stats (walk (fresh self) e p (depth + 1)))
                           + 1))
      by (intros e p; apply IH; lia).
    split; [|split; [|split; [|split]]].
    + pose proof (level_measure_nonneg folders self directory listing prefix
                    depth) as H.
      etransitivity; [|apply H; try reflexivity; try assumption].
      * now destruct (files_truncated self listing).
      * intros i e. unfold entry_stats. cbn [fst snd].
        destruct (is_dir e); cbn [folders add_folder add_file stats0]; [|lia].
        destruct (Hsub e (next_prefix self prefix
                            (is_last_entry i
                               (Z.of_nat (List.length
                                            (entries_to_show self listing)))
                               (files_truncated self listing))))
          as (? & _). lia.
    + pose proof (level_measure_nonneg files self directory listing prefix
                    depth) as H.
      etransitivity; [|apply H; try reflexivity; try assumption].
      * now destruct (files_truncated self listing).
      * intros i e. unfold entry_stats. cbn [fst snd].
        destruct (is_dir e); cbn [files add_folder add_file stats0]; [|lia].
        destruct (Hsub e (next_prefix self prefix
                            (is_last_entry i
                               (Z.of_nat (List.length
                                            (entries_to_show self listing)))
                               (files_truncated self listing))))
          as (_ & ? & _). lia.
    + pose proof (level_measure_nonneg truncated_folders self directory
                    listing prefix depth) as H.
      etransitivity; [|apply H; try reflexivity; try assumption].
      * destruct (files_truncated self listing);
          cbn [truncated_folders add_truncated stats0]; lia.
      * intros i e. unfold entry_stats. cbn [fst snd].
        destruct (is_dir e);
          cbn [truncated_folders add_folder add_file stats0]; [|lia].
        destruct (Hsub e (next_prefix self prefix
                            (is_last_entry i
                               (Z.of_nat (List.length
                                            (entries_to_show self listing)))
                               (files_truncated self listing))))
          as (_ & _ & ? & _). lia.
    + pose proof (level_measure_nonneg
                    (fun s => folders s - truncated_folders s) self directory
                    listing prefix depth) as H.
      cbv beta in H.
      assert (H' : -1 <= folders (stats (walk (fresh self) directory prefix
                                            depth))
                         - truncated_folders
                             (stats (walk (fresh self) directory prefix
                                       depth))); [|lia].
      etransitivity; [|apply H; try reflexivity; try assumption].
      * destruct (files_truncated self listing);
          cbn [folders truncated_folders add_truncated stats0]; lia.
      * intros a b. unfold stats_add. cbn [folders truncated_folders]. lia.
      * intros i e. unfold entry_stats. cbn [fst snd].
        destruct (is_dir e);
          cbn [folders truncated_folders add_folder add_file stats0]; [|lia].
        destruct (Hsub e (next_prefix self prefix
                            (is_last_entry i
                               (Z.of_nat (List.length
                                            (entries_to_show self listing)))
                               (files_truncated self listing))))
          as (_ & _ & _ & ? & _). lia.
    + intros N HN Hpos.
      pose proof (level_measure_files
                    (fun s => N * folders s - files s) self directory
                    listing prefix depth) as H.
      cbv beta in H.
      pose proof (displayed_files_length self listing N HN Hpos) as Hlen.
      assert (H' : - N <= N * folders (stats (walk (fresh self) directory
                                                prefix depth))
                          - files (stats (walk (fresh self) directory prefix
                                            depth))); [|lia].
      etransitivity; [|apply H; try reflexivity; try assumption].
      * destruct (files_truncated self listing);
          cbn [folders files add_truncated stats0]; lia.
      * intros a b. unfold stats_add. cbn [folders files]. lia.
      * cbn [folders files stats0]. lia.
      * intros i e He. unfold entry_stats. cbn [fst snd]. rewrite He.
        cbn [folders files add_folder].
        destruct (Hsub e (next_prefix self prefix
                            (is_last_entry i
                               (Z.of_nat (List.length
                                            (entries_to_show self listing)))
                               (files_truncated self listing))))
          as (_ & _ & _ & _ & Hs).
        specialize (Hs N HN Hpos). lia.
      * intros i e He. unfold entry_stats. cbn [fst snd]. rewrite He.
        cbn [folders files add_file stats0]. lia.
Qed.
(** X3.  After a run that returns, the root is counted as a folder, no
    count is negative, and there are no more truncated folders than folders:
    each truncation belongs to the root or to a directory that has its
    line. *)
Theorem run_statistics_bounds :
  forall (fs : filesystem) (self : FolderTreeGenerator) (root_path : string)
         (lines : list string) (self' : FolderTreeGenerator),
    run fs self root_path = (Returned lines, self') ->
    1 <= folders (stats self')
    /\ 0 <= files (stats self')
    /\ 0 <= truncated_folders (stats self') <= folders (stats self').
Proof.
  intros fs self root_path lines self' Hrun.
  destruct (fs root_path) as [root|] eqn:Hroot.
  - rewrite (generate_tree_found show_size show_hidden sort_dirs_first
               include_categories exclude_patterns fs self root_path root
               Hroot) in Hrun.
    injection Hrun as _ <-. cbn [stats].
    destruct (walk_bounds (Z.to_nat (max_depth self - 0)) self root "" 0
                eq_refl) as (H1 & H2 & H3 & H4 & _).
    unfold add_folder. cbn [folders files truncated_folders]. lia.
  - unfold generate_tree in Hrun. rewrite Hroot in Hrun. discriminate.
Qed.

(** X4.  With [max_files_per_folder = N] and [N] positive, a run that
    returns has counted at most [N] files for each folder counted, and
    returns at most [N + 2] lines for each: its own line, [N] files and a
    truncation line. *)
Theorem run_file_limit :
  forall (fs : filesystem) (self : FolderTreeGenerator) (root_path : string)
         (lines : list string) (self' : FolderTreeGenerator) (N : Z),
    max_files_per_folder self = Some N ->
    0 < N ->
    run fs self root_path = (Returned lines, self') ->
    files (stats self') <= N * folders (stats self')
    /\ Z.of_nat (List.length lines) <= (N + 2) * folders (stats self').
Proof.
  intros fs self root_path lines self' N HN Hpos Hrun.
  destruct (fs root_path) as [root|] eqn:Hroot.
  - rewrite (generate_tree_found show_size show_hidden sort_dirs_first
               include_categories exclude_patterns fs self root_path root
               Hroot) in Hrun.
    injection Hrun as <- <-. cbn [stats List.length].
    destruct (walk_bounds (Z.to_nat (max_depth self - 0)) self root "" 0
                eq_refl) as (H1 & H2 & H3 & H4 & H5).
    specialize (H5 N HN Hpos).
    rewrite Nat2Z.inj_succ.
    rewrite (walk_counted show_size show_hidden sort_dirs_first
               include_categories exclude_patterns
               (Z.to_nat (max_depth self - 0)) self root "" 0 eq_refl).
    unfold counted, add_folder. cbn [folders files truncated_folders]. lia.
  - unfold generate_tree in Hrun. rewrite Hroot in Hrun. discriminate.
Qed.

Lemma nothing_visible self listing :
  visible listing = [] ->
  limit_ok (max_files_per_folder self) ->
  files_truncated self listing = false /\ entries_to_show self listing = [].
Proof.
  intros Hvis Hok.
  assert (Hfiles : files_of listing = [])
    by (unfold bt_files; now rewrite Hvis).
  assert (Htr : files_truncated self listing = false).
  { unfold bt_files_truncated, limit_ok in *. rewrite Hfiles.
    destruct (max_files_per_folder self) as [n|]; [|reflexivity].
    apply andb_false_iff. right. apply Z.ltb_ge. cbn [List.length]. lia. }
  split; [exact Htr|].
  unfold bt_entries_to_show, bt_directories, bt_displayed_files.
  rewrite Hvis, Htr, Hfiles.
  now destruct (max_files_per_folder self).
Qed.

(** X5.  A root whose listing holds nothing that passes the filters (an
    empty directory, or one with hidden or excluded entries only) gives the
    root line alone and the counts 1, 0, 0, 0, provided the limit on files
    is not negative. *)
Theorem run_on_nothing_visible :
  forall (fs : filesystem) (self : FolderTreeGenerator) (root_path : string)
         (root : Path) (listing : list Path),
    fs root_path = Some root ->
    iterdir root = Some listing ->
    visible listing = [] ->
    limit_ok (max_files_per_folder self) ->
    fst (run fs self root_path) = Returned [root_line show_size self root]
    /\ stats (snd (run fs self root_path)) = mkStats 1 0 0 0.
Proof.
  intros fs self root_path root listing Hroot Hls Hvis Hok.
  rewrite (generate_tree_found show_size show_hidden sort_dirs_first
             include_categories exclude_patterns fs self root_path root
             Hroot).
  cbn [fst snd stats].
  destruct (Z_lt_le_dec 0 (max_depth self)) as [Hd|Hd].
  - rewrite (level self root listing "" 0 Hd Hls).
    destruct (nothing_visible self listing Hvis Hok) as [-> ->].
    cbn. split; reflexivity.
  - rewrite walk_at_bound by (cbn [max_depth fresh]; lia).
    cbn. split; reflexivity.
Qed.

(** X6.  With [max_depth] at 0 or below nothing under the root is walked:
    whatever the tree holds, a run returns the root line alone and the
    counts 1, 0, 0, 0. *)
Theorem run_without_depth :
  forall (fs : filesystem) (self : FolderTreeGenerator) (root_path : string)
         (root : Path),
    max_depth self <= 0 ->
    fs root_path = Some root ->
    fst (run fs self root_path) = Returned [root_line show_size self root]
    /\ stats (snd (run fs self root_path)) = mkStats 1 0 0 0.
Proof.
  intros fs self root_path root Hd Hroot.
  rewrite (generate_tree_found show_size show_hidden sort_dirs_first
             include_categories exclude_patterns fs self root_path root
             Hroot).
  cbn [fst snd stats].
  rewrite walk_at_bound by (cbn [max_depth fresh]; lia).
  cbn. split; reflexivity.
Qed.

(** X7.  A root that is a regular file is rendered as a folder: the run
    returns one line, the icon of the file's extension, the name and a
    closing slash, with no size even under [show_size], and counts one
    folder and no file. *)
Theorem run_on_a_file :
  forall (fs : filesystem) (self : FolderTreeGenerator) (root_path : string)
         (n : string) (size : option Z),
    fs root_path = Some (File n size) ->
    fst (run fs self root_path)
    = Returned
        [get (icon_set self) (lower (suffix (File n size)))
             (get (icon_set self) "file" "📄") +++ " " +++ n +++ "/"]
    /\ stats (snd (run fs self root_path)) = mkStats 1 0 0 0.
Proof.
  intros fs self root_path n size Hroot.
  rewrite (generate_tree_found show_size show_hidden sort_dirs_first
             include_categories exclude_patterns fs self root_path
             (File n size) Hroot).
  cbn [fst snd stats].
  rewrite walk_unreadable by reflexivity.
  unfold root_line, get_file_icon. cbn [is_dir name].
  rewrite andb_false_r. cbn. split; reflexivity.
Qed.

(** X8.  A run starts from nothing: it depends on the generator through its
    style, icons, [max_depth] and [max_files_per_folder] only, which it
    leaves as they are.  So a second run on the same inputs returns what the
    first returned; lines and counts do not pile up. *)
Theorem run_again :
  forall (fs : filesystem) (self : FolderTreeGenerator) (root_path : string),
    (forall lines stats',
        run fs (mkGen (style self) (icon_set self) (max_depth self)
                      (max_files_per_folder self) lines stats') root_path
        = run fs self root_path)
    /\ fresh (snd (run fs self root_path)) = fresh self
    /\ run fs (snd (run fs self root_path)) root_path = run fs self root_path.
Proof.
  intros fs self root_path.
  assert (Hkeep : fresh (snd (run fs self root_path)) = fresh self).
  { destruct (fs root_path) as [root|] eqn:Hroot.
    - now rewrite (generate_tree_found show_size show_hidden sort_dirs_first
                     include_categories exclude_patterns fs self root_path
                     root Hroot).
    - unfold generate_tree. now rewrite Hroot. }
  split; [reflexivity|]. split; [exact Hkeep|].
  unfold fresh in Hkeep. injection Hkeep as H1 H2 H3 H4.
  unfold generate_tree at 1. rewrite H1, H2, H3, H4. reflexivity.
Qed.
End Bounds.

(** ** What a level shows *)

Section Shown.
Variables show_size show_hidden sort_dirs_first : bool.
Variables include_categories exclude_patterns : option (list string).

Local Abbreviation walk := (_build_tree show_size show_hidden sort_dirs_first
                              include_categories exclude_patterns).
Local Abbreviation visible := (bt_entries show_hidden sort_dirs_first
                                 include_categories exclude_patterns).
Local Abbreviation directories := (bt_directories show_hidden sort_dirs_first
                                     include_categories exclude_patterns).
Local Abbreviation files_of := (bt_files show_hidden sort_dirs_first
                                  include_categories exclude_patterns).
Local Abbreviation files_truncated :=
  (bt_files_truncated show_hidden sort_dirs_first include_categories
                      exclude_patterns).
Local Abbreviation displayed_files :=
  (bt_displayed_files show_hidden sort_dirs_first include_categories
                      exclude_patterns).
Local Abbreviation hidden_count :=
  (bt_hidden_count show_hidden sort_dirs_first include_categories
                   exclude_patterns).
Local Abbreviation entries_to_show :=
  (bt_entries_to_show show_hidden sort_dirs_first include_categories
                      exclude_patterns).
Local Abbreviation block := (entry_block show_size show_hidden sort_dirs_first
                               include_categories exclude_patterns).
Local Abbreviation level := (walk_level show_size show_hidden sort_dirs_first
                               include_categories exclude_patterns).

Lemma visible_iff listing e :
  In e (visible listing)
  <-> In e listing
      /\ should_include_file e include_categories exclude_patterns = true
      /\ (show_hidden = false -> startswith (name e) "." = false).
Proof.
  unfold bt_entries. rewrite sort_by_In, filter_In.
  destruct show_hidden; cbn [negb].
  - split.
    + intros [H1 H2]. split; [exact H1|]. split; [exact H2|]. discriminate.
    + intros (H1 & H2 & _). now split.
  - rewrite filter_In, negb_true_iff. split.
    + intros [[H1 H2] H3]. split; [exact H1|]. split; [exact H3|].
      intros _. exact H2.
    + intros (H1 & H2 & H3). split; [split|]; auto.
Qed.

(** X9.  Every entry shown at a level is a child of the directory, a
    directory or a regular file, passes [should_include_file] and, unless
    [show_hidden] is set, has no leading dot: hidden and excluded entries,
    and entries that are neither file nor directory, never get a line. *)
Theorem shown_entries_pass :
  forall (self : FolderTreeGenerator) (listing : list Path) (e : Path),
    In e (entries_to_show self listing) ->
    In e listing
    /\ (is_dir e = true \/ is_file e = true)
    /\ should_include_file e include_categories exclude_patterns = true
    /\ (show_hidden = false -> startswith (name e) "." = false).
Proof.
  intros self listing e H. unfold bt_entries_to_show in H.
  apply in_app_iff in H. destruct H as [H|H].
  - unfold bt_directories in H. apply filter_In in H. destruct H as [H Hd].
    apply visible_iff in H. destruct H as (H1 & H2 & H3). auto.
  - apply (displayed_files_In show_hidden sort_dirs_first include_categories
             exclude_patterns) in H.
    unfold bt_files in H. apply filter_In in H. destruct H as [H Hf].
    apply visible_iff in H. destruct H as (H1 & H2 & H3). auto.
Qed.

(** X10.  A child directory that passes the filters is always shown,
    whatever the limit on files; a regular file that passes them is shown
    whenever the file list of the level is not truncated. *)
Theorem passing_entries_shown :
  forall (self : FolderTreeGenerator) (listing : list Path) (e : Path),
    In e listing ->
    should_include_file e include_categories exclude_patterns = true ->
    (show_hidden = false -> startswith (name e) "." = false) ->
    (is_dir e = true -> In e (entries_to_show self listing))
    /\ (is_file e = true -> files_truncated self listing = false ->
        In e (entries_to_show self listing)).
Proof.
  intros self listing e Hin Hinc Hhid.
  assert (Hvis : In e (visible listing)) by (apply visible_iff; auto).
  unfold bt_entries_to_show. split.
  - intros Hd. apply in_app_iff. left. unfold bt_directories.
    apply filter_In. auto.
  - intros Hf Htr. apply in_app_iff. right.
    unfold bt_displayed_files. rewrite Htr.
    assert (In e (files_of listing)) by (unfold bt_files; apply filter_In; auto).
    now destruct (max_files_per_folder self).
Qed.

(** X11.  A negative limit truncates every listing, the empty one too: the
    last [-N] files are left out (all of them when there are no more), and
    the count stated on the truncation line is [K - N], more than the [K]
    files there are. *)
Theorem negative_limit :
  forall (self : FolderTreeGenerator) (listing : list Path) (N : Z),
    max_files_per_folder self = Some N ->
    N < 0 ->
    files_truncated self listing = true
    /\ displayed_files self listing
       = firstn (Z.to_nat (Z.of_nat (List.length (files_of listing)) + N))
                (files_of listing)
    /\ hidden_count self listing
       = Z.of_nat (List.length (files_of listing)) - N
    /\ forall directory prefix depth,
         depth < max_depth self ->
         iterdir directory = Some listing ->
         exists lines,
           tree_lines (walk (fresh self) directory prefix depth)
           = lines
             ++ [truncation_line self prefix
                   (Z.of_nat (List.length (entries_to_show self listing)))
                   (Z.of_nat (List.length (files_of listing)) - N)].
Proof.
  intros self listing N HN Hneg.
  assert (Htr : files_truncated self listing = true).
  { unfold bt_files_truncated. rewrite HN. apply andb_true_iff. split.
    - apply negb_true_iff, Z.eqb_neq. lia.
    - apply Z.ltb_lt. lia. }
  assert (Hhid : hidden_count self listing
                 = Z.of_nat (List.length (files_of listing)) - N)
    by (unfold bt_hidden_count; now rewrite HN, Htr).
  split; [exact Htr|]. split; [|split; [exact Hhid|]].
  - unfold bt_displayed_files. rewrite HN, Htr. unfold slice_to.
    now replace (N <? 0) with true by (symmetry; apply Z.ltb_lt; exact Hneg).
  - intros directory prefix depth Hdepth Hls.
    rewrite (level self directory listing prefix depth Hdepth Hls).
    cbn [tree_lines]. rewrite Htr, Hhid. eauto.
Qed.
End Shown.

(** ** What the statistics do not depend on *)

Section Config.
Variables show_hidden sort_dirs_first : bool.
Variables include_categories exclude_patterns : option (list string).

Lemma level_config self1 self2 listing :
  max_files_per_folder self1 = max_files_per_folder self2 ->
  bt_files_truncated show_hidden sort_dirs_first include_categories
                     exclude_patterns self1 listing
  = bt_files_truncated show_hidden sort_dirs_first include_categories
                       exclude_patterns self2 listing
  /\ bt_entries_to_show show_hidden sort_dirs_first include_categories
                        exclude_patterns self1 listing
     = bt_entries_to_show show_hidden sort_dirs_first include_categories
                          exclude_patterns self2 listing.
Proof.
  intros H.
  unfold bt_entries_to_show, bt_displayed_files, bt_files_truncated.
  now rewrite H.
Qed.

Lemma walk_stats_config (k : nat) :
  forall show_size1 show_size2 self1 self2 directory prefix1 prefix2 depth,
    max_depth self1 = max_depth self2 ->
    max_files_per_folder self1 = max_files_per_folder self2 ->
    Z.to_nat (max_depth self1 - depth) = k ->
    stats (_build_tree show_size1 show_hidden sort_dirs_first
             include_categories exclude_patterns (fresh self1) directory
             prefix1 depth)
    = stats (_build_tree show_size2 show_hidden sort_dirs_first
               include_categories exclude_patterns (fresh self2) directory
               prefix2 depth).
Proof.
  induction k as [|k IH];
    intros ss1 ss2 self1 self2 directory prefix1 prefix2 depth Hd Hm Hk.
  - rewrite !walk_at_bound by (cbn [max_depth fresh]; lia). reflexivity.
  - destruct (iterdir directory) as [listing|] eqn:Hls.
    + rewrite (walk_level ss1 show_hidden sort_dirs_first include_categories
                 exclude_patterns self1 directory listing prefix1 depth)
        by (first [exact Hls | lia]).
      rewrite (walk_level ss2 show_hidden sort_dirs_first include_categories
                 exclude_patterns self2 directory listing prefix2 depth)
        by (first [exact Hls | lia]).
      destruct (level_config self1 self2 listing Hm) as [-> ->].
      cbn [stats]. do 2 f_equal. apply map_ext. intros [i e].
      unfold entry_stats. cbn [fst snd].
      destruct (is_dir e); [|reflexivity].
      f_equal. apply IH; [exact Hd | exact Hm | lia].
    + rewrite !walk_unreadable by exact Hls. reflexivity.
Qed.

(** X12.  The statistics of a run, and the number of lines it returns,
    depend on the tree, the filters, [max_depth] and
    [max_files_per_folder]: the style, the icon set and [show_size] change
    the text of the lines and nothing else. *)
Theorem run_statistics_config :
  forall (show_size1 show_size2 : bool) (fs : filesystem)
         (self1 self2 : FolderTreeGenerator) (root_path : string),
    max_depth self1 = max_depth self2 ->
    max_files_per_folder self1 = max_files_per_folder self2 ->
    stats (snd (generate_tree show_size1 show_hidden sort_dirs_first
                  include_categories exclude_patterns fs self1 root_path))
    = stats (snd (generate_tree show_size2 show_hidden sort_dirs_first
                    include_categories exclude_patterns fs self2 root_path))
    /\ List.length
         (tree_lines (snd (generate_tree show_size1 show_hidden
                             sort_dirs_first include_categories
                             exclude_patterns fs self1 root_path)))
       = List.length
           (tree_lines (snd (generate_tree show_size2 show_hidden
                               sort_dirs_first include_categories
                               exclude_patterns fs self2 root_path))).
Proof.
  intros ss1 ss2 fs self1 self2 root_path Hd Hm.
  destruct (fs root_path) as [root|] eqn:Hroot.
  - rewrite (generate_tree_found ss1 show_hidden sort_dirs_first
               include_categories exclude_patterns fs self1 root_path root
               Hroot).
    rewrite (generate_tree_found ss2 show_hidden sort_dirs_first
               include_categories exclude_patterns fs self2 root_path root
               Hroot).
    cbn [snd stats tree_lines List.length].
    pose proof (walk_stats_config (Z.to_nat (max_depth self1 - 0)) ss1 ss2
                  self1 self2 root "" "" 0 Hd Hm eq_refl) as Hs.
    split; [now rewrite Hs|].
    f_equal. apply Nat2Z.inj.
    rewrite (walk_counted ss1 show_hidden sort_dirs_first include_categories
               exclude_patterns (Z.to_nat (max_depth self1 - 0)) self1 root
               "" 0 eq_refl).
    rewrite (walk_counted ss2 show_hidden sort_dirs_first include_categories
               exclude_patterns (Z.to_nat (max_depth self2 - 0)) self2 root
               "" 0 eq_refl).
    now rewrite Hs.
  - unfold generate_tree. rewrite Hroot. split; reflexivity.
Qed.
End Config.

(** ** How lines are indented *)

Lemma append_assoc (a b c : string) : (a +++ b) +++ c = a +++ (b +++ c).
Proof. induction a as [|x a IH]; cbn; [reflexivity | now rewrite IH]. Qed.

Lemma append_nil_r (a : string) : a +++ "" = a.
Proof. induction a as [|x a IH]; cbn; [reflexivity | now rewrite IH]. Qed.

Section Indent.
Variables show_size show_hidden sort_dirs_first : bool.
Variables include_categories exclude_patterns : option (list string).

Local Abbreviation walk := (_build_tree show_size show_hidden sort_dirs_first
                              include_categories exclude_patterns).
Local Abbreviation run := (generate_tree show_size show_hidden sort_dirs_first
                             include_categories exclude_patterns).
Local Abbreviation level := (walk_level show_size show_hidden sort_dirs_first
                               include_categories exclude_patterns).

Lemma entry_line_shape self prefix last e :
  exists rest,
    entry_line show_size self prefix last e
    = current_prefix self prefix last +++ rest.
Proof.
  unfold entry_line.
  destruct (is_dir e); [|destruct show_size];
    rewrite ?append_assoc; eauto.
Qed.

Lemma walk_indented (k : nat) :
  forall self directory prefix depth line,
    Z.to_nat (max_depth self - depth) = k ->
    In line (tree_lines (walk (fresh self) directory prefix depth)) ->
    exists g rest,
      line = prefix +++ g +++ rest
      /\ (g = junction (style self) \/ g = corner (style self)
          \/ g = vertical (style self) \/ g = space (style self)).
Proof.
  induction k as [|k IH]; intros self directory prefix depth line Hk Hin.
  - rewrite walk_at_bound in Hin by (cbn [max_depth fresh]; lia).
    destruct Hin.
  - destruct (iterdir directory) as [listing|] eqn:Hls.
    2:{ rewrite walk_unreadable in Hin by exact Hls. destruct Hin. }
    rewrite (level self directory listing prefix depth) in Hin
      by (first [exact Hls | lia]).
    cbn [tree_lines] in Hin. apply in_app_iff in Hin.
    destruct Hin as [Hin|Hin].
    + apply in_flat_map in Hin. destruct Hin as [[i e] [_ Hin]].
      unfold entry_block in Hin. cbn [fst snd] in Hin.
      destruct Hin as [<-|Hin].
      * destruct (entry_line_shape self prefix
                    (is_last_entry i
                       (Z.of_nat (List.length
                          (bt_entries_to_show show_hidden sort_dirs_first
                             include_categories exclude_patterns self
                             listing)))
                       (bt_files_truncated show_hidden sort_dirs_first
                          include_categories exclude_patterns self listing))
                    e) as [rest ->].
        unfold current_prefix.
        match goal with |- context [if ?b then _ else _] => destruct b end;
          rewrite append_assoc; eauto 7.
      * destruct (is_dir e); [|destruct Hin].
        apply IH in Hin; [|lia].
        destruct Hin as (g & rest & -> & _).
        unfold next_prefix.
        match goal with |- context [if ?b then _ else _] => destruct b end;
          rewrite append_assoc; eauto 7.
    + destruct (bt_files_truncated _ _ _ _ self listing); [|destruct Hin].
      destruct Hin as [<-|[]]. unfold truncation_line.
      match goal with |- context [if ?b then _ else _] => destruct b end;
        rewrite append_assoc; eauto 7.
Qed.

(** X13.  Every line that the walk of a directory adds starts with the
    prefix the walk was given, followed by one of the four glyphs of the
    style: junction, corner, vertical or space.  In a run every line after
    the root line starts with one of these glyphs. *)
Theorem lines_indented :
  (forall (self : FolderTreeGenerator) (directory : Path) (prefix : string)
          (depth : Z) (line : string),
      In line (tree_lines (walk (fresh self) directory prefix depth)) ->
      exists g rest,
        line = prefix +++ g +++ rest
        /\ (g = junction (style self) \/ g = corner (style self)
            \/ g = vertical (style self) \/ g = space (style self)))
  /\ forall (fs : filesystem) (self : FolderTreeGenerator)
            (root_path : string) (lines : list string)
            (self' : FolderTreeGenerator),
       run fs self root_path = (Returned lines, self') ->
       exists first rest_lines,
         lines = first :: rest_lines
         /\ forall line, In line rest_lines ->
              exists g rest,
                line = g +++ rest
                /\ (g = junction (style self) \/ g = corner (style self)
                    \/ g = vertical (style self) \/ g = space (style self)).
Proof.
  split.
  - intros self directory prefix depth line.
    now apply (walk_indented (Z.to_nat (max_depth self - depth))).
  - intros fs self root_path lines self' Hrun.
    destruct (fs root_path) as [root|] eqn:Hroot.
    + rewrite (generate_tree_found show_size show_hidden sort_dirs_first
                 include_categories exclude_patterns fs self root_path root
                 Hroot) in Hrun.
      injection Hrun as <- _. eexists. eexists. split; [reflexivity|].
      intros line Hin.
      apply (walk_indented (Z.to_nat (max_depth self - 0))) in Hin;
        [|reflexivity].
      exact Hin.
    + unfold generate_tree in Hrun. rewrite Hroot in Hrun. discriminate.
Qed.
End Indent.

(** ** The filter, in full *)

Lemma str_in_In (x : string) (xs : list string) :
  str_in x xs = true <-> In x xs.
Proof.
  unfold str_in. rewrite existsb_exists. split.
  - intros [y [Hy Heq]]. apply String.eqb_eq in Heq. now subst.
  - intros H. exists x. split; [exact H | apply String.eqb_refl].
Qed.

(** X14.  [should_include_file] accepts an entry exactly when no exclude
    pattern occurs in its name and, besides, the entry is a directory, or no
    category is asked for (none given, or an empty set), or its extension in
    lower case belongs to one of the categories asked for.  So categories
    never hide a directory, and a category that the table does not know
    matches no file. *)
Theorem should_include_file_iff :
  forall (e : Path) (include_categories exclude_patterns : option (list string)),
    should_include_file e include_categories exclude_patterns = true
    <-> (forall pattern,
            In pattern (match exclude_patterns with
                        | Some patterns => patterns
                        | None => []
                        end) ->
            ~ occurs_in pattern (name e))
        /\ (is_dir e = true
            \/ match include_categories with
               | Some categories => categories
               | None => []
               end = []
            \/ exists category,
                 In category (match include_categories with
                              | Some categories => categories
                              | None => []
                              end)
                 /\ In (lower (suffix e))
                       (file_categories_get file_categories category)).
Proof.
  intros e cats pats. unfold should_include_file.
  set (hit := match pats with
              | Some patterns =>
                  existsb (fun pattern => str_contains pattern (name e))
                          patterns
              | None => false
              end).
  assert (Hhit : hit = false
                 <-> forall pattern,
                       In pattern (match pats with
                                   | Some patterns => patterns
                                   | None => []
                                   end) ->
                       ~ occurs_in pattern (name e)).
  { unfold hit. destruct pats as [patterns|].
    - split.
      + intros H pattern Hin Hocc.
        apply str_contains_occurs in Hocc.
        assert (Ht : existsb (fun p => str_contains p (name e)) patterns
                     = true)
          by (apply existsb_exists; eauto).
        congruence.
      + intros H.
        destruct (existsb (fun p => str_contains p (name e)) patterns)
          eqn:E; [|reflexivity].
        apply existsb_exists in E. destruct E as [p [Hin Hc]].
        apply str_contains_occurs in Hc. now elim (H p Hin).
    - split; [intros _ pattern [] | reflexivity]. }
  destruct hit.
  - split; [discriminate|]. intros [H _]. apply Hhit in H. discriminate.
  - assert (Hno := proj1 Hhit eq_refl).
    destruct cats as [[|c cats]|].
    + split; [intros _; split; [exact Hno | right; left; reflexivity]
             | reflexivity].
    + destruct (is_dir e) eqn:Hd; cbn [negb].
      * split; [intros _; split; [exact Hno | now left] | reflexivity].
      * rewrite existsb_exists. split.
        -- intros [category [Hin Hc]]. split; [exact Hno|].
           right. right. exists category. split; [exact Hin|].
           now apply str_in_In.
        -- intros [_ [H|[H|[category [Hin Hc]]]]]; try discriminate.
           exists category. split; [exact Hin | now apply str_in_In].
    + split; [intros _; split; [exact Hno | right; left; reflexivity]
             | reflexivity].
Qed.

(** ** The constructor *)

(** X15.  Every style name but ["ascii"] gives the same glyphs, those of
    ["simple"]: the three styles that the command line offers draw alike,
    and a name that the table does not hold falls back to them. *)
Theorem style_fallback :
  forall (style_name icon_set_name : string) (depth : Z) (limit : option Z),
    style_name <> "ascii" ->
    style (__init__ style_name icon_set_name depth limit) = STYLES_simple.
Proof.
  intros style_name icon_set_name depth limit Hascii.
  unfold __init__. cbn [style]. unfold STYLES. cbn [STYLES_get].
  destruct (String.eqb style_name "simple"); [reflexivity|].
  destruct (String.eqb style_name "professional"); [reflexivity|].
  destruct (String.eqb style_name "artisanal"); [reflexivity|].
  destruct (String.eqb style_name "ascii") eqn:E; [|reflexivity].
  apply String.eqb_eq in E. contradiction.
Qed.

(** X16.  Whatever the style and the icon set of a generator made by the
    constructor, a key folder gets the icon ["📂"]: the artisanal set gives
    it, and the simple and the professional set have no entry for a key
    folder, so that the default of the lookup is used.  The root line of a
    directory is this icon, a blank, the name and a slash. *)
Theorem key_folder_icon :
  forall (style_name icon_set_name : string) (depth : Z) (limit : option Z)
         (n : string) (listing : option (list Path)),
    get_file_icon (__init__ style_name icon_set_name depth limit)
                  (Dir n listing) true = "📂"
    /\ root_line false (__init__ style_name icon_set_name depth limit)
                 (Dir n listing)
       = "📂 " +++ n +++ "/".
Proof.
  intros style_name icon_set_name depth limit n listing.
  assert (H : get_file_icon (__init__ style_name icon_set_name depth limit)
                            (Dir n listing) true = "📂").
  { unfold get_file_icon, __init__. cbn [is_dir icon_set].
    unfold FileTypeIcons_getattr.
    destruct (String.eqb (upper icon_set_name) "ARTISANAL"); [reflexivity|].
    destruct (String.eqb (upper icon_set_name) "SIMPLE"); [reflexivity|].
    destruct (String.eqb (upper icon_set_name) "PROFESSIONAL"); reflexivity. }
  split; [exact H|].
  unfold root_line. cbn [andb name]. rewrite H. reflexivity.
Qed.

(** ** More on sizes *)

(** X17.  A size of 1 to 1023 bytes is written as the number with [".0"]
    after it and the unit B; only the size 0 has no decimal. *)
Theorem format_size_bytes :
  forall n : Z,
    0 < n < 1024 ->
    format_size n = str_of_int n +++ ".0 B".
Proof.
  intros n [H0 H1].
  rewrite format_size_nonzero by lia.
  rewrite format_size_loop_int.
  replace (n <? 1024) with true by (symmetry; apply Z.ltb_lt; exact H1).
  cbn [fst snd format_number_1f nth size_names].
  rewrite to_double_small
    by (split; [lia | eapply Z.lt_trans; [exact H1 | reflexivity]]).
  unfold format_1f.
  rewrite Z.abs_eq by lia.
  replace (n <? 0) with false by (symmetry; apply Z.ltb_ge; lia).
  change (2 ^ 0) with 1. rewrite Z.div_1_r, Z.mod_1_r.
  change (2 * 0) with 0. change (1 <? 0) with false.
  change (0 =? 1) with false. cbn [orb andb].
  replace (10 * n / 10) with n
    by (rewrite Z.mul_comm, Z.div_mul by lia; reflexivity).
  replace ((10 * n) mod 10) with 0
    by (rewrite Z.mul_comm, Z.mod_mul by lia; reflexivity).
  cbn. now rewrite append_assoc.
Qed.

(** X18.  Just below a mebibyte the value written reaches 1024: the sizes
    from 1048525 to 1048575 bytes are all written ["1024.0 KB"], the loop
    having stopped at KB because the value before rounding is below
    1024. *)
Theorem format_size_rounds_up_to_1024 :
  forall n : Z,
    1048525 <= n < 1048576 ->
    format_size n = "1024.0 KB".
Proof.
  intros n [H0 H1].
  assert (Hall : forallb (fun k => String.eqb
                                     (format_size (1048525 + Z.of_nat k))
                                     "1024.0 KB")
                         (seq 0 51) = true) by (vm_compute; reflexivity).
  rewrite forallb_forall in Hall.
  specialize (Hall (Z.to_nat (n - 1048525))).
  replace (1048525 + Z.of_nat (Z.to_nat (n - 1048525))) with n in Hall by lia.
  apply String.eqb_eq, Hall. apply in_seq. lia.
Qed.

(** ** The text file *)

Lemma read_lines_from_line (line : string) :
  forall current rest,
    one_line line = true ->
    read_lines_from current ((line +++ newline) +++ rest)
    = (current +++ line) :: read_lines_from "" rest.
Proof.
  induction line as [|c line IH]; intros current rest H.
  - cbn. now rewrite append_nil_r.
  - cbn [one_line] in H. apply andb_true_iff in H. destruct H as [Hc Hl].
    apply negb_true_iff in Hc.
    cbn [String.append read_lines_from]. rewrite Hc.
    rewrite IH by exact Hl. now rewrite append_assoc.
Qed.

(** X19.  The text that [save_text] writes without a header is the lines of
    the generator, each closed by a newline; read back line by line it gives
    the lines again, in their order, as long as no line holds a newline
    itself. *)
Theorem save_text_read_back :
  forall (now : string) (path_name : string -> string)
         (self : FolderTreeGenerator) (root_path : string),
    forallb one_line (tree_lines self) = true ->
    read_lines (save_text now path_name self false root_path)
    = tree_lines self.
Proof.
  intros now path_name self root_path H.
  unfold save_text, read_lines. cbn [String.append].
  rewrite append_nil_r.
  induction (tree_lines self) as [|line lines IH]; [reflexivity|].
  cbn [forallb] in H. apply andb_true_iff in H. destruct H as [Hl Hr].
  cbn [write_lines]. rewrite read_lines_from_line by exact Hl.
  cbn [String.append]. now rewrite IH.
Qed.

(** ** The image *)

Lemma draw_lines_spec (line_height : Z) (lines : list string) :
  forall y_offset,
    0 <= line_height ->
    snd (draw_lines line_height y_offset lines)
    = y_offset + Z.of_nat (List.length lines) * line_height
    /\ map snd (fst (draw_lines line_height y_offset lines)) = lines
    /\ Forall (fun t =>
                 fst (fst t) = 20
                 /\ y_offset <= snd (fst t)
                 /\ snd (fst t) + line_height
                    <= y_offset + Z.of_nat (List.length lines) * line_height)
              (fst (draw_lines line_height y_offset lines)).
Proof.
  induction lines as [|line lines IH]; intros y_offset Hlh;
    cbn [draw_lines List.length].
  - cbn. repeat split; [lia | constructor].
  - destruct (IH (y_offset + line_height) Hlh) as (H1 & H2 & H3).
    destruct (draw_lines line_height (y_offset + line_height) lines)
      as [drawn y_end].
    cbn [fst snd map] in *. rewrite Nat2Z.inj_succ.
    split; [lia|]. split; [now rewrite H2|].
    constructor.
    + cbn [fst snd]. nia.
    + revert H3. apply Forall_impl. intros [[x y] t]. cbn [fst snd].
      nia.
Qed.

Lemma draw_lines_last (line_height : Z) (lines : list string) :
  forall y_offset line,
    In (20,
        y_offset + Z.of_nat (List.length lines) * line_height,
        line)
       (fst (draw_lines line_height y_offset (lines ++ [line]))).
Proof.
  induction lines as [|l lines IH]; intros y_offset line;
    cbn [app draw_lines List.length].
  - cbn. left. do 2 f_equal. lia.
  - specialize (IH (y_offset + line_height) line).
    destruct (draw_lines line_height (y_offset + line_height)
                         (lines ++ [line])) as [drawn y_end].
    cbn [fst] in *. right.
    replace (y_offset + Z.of_nat (S (List.length lines)) * line_height)
      with (y_offset + line_height
            + Z.of_nat (List.length lines) * line_height) by lia.
    exact IH.
Qed.

(** X20.  With Pillow there and a font size from 1 to 31, [save_png] makes
    a canvas of 800 by 600 at least and draws the two header texts, then the
    lines of the generator in their order, all at x = 20, and the slot of
    one line height below each position ends within the height of the
    canvas. *)
Theorem save_png_fits :
  forall (now : string) (self : FolderTreeGenerator) (font_size : Z),
    1 <= font_size <= 31 ->
    exists img header1 header2,
      save_png now true self font_size = Saved img
      /\ 800 <= img_width img
      /\ 600 <= img_height img
      /\ map snd (texts img) = header1 :: header2 :: tree_lines self
      /\ Forall (fun t =>
                   fst (fst t) = 20
                   /\ 20 <= snd (fst t)
                   /\ snd (fst t) + (font_size + 4) <= img_height img)
                (texts img).
Proof.
  intros now self font_size [Hlo Hhi].
  unfold save_png. cbn [negb].
  set (lh := font_size + 4). assert (Hlh : 0 <= lh) by (unfold lh; lia).
  set (header_text :=
         ["Folder Tree - Generated " +++ now;
          "Folders: " +++ str_of_int (folders (stats self))
          +++ " | Files: " +++ str_of_int (files (stats self))
          +++ " | Size: " +++ format_size (total_size (stats self))]).
  destruct (draw_lines_spec lh header_text 20 Hlh) as (A1 & A2 & A3).
  destruct (draw_lines lh 20 header_text) as [drawn_header y1].
  cbn [fst snd] in A1, A2, A3.
  destruct (draw_lines_spec lh (tree_lines self) (y1 + 10) Hlh)
    as (B1 & B2 & B3).
  destruct (draw_lines lh (y1 + 10) (tree_lines self)) as [drawn_lines y2].
  cbn [fst snd] in B1, B2, B3.
  eexists. eexists. eexists. split; [reflexivity|].
  cbn [img_width img_height texts].
  split; [lia|]. split; [lia|]. split.
  - rewrite map_app, A2, B2. reflexivity.
  - cbn [List.length header_text] in A1, A3.
    change (Z.of_nat 2) with 2 in A1, A3.
    apply Forall_app. split.
    + revert A3. apply Forall_impl. intros [[x y] t]. cbn [fst snd]. nia.
    + revert B3. apply Forall_impl. intros [[x y] t]. cbn [fst snd]. nia.
Qed.

(** X21.  With a font size of 32 or more the canvas is too low once it
    grows with the lines: when the lines take 500 pixels or more, the slot
    of one line height of the last line ends below the height of the
    canvas. *)
Theorem save_png_overflows :
  forall (now : string) (self : FolderTreeGenerator) (font_size : Z)
         (lines : list string) (line : string),
    32 <= font_size ->
    tree_lines self = lines ++ [line] ->
    500 <= Z.of_nat (List.length (tree_lines self)) * (font_size + 4) ->
    exists img y,
      save_png now true self font_size = Saved img
      /\ In (20, y, line) (texts img)
      /\ img_height img < y + (font_size + 4).
Proof.
  intros now self font_size lines line Hfont Hlines Hmany.
  unfold save_png. cbn [negb].
  set (lh := font_size + 4) in *. assert (Hlh : 0 <= lh) by (unfold lh; lia).
  set (header_text :=
         ["Folder Tree - Generated " +++ now;
          "Folders: " +++ str_of_int (folders (stats self))
          +++ " | Files: " +++ str_of_int (files (stats self))
          +++ " | Size: " +++ format_size (total_size (stats self))]).
  destruct (draw_lines_spec lh header_text 20 Hlh) as (A1 & _ & _).
  destruct (draw_lines lh 20 header_text) as [drawn_header y1].
  cbn [fst snd List.length header_text] in A1.
  change (Z.of_nat 2) with 2 in A1.
  pose proof (draw_lines_last lh lines (y1 + 10) line) as Hlast.
  rewrite <- Hlines in Hlast.
  destruct (draw_lines lh (y1 + 10) (tree_lines self)) as [drawn_lines y2].
  cbn [fst] in Hlast.
  eexists. eexists. split; [reflexivity|].
  cbn [img_height texts]. split.
  - apply in_app_iff. right. exact Hlast.
  - rewrite Hlines in Hmany |- *. rewrite length_app in Hmany |- *.
    cbn [List.length] in Hmany |- *.
    rewrite Nat2Z.inj_add in Hmany |- *. change (Z.of_nat 1) with 1 in *.
    unfold lh in *. nia.
Qed.

(** ** The size on the root line *)




(** ** The further properties on the scenario *)

Lemma run_statistics_bounds_witness :
  let self' :=
    snd (generate_tree false false true None None scenario_fs
                       scenario_generator "project") in
  1 <= folders (stats self')
  /\ 0 <= files (stats self')
  /\ 0 <= truncated_folders (stats self') <= folders (stats self').
Proof.
  exact (run_statistics_bounds false false true None None scenario_fs
           scenario_generator "project" _ _ eq_refl).
Defined.

Lemma run_file_limit_witness :
  let run :=
    generate_tree false false true None None scenario_fs scenario_generator
                  "project" in
  files (stats (snd run)) <= 2 * folders (stats (snd run))
  /\ Z.of_nat (List.length (tree_lines (snd run)))
     <= (2 + 2) * folders (stats (snd run)).
Proof.
  assert (Hpos : 0 < 2) by reflexivity.
  exact (run_file_limit false false true None None scenario_fs
           scenario_generator "project" _ _ 2 eq_refl Hpos eq_refl).
Defined.

Lemma run_on_nothing_visible_witness :
  fst (generate_tree false false true None None
                     (fun _ => Some hidden_only_root) scenario_generator "r")
  = Returned ["📂 r/"]
  /\ stats (snd (generate_tree false false true None None
                               (fun _ => Some hidden_only_root)
                               scenario_generator "r"))
     = mkStats 1 0 0 0.
Proof.
  assert (Hok : limit_ok (max_files_per_folder scenario_generator))
    by (vm_compute; discriminate).
  exact (run_on_nothing_visible false false true None None
           (fun _ => Some hidden_only_root) scenario_generator "r"
           hidden_only_root
           [File ".git" None; File ".env" (Some 3)]
           eq_refl eq_refl eq_refl Hok).
Defined.

Lemma run_without_depth_witness :
  fst (generate_tree false false true None None scenario_fs
                     (__init__ "simple" "simple" 0 None) "project")
  = Returned ["📂 project/"]
  /\ stats (snd (generate_tree false false true None None scenario_fs
                               (__init__ "simple" "simple" 0 None) "project"))
     = mkStats 1 0 0 0.
Proof.
  assert (Hd : max_depth (__init__ "simple" "simple" 0 None) <= 0)
    by (vm_compute; discriminate).
  exact (run_without_depth false false true None None scenario_fs
           (__init__ "simple" "simple" 0 None) "project" scenario_root Hd
           eq_refl).
Defined.

Lemma run_on_a_file_witness :
  fst (generate_tree true false true None None (fun _ => Some notes_md)
                     scenario_generator "notes.md")
  = Returned ["M notes.md/"]
  /\ stats (snd (generate_tree true false true None None
                               (fun _ => Some notes_md) scenario_generator
                               "notes.md"))
     = mkStats 1 0 0 0.
Proof.
  exact (run_on_a_file true false true None None (fun _ => Some notes_md)
           scenario_generator "notes.md" "notes.md" (Some 8) eq_refl).
Defined.

Lemma shown_entries_pass_witness :
  In a_py scenario_src_listing
  /\ (is_dir a_py = true \/ is_file a_py = true)
  /\ should_include_file a_py None None = true
  /\ (false = false -> startswith (name a_py) "." = false).
Proof.
  apply (shown_entries_pass false true None None scenario_generator
           scenario_src_listing a_py).
  vm_compute. left. reflexivity.
Defined.

Lemma passing_entries_shown_witness :
  In scenario_src
     (bt_entries_to_show false true None None scenario_generator
                         [notes_md; scenario_src]).
Proof.
  assert (Hin : In scenario_src [notes_md; scenario_src])
    by (right; left; reflexivity).
  exact (proj1 (passing_entries_shown false true None None
                  scenario_generator [notes_md; scenario_src] scenario_src
                  Hin eq_refl (fun _ => eq_refl))
               eq_refl).
Defined.

Lemma negative_limit_witness :
  let self := __init__ "simple" "simple" 3 (Some (-1)) in
  bt_files_truncated false true None None self scenario_src_listing = true
  /\ bt_displayed_files false true None None self scenario_src_listing
     = [a_py; b_py]
  /\ bt_hidden_count false true None None self scenario_src_listing = 4.
Proof.
  assert (Hneg : -1 < 0) by reflexivity.
  destruct (negative_limit false false true None None
              (__init__ "simple" "simple" 3 (Some (-1))) scenario_src_listing
              (-1) eq_refl Hneg) as (H1 & H2 & H3 & _).
  split; [exact H1|]. split; [rewrite H2 | rewrite H3]; reflexivity.
Defined.

Lemma run_statistics_config_witness :
  stats (snd (generate_tree false false true None None scenario_fs
                            scenario_generator "project"))
  = stats (snd (generate_tree true false true None None scenario_fs
                              (__init__ "ascii" "professional" 3 (Some 2))
                              "project")).
Proof.
  exact (proj1 (run_statistics_config false true None None false true
                  scenario_fs scenario_generator
                  (__init__ "ascii" "professional" 3 (Some 2)) "project"
                  eq_refl eq_refl)).
Defined.

Lemma lines_indented_witness :
  Forall (fun line =>
            exists g rest,
              line = g +++ rest
              /\ (g = junction (style scenario_generator)
                  \/ g = corner (style scenario_generator)
                  \/ g = vertical (style scenario_generator)
                  \/ g = space (style scenario_generator)))
         ["├─ 📂 src/"; "│ ├─ P a.py"; "│ ├─ P b.py";
          "│ └─ ... (1 more files)"; "└─ M notes.md"].
Proof.
  assert (Hrun :
            generate_tree false false true None None scenario_fs
                          scenario_generator "project"
            = (Returned ["📂 project/"; "├─ 📂 src/"; "│ ├─ P a.py";
                         "│ ├─ P b.py"; "│ └─ ... (1 more files)";
                         "└─ M notes.md"],
               snd (generate_tree false false true None None scenario_fs
                                  scenario_generator "project")))
    by reflexivity.
  destruct (proj2 (lines_indented false false true None None) scenario_fs
              scenario_generator "project" _ _ Hrun)
    as (first & rest_lines & Hlines & Hall).
  injection Hlines as _ <-. apply Forall_forall. exact Hall.
Defined.

Lemma should_include_file_iff_witness :
  (forall pattern, In pattern ["tmp"] -> ~ occurs_in pattern (name a_py))
  /\ (is_dir a_py = true
      \/ ["images"; "code"] = []
      \/ exists category,
           In category ["images"; "code"]
           /\ In (lower (suffix a_py))
                 (file_categories_get file_categories category)).
Proof.
  exact (proj1 (should_include_file_iff a_py (Some ["images"; "code"])
                  (Some ["tmp"]))
               eq_refl).
Defined.

Lemma style_fallback_witness :
  style (__init__ "fancy" "simple" 3 None) = STYLES_simple.
Proof.
  apply (style_fallback "fancy" "simple" 3 None). discriminate.
Defined.

Lemma format_size_bytes_witness : format_size 512 = "512.0 B".
Proof.
  apply (format_size_bytes 512). split; reflexivity.
Defined.

Lemma format_size_rounds_up_to_1024_witness :
  format_size 1048575 = "1024.0 KB".
Proof.
  apply (format_size_rounds_up_to_1024 1048575).
  split; [vm_compute; discriminate | reflexivity].
Defined.

Lemma save_text_read_back_witness :
  read_lines
    (save_text "2024-01-01 10:00:00" (fun p => p)
               (snd (generate_tree false false true None None scenario_fs
                                   scenario_generator "project"))
               false "project")
  = ["📂 project/"; "├─ 📂 src/"; "│ ├─ P a.py"; "│ ├─ P b.py";
     "│ └─ ... (1 more files)"; "└─ M notes.md"].
Proof.
  exact (save_text_read_back "2024-01-01 10:00:00" (fun p => p)
           (snd (generate_tree false false true None None scenario_fs
                               scenario_generator "project"))
           "project" eq_refl).
Defined.

Lemma save_png_fits_witness :
  exists img header1 header2,
    save_png "2024-01-01 10:00:00" true fourteen_lines 12 = Saved img
    /\ 800 <= img_width img
    /\ 600 <= img_height img
    /\ map snd (texts img) = header1 :: header2 :: tree_lines fourteen_lines
    /\ Forall (fun t =>
                 fst (fst t) = 20
                 /\ 20 <= snd (fst t)
                 /\ snd (fst t) + (12 + 4) <= img_height img)
              (texts img).
Proof.
  apply (save_png_fits "2024-01-01 10:00:00" fourteen_lines 12).
  split; vm_compute; discriminate.
Defined.

Lemma save_png_overflows_witness :
  exists img y,
    save_png "2024-01-01 10:00:00" true fourteen_lines 32 = Saved img
    /\ In (20, y, "last") (texts img)
    /\ img_height img < y + (32 + 4).
Proof.
  apply (save_png_overflows "2024-01-01 10:00:00" fourteen_lines 32
           (repeat "x" 13) "last").
  - vm_compute. discriminate.
  - reflexivity.
  - vm_compute. discriminate.
Defined.

